(** * cc-daily-reports: the history parser and its helpers

    A shallow embedding of [src/utils.ts] and [src/parser.ts]: directory
    name decoding, JSONL reading, per-file session reconstruction and the
    per-day aggregation, with the duration text of [src/index.ts],
    followed by the properties proved about them.

    Conventions.
    - A JavaScript string is a [string]; each [ascii] stands for one
      UTF-16 code unit (code units below 256 are covered).
    - A JavaScript number that the code only uses as an integer (counts,
      minutes, epoch milliseconds) is a [Z].
    - A [Date] is its time value in milliseconds, or [None] for the
      Invalid Date (time value NaN).
    - A function that may throw returns a [result]; the parser methods
      that also push onto [this.errors] / [this.warnings] live in the
      monad [M].
    - Built-ins whose behaviour is fixed outside this repository
      ([JSON.parse], date-fns [parseISO] and [startOfDay], [path.join],
      [path.basename]) are the fields of a [Platform]; the file system is
      a [FileSystem].  The general statements hold for every platform and
      file system; the module [Reference] gives one executable platform,
      on which the examples are run. *)

From Stdlib Require Import String Ascii List ZArith Lia Bool Arith.
From Stdlib Require Import Permutation Sorted DecimalString.
From Stdlib Require Import DecimalNat.
Import ListNotations.

Local Open Scope string_scope.
Local Open Scope list_scope.

Set Implicit Arguments.

(* ------------------------------------------------------------------ *)
(** ** Exceptions *)

(** The three kinds of error object that can travel through the code. *)
Inductive exn : Type :=
| Error (message : string)        (* new Error(message), and fs errors *)
| SyntaxError (message : string)  (* thrown by JSON.parse *)
| TypeError (message : string).   (* property read on null, call of a non-function *)

(** [`${error}`]: Error.prototype.toString gives "name: message". *)
Definition exn_toString (e : exn) : string :=
  match e with
  | Error m => "Error: " ++ m
  | SyntaxError m => "SyntaxError: " ++ m
  | TypeError m => "TypeError: " ++ m
  end.

Inductive result (A : Type) : Type :=
| Ok (a : A)
| Throw (e : exn).
Arguments Ok {A} a.
Arguments Throw {A} e.

Definition rbind {A B} (r : result A) (k : A -> result B) : result B :=
  match r with
  | Ok a => k a
  | Throw e => Throw e
  end.

Declare Scope result_scope.
Delimit Scope result_scope with result.
Notation "x <- r ;; k" := (rbind r (fun x => k))
  (at level 61, r at next level, right associativity) : result_scope.

(** [try { body } catch (error) { handler }] for a pure body. *)
Definition tryCatch {A} (body : result A) (handler : exn -> result A) : result A :=
  match body with
  | Ok a => Ok a
  | Throw e => handler e
  end.

(* ------------------------------------------------------------------ *)
(** ** JavaScript strings and arrays *)

Module Js.

(** [`${n}`] for a non-negative integer. *)
Definition showNat (n : nat) : string := NilEmpty.string_of_uint (Nat.to_uint n).

(** WhiteSpace and LineTerminator code units below 256:
    TAB, LF, VT, FF, CR, SP and NBSP. *)
Definition isWhiteSpace (c : ascii) : bool :=
  let n := nat_of_ascii c in
  ((n =? 9) || (n =? 10) || (n =? 11) || (n =? 12) || (n =? 13)
   || (n =? 32) || (n =? 160))%nat.

(** Removes the longest prefix of characters satisfying [p]. *)
Fixpoint dropLeading (p : ascii -> bool) (s : string) : string :=
  match s with
  | EmptyString => EmptyString
  | String c s' => if p c then dropLeading p s' else s
  end.

(** Removes the longest suffix of characters satisfying [p]. *)
Fixpoint dropTrailing (p : ascii -> bool) (s : string) : string :=
  match s with
  | EmptyString => EmptyString
  | String c s' =>
      match dropTrailing p s' with
      | EmptyString => if p c then EmptyString else String c EmptyString
      | r => String c r
      end
  end.

(** [String.prototype.trim]. *)
Definition trim (s : string) : string :=
  dropTrailing isWhiteSpace (dropLeading isWhiteSpace s).

(** [s.split(sep)] for a one-character separator; never empty:
    [''.split(sep)] is [['']]. *)
Fixpoint split (sep : ascii) (s : string) : list string :=
  match s with
  | EmptyString => [EmptyString]
  | String c s' =>
      if Ascii.eqb c sep then EmptyString :: split sep s'
      else match split sep s' with
           | h :: t => String c h :: t
           | [] => [String c EmptyString]
           end
  end.

(** [parts.join(sep)]. *)
Definition join (sep : string) (parts : list string) : string :=
  String.concat sep parts.

(** [arr.slice(start)]: a negative [start] counts from the end. *)
Definition slice {A} (start : Z) (arr : list A) : list A :=
  let len := Z.of_nat (length arr) in
  let k := if (start <? 0)%Z then Z.max (len + start) 0 else Z.min start len in
  skipn (Z.to_nat k) arr.

(** [s.replace(/^-/, '')]: removes one leading occurrence of [c]. *)
Definition dropOneLeading (c : ascii) (s : string) : string :=
  match s with
  | String c' s' => if Ascii.eqb c' c then s' else s
  | EmptyString => EmptyString
  end.

(** [s.replace(/a/g, 'b')] for single characters. *)
Fixpoint replaceAll (a b : ascii) (s : string) : string :=
  match s with
  | EmptyString => EmptyString
  | String c s' => String (if Ascii.eqb c a then b else c) (replaceAll a b s')
  end.

Definition startsWith (s pre : string) : bool := String.prefix pre s.

Fixpoint rev_string (s : string) : string :=
  match s with
  | EmptyString => EmptyString
  | String c s' => rev_string s' ++ String c EmptyString
  end.

Definition endsWith (s suf : string) : bool :=
  String.prefix (rev_string suf) (rev_string s).

(** [a || b] on strings: the empty string is falsy. *)
Definition strOr (a b : string) : string :=
  match a with
  | EmptyString => b
  | _ => a
  end.

(** [arr[i] || dflt] on an array of strings: [undefined] and [''] are falsy. *)
Definition nthOr (arr : list string) (i : nat) (dflt : string) : string :=
  match nth_error arr i with
  | Some s => strOr s dflt
  | None => dflt
  end.

(** One insertion step of the sort below: [x] goes in front of the first
    element it is not greater than. *)
Fixpoint insert {A} (cmp : A -> A -> Z) (x : A) (l : list A) : list A :=
  match l with
  | [] => [x]
  | y :: l' => if (0 <? cmp x y)%Z then y :: insert cmp x l' else x :: l
  end.

(** [arr.sort(cmp)].  ECMAScript requires the sort to be stable, so for a
    consistent comparator the result is the one stable sorted arrangement;
    it is computed here by insertion from the right. *)
Definition sort {A} (cmp : A -> A -> Z) (arr : list A) : list A :=
  fold_right (insert cmp) [] arr.

(** [arr.reduce((sum, x) => sum + f(x), 0)]. *)
Definition sumOf {A} (f : A -> Z) (arr : list A) : Z :=
  fold_left (fun sum x => (sum + f x)%Z) arr 0%Z.

(** [arr.filter(f)] for a callback that may throw: elements are visited in
    order and the first exception leaves the call. *)
Fixpoint filterM {A} (f : A -> result bool) (arr : list A) : result (list A) :=
  match arr with
  | [] => Ok []
  | x :: rest =>
      (keep <- f x ;;
       kept <- filterM f rest ;;
       Ok (if keep then x :: kept else kept))%result
  end.

(** [arr.map(f)] for a callback that may throw. *)
Fixpoint mapM {A B} (f : A -> result B) (arr : list A) : result (list B) :=
  match arr with
  | [] => Ok []
  | x :: rest =>
      (y <- f x ;;
       ys <- mapM f rest ;;
       Ok (y :: ys))%result
  end.

(** [arr.map((x, index) => f(x, index))], indices counted from [index]. *)
Fixpoint mapiM {A B} (f : A -> nat -> result B) (index : nat) (arr : list A)
  : result (list B) :=
  match arr with
  | [] => Ok []
  | x :: rest =>
      (y <- f x index ;;
       ys <- mapiM f (S index) rest ;;
       Ok (y :: ys))%result
  end.

End Js.

(* ------------------------------------------------------------------ *)
(** ** JSON values *)

(** What [JSON.parse] returns.  A number is kept as the decimal value
    [m * 10^e] of its literal (its rounding to a double is not modelled;
    the parser only ever tests such a value for being zero); an object as
    its members in order. *)
#[warnings="-register-all"]
Inductive json : Type :=
| JNull
| JBool (b : bool)
| JNum (m e : Z)
| JStr (s : string)
| JArr (items : list json)
| JObj (members : list (string * json)).

(** A JavaScript value as the parser sees it: a JSON value or [undefined]. *)
Definition value : Type := option json.
Definition undefined : value := None.

Module Json.

(** Own property of an object literal; when a key is repeated JSON.parse
    keeps the last one. *)
Fixpoint lookup (k : string) (members : list (string * json)) : value :=
  match members with
  | [] => undefined
  | (k', v) :: rest =>
      match lookup k rest with
      | Some v' => Some v'
      | None => if String.eqb k' k then Some v else undefined
      end
  end.

(** [v.k] for the property names the parser reads ([timestamp], [type],
    [message], [role], [content], [text]): none of them is inherited, so
    only an object can have one, and reading from [null] or [undefined]
    throws. *)
Definition get (v : value) (k : string) : result value :=
  match v with
  | None =>
      Throw (TypeError ("Cannot read properties of undefined (reading '" ++ k ++ "')"))
  | Some JNull =>
      Throw (TypeError ("Cannot read properties of null (reading '" ++ k ++ "')"))
  | Some (JObj members) => Ok (lookup k members)
  | Some _ => Ok undefined
  end.

(** [v?.k]. *)
Definition getOpt (v : value) (k : string) : result value :=
  match v with
  | None | Some JNull => Ok undefined
  | _ => get v k
  end.

(** ToBoolean. *)
Definition truthy (v : value) : bool :=
  match v with
  | None => false
  | Some JNull => false
  | Some (JBool b) => b
  | Some (JNum m _) => negb (m =? 0)%Z
  | Some (JStr s) => negb (String.eqb s EmptyString)
  | Some (JArr _) => true
  | Some (JObj _) => true
  end.

(** [v === 'lit']. *)
Definition isString (v : value) (lit : string) : bool :=
  match v with
  | Some (JStr s) => String.eqb s lit
  | _ => false
  end.

End Json.

(* ------------------------------------------------------------------ *)
(** ** The platform: built-ins and the file system *)

(** A [Date] object: its time value in milliseconds since the epoch, or
    [None] for the Invalid Date. *)
Definition Date : Type := option Z.

Record Platform : Type := {
  (** [JSON.parse(text)]; throws a SyntaxError on malformed text. *)
  JSON_parse : string -> result json;
  (** date-fns [parseISO] on a string; Invalid Date when it does not parse. *)
  parseISO : string -> Date;
  (** date-fns [startOfDay] on a valid time value: midnight of its
      calendar day in the local time zone of the process. *)
  startOfDay : Z -> Z;
  (** [`${date}`] for a Date object. *)
  Date_toString : Date -> string;
  (** Node's [path.join(a, b)] and [path.basename(p, ext)]. *)
  path_join : string -> string -> string;
  path_basename : string -> string -> string
}.

(** What a path names: a file with its text, or a directory with its
    entries; either can be unreadable, which is the exception stored. *)
Inductive node : Type :=
| File (content : result string)
| Directory (entries : result (list string)).

Definition FileSystem : Type := string -> option node.

Module Fs.

Definition ENOENT (syscall path : string) : exn :=
  Error ("ENOENT: no such file or directory, " ++ syscall ++ " '" ++ path ++ "'").

(** [fs.statSync(p).isDirectory()]. *)
Definition statIsDirectory (fs : FileSystem) (p : string) : result bool :=
  match fs p with
  | Some (Directory _) => Ok true
  | Some (File _) => Ok false
  | None => Throw (ENOENT "stat" p)
  end.

(** [fs.readdirSync(p)]. *)
Definition readdirSync (fs : FileSystem) (p : string) : result (list string) :=
  match fs p with
  | Some (Directory entries) => entries
  | Some (File _) => Throw (Error ("ENOTDIR: not a directory, scandir '" ++ p ++ "'"))
  | None => Throw (ENOENT "scandir" p)
  end.

(** [fs.readFileSync(p, 'utf-8')]. *)
Definition readFileSync (fs : FileSystem) (p : string) : result string :=
  match fs p with
  | Some (File content) => content
  | Some (Directory _) => Throw (Error "EISDIR: illegal operation on a directory, read")
  | None => Throw (ENOENT "open" p)
  end.

End Fs.

Module DateFns.

Definition isValid (d : Date) : bool :=
  match d with
  | Some _ => true
  | None => false
  end.

(** [isSameDay(l, r)]: [+startOfDay(l) === +startOfDay(r)], which is false
    as soon as one side is NaN. *)
Definition isSameDay (P : Platform) (l r : Date) : bool :=
  match l, r with
  | Some x, Some y => (startOfDay P x =? startOfDay P y)%Z
  | _, _ => false
  end.

(** [differenceInMinutes(l, r)] on valid dates: the difference in
    milliseconds over 60000, truncated towards zero. *)
Definition differenceInMinutes (l r : Z) : Z := Z.quot (l - r) 60000.

(** [a.getTime() - b.getTime()] as a sort comparator: a NaN result counts
    as +0. *)
Definition compareTime (a b : Date) : Z :=
  match a, b with
  | Some x, Some y => (x - y)%Z
  | _, _ => 0%Z
  end.

End DateFns.

(* ------------------------------------------------------------------ *)
(** ** utils.ts *)

(** An argument of type [Date | string]. *)
Inductive DateOrString : Type :=
| ADate (d : Date)
| AString (s : string).

Section Utils.

Variable P : Platform.
Variable fs : FileSystem.

(** [typeof date === 'string' ? parseISO(date) : date]. *)
Definition toDate (date : DateOrString) : Date :=
  match date with
  | AString s => parseISO P s
  | ADate d => d
  end.

Definition showDateOrString (date : DateOrString) : string :=
  match date with
  | AString s => s
  | ADate d => Date_toString P d
  end.

Definition calculateDuration (startTime endTime : DateOrString) : result Z :=
  let start := toDate startTime in
  let end_ := toDate endTime in
  match start, end_ with
  | Some s, Some e => Ok (DateFns.differenceInMinutes e s)
  | _, _ =>
      Throw (Error ("Invalid dates: " ++ showDateOrString startTime ++ " - "
                    ++ showDateOrString endTime))
  end.

Definition isDash (c : ascii) : bool := Ascii.eqb c "-".

Definition extractProjectName (dirName : string) : string :=
  let cleaned := Js.dropTrailing isDash (Js.dropLeading isDash dirName) in
  let parts := Js.split "-" cleaned in
  if (length parts =? 0)%nat then dirName
  else if (length parts =? 6)%nat then
    if match nth_error parts 2 with
       | Some p => (String.length p =? 1)%nat
       | None => false
       end
    then
      let projectParts := Js.slice (-2) parts in
      Js.join "-" projectParts
    else
      let projectParts := Js.slice 3 parts in
      Js.join "-" projectParts
  else if (4 <=? length parts)%nat then
    let projectParts := Js.slice (-2) parts in
    Js.join "-" projectParts
  else if (2 <=? length parts)%nat then
    Js.nthOr parts (length parts - 1) dirName
  else
    Js.nthOr parts 0 dirName.

Definition extractProjectPath (dirName : string) : string :=
  Js.replaceAll "-" "/" (Js.dropOneLeading "-" dirName).

Definition directoryExists (dirPath : string) : bool :=
  match Fs.statIsDirectory fs dirPath with
  | Ok isDir => isDir
  | Throw _ => false
  end.

Definition readJsonlFile (filePath : string) : result (list json) :=
  tryCatch
    (content <- Fs.readFileSync fs filePath ;;
     let lines := Js.split "010" (Js.trim content) in
     Js.mapiM
       (fun line index =>
          tryCatch (JSON_parse P line)
            (fun error =>
               Throw (Error ("Failed to parse line " ++ Js.showNat (index + 1)
                             ++ " in " ++ filePath ++ ": " ++ exn_toString error))))
       0 lines)%result
    (fun error =>
       Throw (Error ("Failed to read JSONL file " ++ filePath ++ ": "
                     ++ exn_toString error))).

Definition isValidDateString (dateString : string) : bool :=
  DateFns.isValid (parseISO P dateString).

End Utils.

(* ------------------------------------------------------------------ *)
(** ** types.ts *)

(** [userMessages] is declared [string[]]; at run time it holds whatever
    the content of an event gave, so it is a list of JSON values here. *)
Module SessionInfo.
Record t : Type := mk {
  sessionId : string;
  projectPath : string;
  startTime : Date;
  endTime : Date;
  duration : Z;
  messageCount : Z;
  userMessages : list json
}.
End SessionInfo.

Module ProjectInfo.
Record t : Type := mk {
  name : string;
  path : string;
  sessions : list SessionInfo.t;
  totalDuration : Z;
  totalMessages : Z;
  date : string
}.
End ProjectInfo.

Module Summary.
Record t : Type := mk {
  totalDuration : Z;
  totalMessages : Z;
  projectCount : Z;
  sessionCount : Z
}.
End Summary.

Module DailyReport.
Record t : Type := mk {
  date : string;
  projects : list ProjectInfo.t;
  summary : Summary.t
}.
End DailyReport.

Module ParseError.
Record t : Type := mk {
  file : string;
  line : Z;
  message : string;
  originalError : exn
}.
End ParseError.

Module ProcessResult.
Record t : Type := mk {
  success : bool;
  data : option DailyReport.t;
  errors : list ParseError.t;
  warnings : list string
}.
End ProcessResult.

(* ------------------------------------------------------------------ *)
(** ** The parser's mutable fields and its monad *)

(** [this.errors] and [this.warnings] of a [ClaudeHistoryParser]. *)
Record ParserState : Type := {
  errors : list ParseError.t;
  warnings : list string
}.

(** A method body: it reads and updates the two fields and either returns
    or throws; what was pushed before a throw stays pushed. *)
Definition M (A : Type) : Type := ParserState -> result A * ParserState.

Definition ret {A} (a : A) : M A := fun st => (Ok a, st).

Definition throw {A} (e : exn) : M A := fun st => (Throw e, st).

Definition lift {A} (r : result A) : M A := fun st => (r, st).

Definition bind {A B} (m : M A) (k : A -> M B) : M B :=
  fun st =>
    match m st with
    | (Ok a, st') => k a st'
    | (Throw e, st') => (Throw e, st')
    end.

Definition catch {A} (body : M A) (handler : exn -> M A) : M A :=
  fun st =>
    match body st with
    | (Ok a, st') => (Ok a, st')
    | (Throw e, st') => handler e st'
    end.

(** [this.errors.push(e)]. *)
Definition pushError (e : ParseError.t) : M unit :=
  fun st => (Ok tt, {| errors := errors st ++ [e]; warnings := warnings st |}).

(** [this.warnings.push(w)]. *)
Definition pushWarning (w : string) : M unit :=
  fun st => (Ok tt, {| errors := errors st; warnings := warnings st ++ [w] |}).

Declare Scope parser_scope.
Delimit Scope parser_scope with parser.
Notation "x <- m ;; k" := (bind m (fun x => k))
  (at level 61, m at next level, right associativity) : parser_scope.
Notation "m ;; k" := (bind m (fun _ => k))
  (at level 61, right associativity) : parser_scope.

(* ------------------------------------------------------------------ *)
(** ** parser.ts: class ClaudeHistoryParser *)

Section Parser.

Variable P : Platform.
Variable fs : FileSystem.
(** [this.claudeProjectsPath]. *)
Variable claudeProjectsPath : string.

Definition getProjectDirectories : result (list string) :=
  tryCatch
    (entries <- Fs.readdirSync fs claudeProjectsPath ;;
     Ok (filter
           (fun entry =>
              let fullPath := path_join P claudeProjectsPath entry in
              directoryExists fs fullPath && Js.startsWith entry "-")
           entries))%result
    (fun error =>
       Throw (Error ("Failed to read projects directory: " ++ exn_toString error))).

Definition getJsonlFiles (projectPath : string) : result (list string) :=
  tryCatch
    (entries <- Fs.readdirSync fs projectPath ;;
     Ok (map (fun entry => path_join P projectPath entry)
           (filter (fun entry => Js.endsWith entry ".jsonl") entries)))%result
    (fun error =>
       Throw (Error ("Failed to read project directory: " ++ exn_toString error))).

(** [parseISO(v)] on a value read from an entry: date-fns 3 calls
    [v.split] straight away, which only a string has. *)
Definition parseISOValue (v : value) : result Date :=
  match v with
  | Some (JStr s) => Ok (parseISO P s)
  | _ => Throw (TypeError "dateString.split is not a function")
  end.

(** The callback of the first filter of [parseSessionFile]: the entry has
    a timestamp and it falls on the target day. *)
Definition onTargetDate (targetDate : string) (entry : json) : result bool :=
  (timestamp <- Json.get (Some entry) "timestamp" ;;
   if negb (Json.truthy timestamp) then Ok false
   else
     entryDate <- parseISOValue timestamp ;;
     let target := parseISO P targetDate in
     Ok (DateFns.isSameDay P entryDate target))%result.

(** [entry.type === 'user' && entry.message?.role === 'user']. *)
Definition isUserMessage (entry : json) : result bool :=
  (type <- Json.get (Some entry) "type" ;;
   if Json.isString type "user" then
     message <- Json.get (Some entry) "message" ;;
     role <- Json.getOpt message "role" ;;
     Ok (Json.isString role "user")
   else Ok false)%result.

(** [content.find(item => item.type === 'text')]. *)
Fixpoint findTextItem (content : list json) : result value :=
  match content with
  | [] => Ok undefined
  | item :: rest =>
      (type <- Json.get (Some item) "type" ;;
       if Json.isString type "text" then Ok (Some item)
       else findTextItem rest)%result
  end.

(** The callback of the map that builds [userMessages]. *)
Definition userMessageOf (entry : json) : result json :=
  (message <- Json.get (Some entry) "message" ;;
   content <- Json.getOpt message "content" ;;
   match content with
   | Some (JStr s) => Ok (JStr s)
   | Some (JArr items) =>
       textContent <- findTextItem items ;;
       text <- Json.getOpt textContent "text" ;;
       match text with
       | Some t => Ok (if Json.truthy text then t else JStr "[Tool use]")
       | None => Ok (JStr "[Tool use]")
       end
   | _ => Ok (JStr "[Unknown content]")
   end)%result.

(** [entry => entry.timestamp] used as a filter. *)
Definition hasTimestamp (entry : json) : result bool :=
  (timestamp <- Json.get (Some entry) "timestamp" ;;
   Ok (Json.truthy timestamp))%result.

(** [entry => parseISO(entry.timestamp!)]. *)
Definition timestampOf (entry : json) : result Date :=
  (timestamp <- Json.get (Some entry) "timestamp" ;;
   parseISOValue timestamp)%result.

Definition parseSessionFile (filePath targetDate projectPath : string)
  : result (option SessionInfo.t) :=
  (entries <- readJsonlFile P fs filePath ;;
   let sessionId := path_basename P filePath ".jsonl" in
   targetEntries <- Js.filterM (onTargetDate targetDate) entries ;;
   if (length targetEntries =? 0)%nat then Ok None
   else
     userEntries <- Js.filterM isUserMessage targetEntries ;;
     userMessages <- Js.mapM userMessageOf userEntries ;;
     if (length userMessages =? 0)%nat then Ok None
     else
       stamped <- Js.filterM hasTimestamp targetEntries ;;
       dates <- Js.mapM timestampOf stamped ;;
       let timestamps := Js.sort DateFns.compareTime dates in
       if (length timestamps =? 0)%nat then Ok None
       else
         match nth_error timestamps 0,
               nth_error timestamps (length timestamps - 1) with
         | Some startTime, Some endTime =>
             duration <- calculateDuration P (ADate startTime) (ADate endTime) ;;
             Ok (Some {| SessionInfo.sessionId := sessionId;
                         SessionInfo.projectPath := projectPath;
                         SessionInfo.startTime := startTime;
                         SessionInfo.endTime := endTime;
                         SessionInfo.duration := duration;
                         SessionInfo.messageCount := Z.of_nat (length userMessages);
                         SessionInfo.userMessages := userMessages |})
         | _, _ => Ok None
         end)%result.

(** The [for (const jsonlFile of jsonlFiles)] loop of
    [parseProjectForDate]; [sessions] is the array filled so far. *)
Fixpoint forEachJsonlFile (jsonlFiles : list string) (targetDate actualPath : string)
    (sessions : list SessionInfo.t) : M (list SessionInfo.t) :=
  match jsonlFiles with
  | [] => ret sessions
  | jsonlFile :: rest =>
      (sessions' <-
         catch
           (sessionInfo <- lift (parseSessionFile jsonlFile targetDate actualPath) ;;
            match sessionInfo with
            | Some info => ret (sessions ++ [info])
            | None => ret sessions
            end)
           (fun error =>
              pushError {| ParseError.file := jsonlFile;
                           ParseError.line := 0;
                           ParseError.message :=
                             "Failed to parse session file: " ++ exn_toString error;
                           ParseError.originalError := error |} ;;
              ret sessions) ;;
       forEachJsonlFile rest targetDate actualPath sessions')%parser
  end.

(** [(a, b) => a.startTime.getTime() - b.startTime.getTime()]. *)
Definition byStartTime (a b : SessionInfo.t) : Z :=
  DateFns.compareTime (SessionInfo.startTime a) (SessionInfo.startTime b).

Definition parseProjectForDate (projectDir targetDate : string)
  : M (option ProjectInfo.t) :=
  let projectPath := path_join P claudeProjectsPath projectDir in
  let projectName := extractProjectName projectDir in
  let actualPath := extractProjectPath projectDir in
  (jsonlFiles <- lift (getJsonlFiles projectPath) ;;
   if (length jsonlFiles =? 0)%nat then
     pushWarning ("No JSONL files found in project: " ++ projectName) ;;
     ret None
   else
     sessions <- forEachJsonlFile jsonlFiles targetDate actualPath [] ;;
     if (length sessions =? 0)%nat then ret None
     else
       let totalDuration := Js.sumOf SessionInfo.duration sessions in
       let totalMessages := Js.sumOf SessionInfo.messageCount sessions in
       ret (Some {| ProjectInfo.name := projectName;
                    ProjectInfo.path := actualPath;
                    ProjectInfo.sessions := Js.sort byStartTime sessions;
                    ProjectInfo.totalDuration := totalDuration;
                    ProjectInfo.totalMessages := totalMessages;
                    ProjectInfo.date := targetDate |}))%parser.

Definition calculateSummary (projects : list ProjectInfo.t) : Summary.t :=
  let totalDuration := Js.sumOf ProjectInfo.totalDuration projects in
  let totalMessages := Js.sumOf ProjectInfo.totalMessages projects in
  let sessionCount :=
    Js.sumOf (fun project => Z.of_nat (length (ProjectInfo.sessions project))) projects in
  {| Summary.totalDuration := totalDuration;
     Summary.totalMessages := totalMessages;
     Summary.projectCount := Z.of_nat (length projects);
     Summary.sessionCount := sessionCount |}.

(** The [for (const projectDir of projectDirs)] loop of [parseForDate];
    [projects] is the array filled so far. *)
Fixpoint forEachProjectDir (projectDirs : list string) (targetDate : string)
    (projects : list ProjectInfo.t) : M (list ProjectInfo.t) :=
  match projectDirs with
  | [] => ret projects
  | projectDir :: rest =>
      (projects' <-
         catch
           (projectInfo <- parseProjectForDate projectDir targetDate ;;
            match projectInfo with
            | Some info =>
                if (0 <? length (ProjectInfo.sessions info))%nat
                then ret (projects ++ [info])
                else ret projects
            | None => ret projects
            end)
           (fun error =>
              pushError {| ParseError.file := projectDir;
                           ParseError.line := 0;
                           ParseError.message :=
                             "Failed to parse project: " ++ exn_toString error;
                           ParseError.originalError := error |} ;;
              ret projects) ;;
       forEachProjectDir rest targetDate projects')%parser
  end.

(** [(a, b) => b.totalDuration - a.totalDuration]. *)
Definition byTotalDurationDesc (a b : ProjectInfo.t) : Z :=
  (ProjectInfo.totalDuration b - ProjectInfo.totalDuration a)%Z.

(** The shared tail of the two public methods: the [try] block has either
    returned the report or thrown, and the [catch] turns a throw into a
    failed result. *)
Definition finish (body : M DailyReport.t) : ProcessResult.t :=
  match body {| errors := []; warnings := [] |} with
  | (Ok report, st) =>
      {| ProcessResult.success := true;
         ProcessResult.data := Some report;
         ProcessResult.errors := errors st;
         ProcessResult.warnings := warnings st |}
  | (Throw error, st) =>
      {| ProcessResult.success := false;
         ProcessResult.data := None;
         ProcessResult.errors :=
           errors st ++ [{| ParseError.file := "parser";
                            ParseError.line := 0;
                            ParseError.message := "Parse failed: " ++ exn_toString error;
                            ParseError.originalError := error |}];
         ProcessResult.warnings := warnings st |}
  end.

Definition parseForDate (targetDate : string) : ProcessResult.t :=
  finish
    ((if negb (isValidDateString P targetDate)
      then throw (Error ("Invalid date format: " ++ targetDate))
      else ret tt) ;;
     (if negb (directoryExists fs claudeProjectsPath)
      then throw (Error ("Claude projects directory not found: " ++ claudeProjectsPath))
      else ret tt) ;;
     projectDirs <- lift getProjectDirectories ;;
     if (length projectDirs =? 0)%nat then
       pushWarning "No Claude projects found" ;;
       ret {| DailyReport.date := targetDate;
              DailyReport.projects := [];
              DailyReport.summary :=
                {| Summary.totalDuration := 0;
                   Summary.totalMessages := 0;
                   Summary.projectCount := 0;
                   Summary.sessionCount := 0 |} |}
     else
       projects <- forEachProjectDir projectDirs targetDate [] ;;
       let summary := calculateSummary projects in
       ret {| DailyReport.date := targetDate;
              DailyReport.projects := Js.sort byTotalDurationDesc projects;
              DailyReport.summary := summary |})%parser.

Definition parseProjectOnly (projectName targetDate : string) : ProcessResult.t :=
  finish
    (projectDirs <- lift getProjectDirectories ;;
     let matchingDir :=
       find (fun dir => String.eqb (extractProjectName dir) projectName) projectDirs in
     match matchingDir with
     | None => throw (Error ("Project not found: " ++ projectName))
     | Some EmptyString => throw (Error ("Project not found: " ++ projectName))
     | Some matchingDir =>
         projectInfo <- parseProjectForDate matchingDir targetDate ;;
         let projects := match projectInfo with
                         | Some info => [info]
                         | None => []
                         end in
         let summary := calculateSummary projects in
         ret {| DailyReport.date := targetDate;
                DailyReport.projects := projects;
                DailyReport.summary := summary |}
     end)%parser.

Definition getAvailableProjects : list string :=
  match getProjectDirectories with
  | Ok projectDirs => map extractProjectName projectDirs
  | Throw _ => []
  end.

End Parser.

(* ------------------------------------------------------------------ *)
(** ** utils.ts, the remaining pure helpers *)

(** [`${n}`] for an integer. *)
Definition showInt (n : Z) : string :=
  if (n <? 0)%Z then "-" ++ Js.showNat (Z.to_nat (- n)) else Js.showNat (Z.to_nat n).

(** [formatDuration(minutes)] on an integer: [Math.floor(minutes / 60)] is
    the floor quotient and [minutes % 60] the remainder with the sign of
    [minutes].  The two unit texts are Japanese; they are written here as
    the source has them, which gives their UTF-8 bytes, and they are only
    ever concatenated. *)
Definition formatDuration (minutes : Z) : string :=
  if (minutes =? 0)%Z then "0分"
  else
    let hours := (minutes / 60)%Z in
    let remainingMinutes := Z.rem minutes 60 in
    if (hours =? 0)%Z then showInt remainingMinutes ++ "分"
    else if (remainingMinutes =? 0)%Z then showInt hours ++ "時間"
    else showInt hours ++ "時間" ++ showInt remainingMinutes ++ "分".

(** The characters [createSafeFilePath] replaces, the class of its
    regular expression: the angle brackets, the colon, the double quote,
    the slash, the backslash, the bar, the question mark and the star. *)
Definition isUnsafeChar (c : ascii) : bool :=
  existsb (Ascii.eqb c)
    ["<"; ">"; ":"; "034"; "/"; "\"; "|"; "?"; "*"]%char.

(** [filename.replace(/[...]/g, '_')]. *)
Fixpoint replaceUnsafe (filename : string) : string :=
  match filename with
  | EmptyString => EmptyString
  | String c rest => String (if isUnsafeChar c then "_"%char else c) (replaceUnsafe rest)
  end.

Definition createSafeFilePath (P : Platform) (dir filename : string) : string :=
  let safeFilename := replaceUnsafe filename in
  path_join P dir safeFilename.

(** [set.add(x)] on the elements of a Set in insertion order: a value
    already present is not added again. *)
Definition setAdd (elements : list string) (x : string) : list string :=
  if existsb (String.eqb x) elements then elements else elements ++ [x].

(** [uniqueArray(array)], that is [[...new Set(array)]], on strings. *)
Definition uniqueArray (array : list string) : list string :=
  fold_left setAdd array [].

(* ------------------------------------------------------------------ *)
(** ** index.ts: the duration shown by [showSummary] *)

(** [formatMinutes(minutes)] of [ClaudeDailyReportGenerator]. *)
Definition formatMinutes (minutes : Z) : string :=
  if (minutes =? 0)%Z then "0min"
  else
    let hours := (minutes / 60)%Z in
    let remainingMinutes := Z.rem minutes 60 in
    if (hours =? 0)%Z then showInt remainingMinutes ++ "min"
    else if (remainingMinutes =? 0)%Z then showInt hours ++ "h"
    else showInt hours ++ "h " ++ showInt remainingMinutes ++ "min".

(* ------------------------------------------------------------------ *)
(** ** A reference platform

    An executable instance of [Platform], used to run the model on
    concrete log directories: a JSON reader for the RFC 8259 grammar, and
    the date functions for a process whose local time zone is UTC, on the
    shapes [YYYY-MM-DD] and [YYYY-MM-DDTHH:MM:SS(.fff)(Z)] that the tool
    and the logs use. *)

Module Reference.

Definition isJsonWs (c : ascii) : bool :=
  let n := nat_of_ascii c in
  ((n =? 32) || (n =? 9) || (n =? 10) || (n =? 13))%nat.

Definition skipWs (s : string) : string := Js.dropLeading isJsonWs s.

Definition digitOf (c : ascii) : option Z :=
  let n := nat_of_ascii c in
  if ((48 <=? n) && (n <=? 57))%nat then Some (Z.of_nat (n - 48)) else None.

Definition hexOf (c : ascii) : option nat :=
  let n := nat_of_ascii c in
  if ((48 <=? n) && (n <=? 57))%nat then Some (n - 48)%nat
  else if ((97 <=? n) && (n <=? 102))%nat then Some (n - 87)%nat
  else if ((65 <=? n) && (n <=? 70))%nat then Some (n - 55)%nat
  else None.

(** The character a one-letter escape stands for. *)
Definition unescape (c : ascii) : option ascii :=
  match c with
  | "034"%char => Some "034"%char
  | "\"%char => Some "\"%char
  | "/"%char => Some "/"%char
  | "b"%char => Some "008"%char
  | "f"%char => Some "012"%char
  | "n"%char => Some "010"%char
  | "r"%char => Some "013"%char
  | "t"%char => Some "009"%char
  | _ => None
  end.

(** The text of a string literal after its opening quote, and what
    follows the closing quote. *)
Fixpoint parseString (s : string) : option (string * string) :=
  match s with
  | EmptyString => None
  | String "034" r => Some (EmptyString, r)
  | String "\" (String "u" (String h1 (String h2 (String h3 (String h4 r))))) =>
      match hexOf h1, hexOf h2, hexOf h3, hexOf h4, parseString r with
      | Some 0%nat, Some 0%nat, Some a, Some b, Some (str, rest) =>
          Some (String (ascii_of_nat (16 * a + b)) str, rest)
      | _, _, _, _, _ => None
      end
  | String "\" (String e r) =>
      match unescape e, parseString r with
      | Some c, Some (str, rest) => Some (String c str, rest)
      | _, _ => None
      end
  | String "\" EmptyString => None
  | String c r =>
      if (nat_of_ascii c <? 32)%nat then None
      else match parseString r with
           | Some (str, rest) => Some (String c str, rest)
           | None => None
           end
  end.

(** The longest run of digits at the front of [s], as its value and its
    length, and what follows. *)
Fixpoint digits (s : string) (acc : Z) (count : nat) : Z * nat * string :=
  match s with
  | EmptyString => (acc, count, s)
  | String c r =>
      match digitOf c with
      | Some d => digits r (10 * acc + d)%Z (S count)
      | None => (acc, count, s)
      end
  end.

(** A number literal: an optional minus sign, an integer part without
    superfluous leading zero, an optional fraction and an optional
    exponent. *)
Definition parseNumber (s : string) : option (json * string) :=
  let '(neg, s1) := match s with
                    | String "-" r => (true, r)
                    | _ => (false, s)
                    end in
  let '(int, nint, s2) := digits s1 0%Z 0%nat in
  let leadingZero := match s1 with
                     | String "0" _ => (1 <? nint)%nat
                     | _ => false
                     end in
  if (nint =? 0)%nat || leadingZero then None
  else
    let fracPart :=
      match s2 with
      | String "." r =>
          let '(f, nf, s3) := digits r int 0%nat in
          if (nf =? 0)%nat then None else Some (f, nf, s3)
      | _ => Some (int, 0%nat, s2)
      end in
    match fracPart with
    | None => None
    | Some (mant, nf, s3) =>
        let expPart :=
          match s3 with
          | String c r =>
              if Ascii.eqb c "e" || Ascii.eqb c "E" then
                let '(eneg, r1) := match r with
                                   | String "-" r' => (true, r')
                                   | String "+" r' => (false, r')
                                   | _ => (false, r)
                                   end in
                let '(ex, ne, s4) := digits r1 0%Z 0%nat in
                if (ne =? 0)%nat then None
                else Some (if eneg then (- ex)%Z else ex, s4)
              else Some (0%Z, s3)
          | EmptyString => Some (0%Z, s3)
          end in
        match expPart with
        | None => None
        | Some (ex, s4) =>
            Some (JNum (if neg then (- mant)%Z else mant) (ex - Z.of_nat nf)%Z, s4)
        end
    end.

(** [s] starts with [lit]: what follows it. *)
Fixpoint expect (lit s : string) : option string :=
  match lit, s with
  | EmptyString, _ => Some s
  | String a lit', String b s' => if Ascii.eqb a b then expect lit' s' else None
  | String _ _, EmptyString => None
  end.

(** Recursive descent; [fuel] bounds the number of nested calls. *)
Fixpoint parseValue (fuel : nat) (s : string) : option (json * string) :=
  match fuel with
  | O => None
  | S fuel' =>
      match skipWs s with
      | String "n" r => option_map (fun rest => (JNull, rest)) (expect "ull" r)
      | String "t" r => option_map (fun rest => (JBool true, rest)) (expect "rue" r)
      | String "f" r => option_map (fun rest => (JBool false, rest)) (expect "alse" r)
      | String "034" r =>
          option_map (fun '(str, rest) => (JStr str, rest)) (parseString r)
      | String "[" r =>
          match skipWs r with
          | String "]" rest => Some (JArr [], rest)
          | _ => option_map (fun '(items, rest) => (JArr items, rest))
                   (parseElements fuel' r)
          end
      | String "{" r =>
          match skipWs r with
          | String "}" rest => Some (JObj [], rest)
          | _ => option_map (fun '(members, rest) => (JObj members, rest))
                   (parseMembers fuel' r)
          end
      | other => parseNumber other
      end
  end
with parseElements (fuel : nat) (s : string) : option (list json * string) :=
  match fuel with
  | O => None
  | S fuel' =>
      match parseValue fuel' s with
      | Some (v, r) =>
          match skipWs r with
          | String "]" rest => Some ([v], rest)
          | String "," r' =>
              option_map (fun '(vs, rest) => (v :: vs, rest)) (parseElements fuel' r')
          | _ => None
          end
      | None => None
      end
  end
with parseMembers (fuel : nat) (s : string) : option (list (string * json) * string) :=
  match fuel with
  | O => None
  | S fuel' =>
      match skipWs s with
      | String "034" r =>
          match parseString r with
          | Some (key, r1) =>
              match skipWs r1 with
              | String ":" r2 =>
                  match parseValue fuel' r2 with
                  | Some (v, r3) =>
                      match skipWs r3 with
                      | String "}" rest => Some ([(key, v)], rest)
                      | String "," r4 =>
                          option_map (fun '(ms, rest) => ((key, v) :: ms, rest))
                            (parseMembers fuel' r4)
                      | _ => None
                      end
                  | None => None
                  end
              | _ => None
              end
          | None => None
          end
      | _ => None
      end
  end.

Definition JSON_parse (text : string) : result json :=
  match skipWs text with
  | EmptyString => Throw (SyntaxError "Unexpected end of JSON input")
  | _ =>
      match parseValue (2 * String.length text + 2) text with
      | Some (v, rest) =>
          match skipWs rest with
          | EmptyString => Ok v
          | _ => Throw (SyntaxError "Unexpected non-whitespace character after JSON")
          end
      | None => Throw (SyntaxError "Unexpected token in JSON")
      end
  end.

(** Exactly [n] digits at the front of [s]. *)
Fixpoint fixedDigits (n : nat) (s : string) (acc : Z) : option (Z * string) :=
  match n with
  | O => Some (acc, s)
  | S n' =>
      match s with
      | String c r =>
          match digitOf c with
          | Some d => fixedDigits n' r (10 * acc + d)%Z
          | None => None
          end
      | EmptyString => None
      end
  end.

Definition isLeapYear (y : Z) : bool :=
  ((y mod 4 =? 0) && negb (y mod 100 =? 0) || (y mod 400 =? 0))%Z.

Definition daysInMonth (y m : Z) : Z :=
  if (m =? 2)%Z then (if isLeapYear y then 29 else 28)%Z
  else if ((m =? 4) || (m =? 6) || (m =? 9) || (m =? 11))%Z then 30%Z
  else 31%Z.

(** Days between 1970-01-01 and the civil date [y]-[m]-[d]. *)
Definition daysFromCivil (y m d : Z) : Z :=
  let y' := (if m <=? 2 then y - 1 else y)%Z in
  let era := (y' / 400)%Z in
  let yoe := (y' - era * 400)%Z in
  let mp := (if 2 <? m then m - 3 else m + 9)%Z in
  let doy := ((153 * mp + 2) / 5 + d - 1)%Z in
  let doe := (yoe * 365 + yoe / 4 - yoe / 100 + doy)%Z in
  (era * 146097 + doe - 719468)%Z.

Definition msPerDay : Z := 86400000.

(** [HH:MM:SS] with an optional fraction and an optional [Z]: the
    milliseconds since midnight. *)
Definition parseTime (s : string) : option Z :=
  match fixedDigits 2 s 0%Z with
  | Some (hh, String ":" s1) =>
      match fixedDigits 2 s1 0%Z with
      | Some (mm, String ":" s2) =>
          match fixedDigits 2 s2 0%Z with
          | Some (ss, s3) =>
              let '(ms, s4) :=
                match s3 with
                | String "." r =>
                    let '(f, nf, r') := digits r 0%Z 0%nat in
                    ((f * 1000 / 10 ^ Z.of_nat nf)%Z, if (nf =? 0)%nat then s3 else r')
                | _ => (0%Z, s3)
                end in
              let tail := match s4 with
                          | String "Z" r => r
                          | _ => s4
                          end in
              match tail with
              | EmptyString =>
                  if ((hh <? 24) && (mm <? 60) && (ss <? 60))%Z
                  then Some (((hh * 60 + mm) * 60 + ss) * 1000 + ms)%Z
                  else None
              | _ => None
              end
          | None => None
          end
      | _ => None
      end
  | _ => None
  end.

Definition parseISO (s : string) : Date :=
  match fixedDigits 4 s 0%Z with
  | Some (y, String "-" s1) =>
      match fixedDigits 2 s1 0%Z with
      | Some (m, String "-" s2) =>
          match fixedDigits 2 s2 0%Z with
          | Some (d, s3) =>
              if ((1 <=? m) && (m <=? 12) && (1 <=? d) && (d <=? daysInMonth y m))%Z
              then
                let day := (daysFromCivil y m d * msPerDay)%Z in
                match s3 with
                | EmptyString => Some day
                | String "T" t => option_map (fun ms => (day + ms)%Z) (parseTime t)
                | _ => None
                end
              else None
          | None => None
          end
      | _ => None
      end
  | _ => None
  end.

Definition startOfDay (t : Z) : Z := (t - t mod msPerDay)%Z.

Definition Date_toString (d : Date) : string :=
  match d with
  | None => "Invalid Date"
  | Some t => "Date(" ++ (if (t <? 0)%Z then "-" else EmptyString)
              ++ Js.showNat (Z.to_nat (Z.abs t)) ++ ")"
  end.

Definition path_join (a b : string) : string := a ++ "/" ++ b.

(** The part of [p] after its last slash. *)
Fixpoint lastSegment (p : string) : string :=
  match p with
  | EmptyString => EmptyString
  | String c r =>
      let rest := lastSegment r in
      if existsb (Ascii.eqb "/") (list_ascii_of_string r) then rest
      else if Ascii.eqb c "/" then r
      else p
  end.

Definition path_basename (p ext : string) : string :=
  let base := lastSegment p in
  if Js.endsWith base ext && negb (String.eqb base ext)
  then substring 0 (String.length base - String.length ext) base
  else base.

(** Test data is written with single quotes standing for the double
    quotes of the JSON text. *)
Definition jsonText (s : string) : string := Js.replaceAll "'" "034" s.

(** The lines of a file, each ended by a line feed. *)
Definition unlines (lines : list string) : string :=
  String.concat EmptyString (map (fun l => (l ++ String "010" EmptyString)%string) lines).

Definition platform : Platform :=
  Build_Platform JSON_parse parseISO startOfDay Date_toString path_join path_basename.

(** A file system given by its paths. *)
Fixpoint fileSystem (nodes : list (string * node)) : FileSystem :=
  fun p =>
    match nodes with
    | [] => None
    | (q, n) :: rest => if String.eqb p q then Some n else fileSystem rest p
    end.

End Reference.



(* ------------------------------------------------------------------ *)
(** ** Log directories used as examples *)

Module Fixtures.

Definition userLine (timestamp text : string) : string :=
  Reference.jsonText
    ("{'type':'user','timestamp':'" ++ timestamp
     ++ "','message':{'role':'user','content':'" ++ text ++ "'}}").

Definition assistantLine (timestamp text : string) : string :=
  Reference.jsonText
    ("{'type':'assistant','timestamp':'" ++ timestamp
     ++ "','message':{'role':'assistant','content':[{'type':'text','text':'"
     ++ text ++ "'}]}}").

(** One project directory [-Users-dev-app] holding the log [s1.jsonl]. *)
Definition oneLog (content : string) : FileSystem :=
  Reference.fileSystem
    [ ("/logs", Directory (Ok ["-Users-dev-app"; "notes.txt"]));
      ("/logs/-Users-dev-app", Directory (Ok ["s1.jsonl"]));
      ("/logs/-Users-dev-app/s1.jsonl", File (Ok content)) ].

Definition s1 : string := "/logs/-Users-dev-app/s1.jsonl".

(** The scenario of the specification: a user event and an assistant
    event on 2025-07-03, a user event the day after. *)
Definition threeLines : list string :=
  [ userLine "2025-07-03T09:00:00.000Z" "fix bug";
    assistantLine "2025-07-03T09:15:00.000Z" "done";
    userLine "2025-07-04T09:20:00.000Z" "next" ].

(** Ten lines, nine of them valid events of 2025-07-03; the fourth is cut
    short. *)
Definition tenLines : list string :=
  [ userLine "2025-07-03T09:00:00.000Z" "fix bug";
    assistantLine "2025-07-03T09:01:00.000Z" "looking";
    userLine "2025-07-03T09:02:00.000Z" "and the test";
    Reference.jsonText "{'type':'user','timestamp':";
    assistantLine "2025-07-03T09:04:00.000Z" "done";
    userLine "2025-07-03T09:05:00.000Z" "rename it";
    assistantLine "2025-07-03T09:06:00.000Z" "renamed";
    userLine "2025-07-03T09:07:00.000Z" "commit";
    assistantLine "2025-07-03T09:08:00.000Z" "committed";
    userLine "2025-07-03T09:09:00.000Z" "thanks" ].

(** A log that holds only an assistant event on 2025-07-03. *)
Definition assistantOnly : list string :=
  [ assistantLine "2025-07-03T09:15:00.000Z" "done";
    userLine "2025-07-04T09:20:00.000Z" "next" ].

(** What the lines of [userLine] and [assistantLine] parse to. *)
Definition userRecord (timestamp text : string) : json :=
  JObj [("type", JStr "user"); ("timestamp", JStr timestamp);
        ("message", JObj [("role", JStr "user"); ("content", JStr text)])].

Definition assistantRecord (timestamp text : string) : json :=
  JObj [("type", JStr "assistant"); ("timestamp", JStr timestamp);
        ("message",
         JObj [("role", JStr "assistant");
               ("content", JArr [JObj [("type", JStr "text"); ("text", JStr text)]])])].

Definition threeRecords : list json :=
  [ userRecord "2025-07-03T09:00:00.000Z" "fix bug";
    assistantRecord "2025-07-03T09:15:00.000Z" "done";
    userRecord "2025-07-04T09:20:00.000Z" "next" ].

Definition assistantOnlyRecords : list json :=
  [ assistantRecord "2025-07-03T09:15:00.000Z" "done";
    userRecord "2025-07-04T09:20:00.000Z" "next" ].

(** The session the first two of [threeLines] make on 2025-07-03. *)
Definition threeLinesSession : SessionInfo.t :=
  {| SessionInfo.sessionId := "s1";
     SessionInfo.projectPath := "Users/dev/app";
     SessionInfo.startTime := Some 1751533200000%Z;
     SessionInfo.endTime := Some 1751534100000%Z;
     SessionInfo.duration := 15;
     SessionInfo.messageCount := 1;
     SessionInfo.userMessages := [JStr "fix bug"] |}.

(** A user event whose content is a sequence of parts. *)
Definition userPartsRecord (timestamp : string) (parts : list json) : json :=
  JObj [("type", JStr "user"); ("timestamp", JStr timestamp);
        ("message", JObj [("role", JStr "user"); ("content", JArr parts)])].

Definition textPart (text : string) : json :=
  JObj [("type", JStr "text"); ("text", JStr text)].

(** A log of one user event and one assistant reply. *)
Definition exchange (asked answered : string) : node :=
  File (Ok (Reference.unlines [userLine asked "do it"; assistantLine answered "done"])).

(** Four project directories and a stray file.  [app] has two logs, listed
    with the later session first; [web] has the longest day; [api] ties
    with [app]; [idle] has no event on 2025-07-03. *)
Definition fourProjects : FileSystem :=
  Reference.fileSystem
    [ ("/logs", Directory (Ok ["-Users-dev-app"; "-Users-dev-web"; "-Users-dev-api";
                              "-Users-dev-idle"; "README.md"]));
      ("/logs/-Users-dev-app", Directory (Ok ["late.jsonl"; "early.jsonl"]));
      ("/logs/-Users-dev-app/late.jsonl",
       exchange "2025-07-03T10:00:00.000Z" "2025-07-03T10:05:00.000Z");
      ("/logs/-Users-dev-app/early.jsonl",
       exchange "2025-07-03T09:00:00.000Z" "2025-07-03T09:10:00.000Z");
      ("/logs/-Users-dev-web", Directory (Ok ["w.jsonl"]));
      ("/logs/-Users-dev-web/w.jsonl",
       exchange "2025-07-03T11:00:00.000Z" "2025-07-03T11:30:00.000Z");
      ("/logs/-Users-dev-api", Directory (Ok ["x.jsonl"]));
      ("/logs/-Users-dev-api/x.jsonl",
       exchange "2025-07-03T12:00:00.000Z" "2025-07-03T12:15:00.000Z");
      ("/logs/-Users-dev-idle", Directory (Ok ["i.jsonl"]));
      ("/logs/-Users-dev-idle/i.jsonl",
       exchange "2025-07-04T08:00:00.000Z" "2025-07-04T08:01:00.000Z") ].

Definition emptyReport : DailyReport.t :=
  {| DailyReport.date := EmptyString;
     DailyReport.projects := [];
     DailyReport.summary := calculateSummary [] |}.

(** The report of [fourProjects] for 2025-07-03, computed. *)
Definition fourProjectsReport : DailyReport.t :=
  Eval vm_compute in
    match ProcessResult.data
            (parseForDate Reference.platform fourProjects "/logs" "2025-07-03") with
    | Some report => report
    | None => emptyReport
    end.

(** The report of its project [app] alone. *)
Definition appReport : DailyReport.t :=
  Eval vm_compute in
    match ProcessResult.data
            (parseProjectOnly Reference.platform fourProjects "/logs" "app" "2025-07-03")
    with
    | Some report => report
    | None => emptyReport
    end.

(** A root whose entries are a plain file and a directory without a
    leading dash: no project directory. *)
Definition noProjects : FileSystem :=
  Reference.fileSystem
    [ ("/logs", Directory (Ok ["notes.txt"; "archive"]));
      ("/logs/notes.txt", File (Ok "hello"));
      ("/logs/archive", Directory (Ok [])) ].

(** Three project directories: [app] as in [fourProjects], [locked] that
    cannot be listed, and [docs] that holds no log file. *)
Definition mixedProjects : FileSystem :=
  Reference.fileSystem
    [ ("/logs", Directory (Ok ["-Users-dev-locked"; "-Users-dev-docs"; "-Users-dev-app"]));
      ("/logs/-Users-dev-locked", Directory (Throw (Error "EACCES: permission denied")));
      ("/logs/-Users-dev-docs", Directory (Ok ["README.md"]));
      ("/logs/-Users-dev-app", Directory (Ok ["late.jsonl"; "early.jsonl"]));
      ("/logs/-Users-dev-app/late.jsonl",
       exchange "2025-07-03T10:00:00.000Z" "2025-07-03T10:05:00.000Z");
      ("/logs/-Users-dev-app/early.jsonl",
       exchange "2025-07-03T09:00:00.000Z" "2025-07-03T09:10:00.000Z") ].

End Fixtures.

(* ------------------------------------------------------------------ *)
(** ** Specification vocabulary *)

(** [output] is [input] sorted by ascending [key], elements with equal
    keys staying in their input order. *)
Definition StableSortedBy {A} (key : A -> Z) (input output : list A) : Prop :=
  Permutation input output
  /\ StronglySorted (fun a b => (key a <= key b)%Z) output
  /\ forall k, filter (fun x => (key x =? k)%Z) output
               = filter (fun x => (key x =? k)%Z) input.

(** The sum of a list of integers. *)
Definition total (l : list Z) : Z := fold_right Z.add 0%Z l.

(** The time value of a valid date. *)
Definition millis (d : Date) : Z :=
  match d with
  | Some t => t
  | None => 0%Z
  end.

(** The error [readJsonlFile] raises for line [lineNumber] of [filePath]. *)
Definition lineError (filePath : string) (lineNumber : nat) (error : exn) : exn :=
  Error ("Failed to parse line " ++ Js.showNat lineNumber ++ " in " ++ filePath
         ++ ": " ++ exn_toString error).

(** The error that leaves [readJsonlFile]. *)
Definition fileError (filePath : string) (error : exn) : exn :=
  Error ("Failed to read JSONL file " ++ filePath ++ ": " ++ exn_toString error).

(** The entry [parseProjectForDate] pushes when a session file fails. *)
Definition sessionFileFailure (jsonlFile : string) (error : exn) : ParseError.t :=
  {| ParseError.file := jsonlFile;
     ParseError.line := 0;
     ParseError.message := "Failed to parse session file: " ++ exn_toString error;
     ParseError.originalError := error |}.

(** [item.type === 'text'] evaluates to true, respectively to false,
    without throwing. *)
Definition isTextPart (item : json) : Prop :=
  exists type, Json.get (Some item) "type" = Ok type
               /\ Json.isString type "text" = true.

Definition notTextPart (item : json) : Prop :=
  exists type, Json.get (Some item) "type" = Ok type
               /\ Json.isString type "text" = false.

(** The entry [parseForDate] pushes when a project directory fails. *)
Definition projectFailure (projectDir : string) (error : exn) : ParseError.t :=
  {| ParseError.file := projectDir;
     ParseError.line := 0;
     ParseError.message := "Failed to parse project: " ++ exn_toString error;
     ParseError.originalError := error |}.

(** [project] is what [parseProjectForDate] builds from the sessions
    [scanned], in that order, out of the log files of a directory. *)
Definition BuiltFrom (P : Platform) (fs : FileSystem) (claudeProjectsPath : string)
    (targetDate : string) (scanned : list SessionInfo.t) (project : ProjectInfo.t)
  : Prop :=
  exists projectDir jsonlFiles st st',
    getJsonlFiles P fs (path_join P claudeProjectsPath projectDir) = Ok jsonlFiles
    /\ forEachJsonlFile P fs jsonlFiles targetDate (extractProjectPath projectDir) [] st
       = (Ok scanned, st')
    /\ scanned <> []
    /\ project
       = {| ProjectInfo.name := extractProjectName projectDir;
            ProjectInfo.path := extractProjectPath projectDir;
            ProjectInfo.sessions := Js.sort byStartTime scanned;
            ProjectInfo.totalDuration := Js.sumOf SessionInfo.duration scanned;
            ProjectInfo.totalMessages := Js.sumOf SessionInfo.messageCount scanned;
            ProjectInfo.date := targetDate |}.

(** The entry the [catch] of the two public methods pushes. *)
Definition parserFailure (error : exn) : ParseError.t :=
  {| ParseError.file := "parser";
     ParseError.line := 0;
     ParseError.message := "Parse failed: " ++ exn_toString error;
     ParseError.originalError := error |}.

(** The result of a call that failed with [error] before anything was
    recorded. *)
Definition failedWith (error : exn) : ProcessResult.t :=
  {| ProcessResult.success := false;
     ProcessResult.data := None;
     ProcessResult.errors := [parserFailure error];
     ProcessResult.warnings := [] |}.

(** A decimal digit. *)
Definition isDigitChar (c : ascii) : bool :=
  ((48 <=? nat_of_ascii c) && (nat_of_ascii c <=? 57))%nat.

(** A text made of decimal digits only. *)
Fixpoint digitsOnly (s : string) : Prop :=
  match s with
  | EmptyString => True
  | String c rest => isDigitChar c = true /\ digitsOnly rest
  end.

(** A text that is empty or starts with something else than a digit. *)
Definition noLeadingDigit (s : string) : Prop :=
  match s with
  | EmptyString => True
  | String c _ => isDigitChar c = false
  end.

(** The characters of a text. *)
Definition chars (s : string) : list ascii := list_ascii_of_string s.

(* ------------------------------------------------------------------ *)
(** * Facts about the JavaScript layer *)

Unset Implicit Arguments.

Section SortFacts.

Context {A : Type} (cmp : A -> A -> Z) (key : A -> Z).

Lemma insert_perm (x : A) (l : list A) : Permutation (x :: l) (Js.insert cmp x l).
Proof.
  induction l as [|y l IH]; simpl.
  - apply Permutation_refl.
  - destruct (0 <? cmp x y)%Z.
    + eapply perm_trans; [apply perm_swap|]. now apply perm_skip.
    + apply Permutation_refl.
Qed.

Lemma sort_cons (x : A) (l : list A) :
  Js.sort cmp (x :: l) = Js.insert cmp x (Js.sort cmp l).
Proof. reflexivity. Qed.

Lemma sort_perm (l : list A) : Permutation l (Js.sort cmp l).
Proof.
  induction l as [|x l IH].
  - constructor.
  - rewrite sort_cons.
    eapply perm_trans; [apply perm_skip, IH|]. apply insert_perm.
Qed.

Lemma sort_length (l : list A) : length (Js.sort cmp l) = length l.
Proof. symmetry. apply Permutation_length, sort_perm. Qed.

Lemma sort_In (l : list A) (x : A) : In x (Js.sort cmp l) <-> In x l.
Proof.
  split; intro H.
  - eapply Permutation_in; [apply Permutation_sym, sort_perm|exact H].
  - eapply Permutation_in; [apply sort_perm|exact H].
Qed.

Lemma insert_sorted (x : A) (l : list A) :
  (forall y, In y l -> cmp x y = (key x - key y)%Z) ->
  StronglySorted (fun a b => (key a <= key b)%Z) l ->
  StronglySorted (fun a b => (key a <= key b)%Z) (Js.insert cmp x l).
Proof.
  induction l as [|y l IH]; simpl; intros Hc Hs.
  - repeat constructor.
  - inversion Hs as [|? ? Hs' Hall]; subst.
    rewrite (Hc y (or_introl eq_refl)).
    destruct (0 <? key x - key y)%Z eqn:E.
    + apply Z.ltb_lt in E. constructor.
      * apply IH; auto.
      * rewrite Forall_forall in *. intros z Hz.
        apply (Permutation_in _ (Permutation_sym (insert_perm x l))) in Hz.
        destruct Hz as [<-|Hz]; [lia|auto].
    + apply Z.ltb_ge in E. constructor; [exact Hs|].
      constructor; [lia|].
      rewrite Forall_forall in *. intros z Hz. specialize (Hall z Hz). lia.
Qed.

Lemma sort_sorted (l : list A) :
  (forall a b, In a l -> In b l -> cmp a b = (key a - key b)%Z) ->
  StronglySorted (fun a b => (key a <= key b)%Z) (Js.sort cmp l).
Proof.
  induction l as [|x l IH]; intros Hc.
  - constructor.
  - rewrite sort_cons. apply insert_sorted.
    + intros y Hy. apply Hc; [now left|right; apply (proj1 (sort_In l y)); exact Hy].
    + apply IH. intros a b Ha Hb. apply Hc; now right.
Qed.

Lemma insert_stable (x : A) (l : list A) (k : Z) :
  (forall y, In y l -> cmp x y = (key x - key y)%Z) ->
  filter (fun a => (key a =? k)%Z) (Js.insert cmp x l)
  = filter (fun a => (key a =? k)%Z) (x :: l).
Proof.
  induction l as [|y l IH]; intros Hc.
  - reflexivity.
  - simpl Js.insert. rewrite (Hc y (or_introl eq_refl)).
    destruct (0 <? key x - key y)%Z eqn:E; [|reflexivity].
    apply Z.ltb_lt in E.
    change (filter (fun a => (key a =? k)%Z) (y :: Js.insert cmp x l))
      with (if (key y =? k)%Z
            then y :: filter (fun a => (key a =? k)%Z) (Js.insert cmp x l)
            else filter (fun a => (key a =? k)%Z) (Js.insert cmp x l)).
    rewrite IH by (intros z Hz; apply Hc; now right).
    simpl.
    destruct (key x =? k)%Z eqn:Ex, (key y =? k)%Z eqn:Ey; try reflexivity.
    apply Z.eqb_eq in Ex, Ey. lia.
Qed.

Lemma sort_stable (l : list A) (k : Z) :
  (forall a b, In a l -> In b l -> cmp a b = (key a - key b)%Z) ->
  filter (fun a => (key a =? k)%Z) (Js.sort cmp l)
  = filter (fun a => (key a =? k)%Z) l.
Proof.
  induction l as [|x l IH]; intros Hc.
  - reflexivity.
  - rewrite sort_cons, insert_stable.
    + simpl. rewrite IH by (intros a b Ha Hb; apply Hc; now right). reflexivity.
    + intros y Hy. apply Hc; [now left|right; apply (proj1 (sort_In l y)); exact Hy].
Qed.

(** With a comparator that is a difference of keys, [arr.sort] returns the
    stable arrangement by ascending key. *)
Lemma sort_StableSortedBy (l : list A) :
  (forall a b, In a l -> In b l -> cmp a b = (key a - key b)%Z) ->
  StableSortedBy key l (Js.sort cmp l).
Proof.
  intros Hc. repeat split.
  - apply sort_perm.
  - now apply sort_sorted.
  - intros k. now apply sort_stable.
Qed.

End SortFacts.

Lemma total_perm (l l' : list Z) : Permutation l l' -> total l = total l'.
Proof.
  induction 1; simpl; lia.
Qed.

Lemma sumOf_total {A} (f : A -> Z) (l : list A) : Js.sumOf f l = total (map f l).
Proof.
  unfold Js.sumOf.
  assert (H : forall acc, fold_left (fun sum x => (sum + f x)%Z) l acc
                          = (acc + total (map f l))%Z).
  { induction l as [|x l IH]; intros acc; simpl.
    - lia.
    - rewrite IH. lia. }
  rewrite H. lia.
Qed.

Lemma total_app (l l' : list Z) : total (l ++ l') = (total l + total l')%Z.
Proof. induction l; simpl; lia. Qed.

Section StringFacts.

Variable p : ascii -> bool.

Lemma dropTrailing_snoc (s : string) (c : ascii) :
  p c = true ->
  Js.dropTrailing p (s ++ String c EmptyString) = Js.dropTrailing p s.
Proof.
  intros Hc. induction s as [|a s IH]; simpl.
  - now rewrite Hc.
  - now rewrite IH.
Qed.

Lemma dropBoth_snoc (s : string) (c : ascii) :
  p c = true ->
  Js.dropTrailing p (Js.dropLeading p (s ++ String c EmptyString))
  = Js.dropTrailing p (Js.dropLeading p s).
Proof.
  intros Hc. induction s as [|a s IH]; simpl.
  - now rewrite Hc.
  - destruct (p a); [exact IH|].
    change (String a (s ++ String c EmptyString))
      with (String a s ++ String c EmptyString)%string.
    now apply dropTrailing_snoc.
Qed.

Lemma dropLeading_all (s : string) :
  forallb p (list_ascii_of_string s) = true ->
  Js.dropLeading p s = EmptyString.
Proof.
  induction s as [|a s IH]; simpl; intros H.
  - reflexivity.
  - apply andb_true_iff in H as [Ha Hs]. rewrite Ha. now apply IH.
Qed.

(** What [dropTrailing] leaves is empty or ends with a character that
    does not satisfy [p]. *)
Lemma dropTrailing_end (s : string) :
  Js.dropTrailing p s = EmptyString
  \/ exists s' c, Js.dropTrailing p s = (s' ++ String c EmptyString)%string
                  /\ p c = false.
Proof.
  induction s as [|a s IH]; simpl.
  - now left.
  - destruct IH as [E|(s' & c & E & Hc)]; rewrite E.
    + destruct (p a) eqn:Ha; [now left|].
      right. exists EmptyString, a. now split.
    + right. destruct s' as [|b s'']; simpl.
      * exists (String a EmptyString), c. now split.
      * exists (String a (String b s'')), c. now split.
Qed.

End StringFacts.

Lemma split_not_nil (sep : ascii) (s : string) : Js.split sep s <> [].
Proof.
  destruct s as [|c s]; simpl; [discriminate|].
  destruct (Ascii.eqb c sep); [discriminate|].
  destruct (Js.split sep s); discriminate.
Qed.

(** The last segment of a text that ends with a non-separator is not
    empty. *)
Lemma split_snoc_last (sep : ascii) (t : string) (c : ascii) :
  Ascii.eqb c sep = false ->
  exists init l, Js.split sep (t ++ String c EmptyString) = init ++ [l]
                 /\ l <> EmptyString.
Proof.
  intros Hc. induction t as [|a t (init & l & E & Hl)]; simpl.
  - rewrite Hc. exists [], (String c EmptyString). split; [reflexivity|discriminate].
  - rewrite E. destruct (Ascii.eqb a sep).
    + exists (EmptyString :: init), l. now split.
    + destruct init as [|h tl]; simpl.
      * exists [], (String a l). split; [reflexivity|discriminate].
      * exists (String a h :: tl), l. now split.
Qed.

(** The segments of a cleaned directory name: a single empty segment, or
    segments the last of which is not empty. *)
Lemma cleaned_segments (dirName : string) :
  let parts := Js.split "-" (Js.dropTrailing isDash (Js.dropLeading isDash dirName)) in
  parts = [EmptyString] \/ last parts EmptyString <> EmptyString.
Proof.
  intros parts. subst parts.
  destruct (dropTrailing_end isDash (Js.dropLeading isDash dirName))
    as [E|(s' & c & E & Hc)]; rewrite E.
  - now left.
  - right. destruct (split_snoc_last "-" s' c Hc) as (init & l & E' & Hl).
    rewrite E', last_last. exact Hl.
Qed.

Lemma strOr_nonempty (a b : string) : a <> EmptyString -> Js.strOr a b = a.
Proof. destruct a; [congruence|reflexivity]. Qed.

(* ------------------------------------------------------------------ *)
(** * Directory name decoding *)

(** C3, as the code has it.  After stripping leading and trailing dashes
    and splitting on the dash, [extractProjectName] chooses by the number
    of segments: of exactly 6 it joins the last 2 when the third has
    length 1 and otherwise those from index 3 on; of 4 or 5 it joins the
    last 2; of 2 or 3 it takes the last one; a single segment is returned
    when it is not empty, and when it is empty (the name holds nothing but
    dashes) the directory name itself is returned.  The two names of the
    specification decode to [expense-checker] and [claude-daily-reports]. *)
Theorem extractProjectName_by_segment_count (dirName : string) :
  let parts := Js.split "-" (Js.dropTrailing isDash (Js.dropLeading isDash dirName)) in
  (forall a b c d e f, parts = [a; b; c; d; e; f] ->
     (String.length c = 1%nat -> extractProjectName dirName = (e ++ "-" ++ f)%string)
     /\ (String.length c <> 1%nat ->
         extractProjectName dirName = (d ++ "-" ++ e ++ "-" ++ f)%string))
  /\ (forall a b c d, parts = [a; b; c; d] ->
        extractProjectName dirName = (c ++ "-" ++ d)%string)
  /\ (forall a b c d e, parts = [a; b; c; d; e] ->
        extractProjectName dirName = (d ++ "-" ++ e)%string)
  /\ (forall a b, parts = [a; b] -> extractProjectName dirName = b)
  /\ (forall a b c, parts = [a; b; c] -> extractProjectName dirName = c)
  /\ (forall a, parts = [a] ->
        extractProjectName dirName = if String.eqb a EmptyString then dirName else a)
  /\ extractProjectName "-Users-x-table-expense-checker" = "expense-checker"
  /\ extractProjectName "-Users-me-personal-claude-daily-reports" = "claude-daily-reports".
Proof.
  intros parts. pose proof (cleaned_segments dirName) as Hlast.
  fold parts in Hlast. unfold extractProjectName. fold parts.
  repeat split.
  - intros Hc. rewrite H. simpl. rewrite Hc. reflexivity.
  - intros Hc. rewrite H. simpl.
    apply Nat.eqb_neq in Hc. rewrite Hc. reflexivity.
  - intros a b c d E. rewrite E. reflexivity.
  - intros a b c d e E. rewrite E. reflexivity.
  - intros a b E. rewrite E in *. simpl.
    destruct Hlast as [Hl|Hl]; [discriminate|].
    unfold Js.nthOr. simpl. now apply strOr_nonempty.
  - intros a b c E. rewrite E in *. simpl.
    destruct Hlast as [Hl|Hl]; [discriminate|].
    unfold Js.nthOr. simpl. now apply strOr_nonempty.
  - intros a E. rewrite E. simpl. unfold Js.nthOr. simpl.
    destruct a; reflexivity.
Qed.

(** C3 as stated fails on a name made of dashes only: its single segment
    is empty, and the directory name is returned instead. *)
Lemma extractProjectName_dashes_only :
  Js.split "-" (Js.dropTrailing isDash (Js.dropLeading isDash "-")) = [EmptyString]
  /\ extractProjectName "-" = "-"
  /\ extractProjectName "-" <> EmptyString.
Proof.
  repeat split. discriminate.
Qed.

(* ------------------------------------------------------------------ *)
(** * Reading a log file *)

Section ReadFacts.

Variable P : Platform.
Variable fs : FileSystem.

Lemma mapiM_all_ok (g : nat -> exn -> exn) (lines : list string)
    (records : list json) (index : nat) :
  map (JSON_parse P) lines = map Ok records ->
  Js.mapiM (fun line i => tryCatch (JSON_parse P line) (fun e => Throw (g i e)))
    index lines
  = Ok records.
Proof.
  revert records index.
  induction lines as [|l lines IH]; intros [|r records] index H;
    try discriminate; [reflexivity|].
  simpl in H. injection H as Hl Hrest.
  simpl. rewrite Hl. simpl. rewrite (IH records (S index) Hrest). reflexivity.
Qed.

Lemma mapiM_first_bad (g : nat -> exn -> exn) (before after : list string)
    (bad : string) (error : exn) (index : nat) :
  (forall l, In l before -> exists v, JSON_parse P l = Ok v) ->
  JSON_parse P bad = Throw error ->
  Js.mapiM (fun line i => tryCatch (JSON_parse P line) (fun e => Throw (g i e)))
    index (before ++ bad :: after)
  = Throw (g (index + length before)%nat error).
Proof.
  intros Hbefore Hbad. revert index.
  induction before as [|l before IH]; intros index; simpl.
  - rewrite Hbad. simpl. now rewrite Nat.add_0_r.
  - destruct (Hbefore l (or_introl eq_refl)) as [v Hv]. rewrite Hv. simpl.
    rewrite IH by (intros l' Hl'; apply Hbefore; now right).
    simpl. do 2 f_equal. lia.
Qed.

Lemma readJsonlFile_first_bad (filePath content : string) (before after : list string)
    (bad : string) (error : exn) :
  Fs.readFileSync fs filePath = Ok content ->
  Js.split "010" (Js.trim content) = before ++ bad :: after ->
  (forall l, In l before -> exists v, JSON_parse P l = Ok v) ->
  JSON_parse P bad = Throw error ->
  readJsonlFile P fs filePath
  = Throw (fileError filePath (lineError filePath (length before + 1) error)).
Proof.
  intros Hread Hsplit Hbefore Hbad.
  unfold readJsonlFile. rewrite Hread.
  cbv beta iota zeta delta [rbind]. rewrite Hsplit.
  rewrite (@mapiM_first_bad
             (fun i e => Error ("Failed to parse line " ++ Js.showNat (i + 1) ++ " in "
                                ++ filePath ++ ": " ++ exn_toString e))
             before after bad error 0 Hbefore Hbad).
  reflexivity.
Qed.

Lemma readJsonlFile_all_ok (filePath content : string) (records : list json) :
  Fs.readFileSync fs filePath = Ok content ->
  map (JSON_parse P) (Js.split "010" (Js.trim content)) = map Ok records ->
  readJsonlFile P fs filePath = Ok records.
Proof.
  intros Hread Hall. unfold readJsonlFile. rewrite Hread.
  cbv beta iota zeta delta [rbind].
  now rewrite (@mapiM_all_ok
                 (fun i e => Error ("Failed to parse line " ++ Js.showNat (i + 1)
                                    ++ " in " ++ filePath ++ ": " ++ exn_toString e))
                 _ records 0 Hall).
Qed.

Variable claudeProjectsPath : string.

Lemma parseSessionFile_read_fails (filePath targetDate projectPath : string) (e : exn) :
  readJsonlFile P fs filePath = Throw e ->
  parseSessionFile P fs filePath targetDate projectPath = Throw e.
Proof. intros H. unfold parseSessionFile. now rewrite H. Qed.

Lemma forEachJsonlFile_throw (jsonlFile : string) (rest : list string)
    (targetDate actualPath : string) (sessions : list SessionInfo.t)
    (st : ParserState) (e : exn) :
  parseSessionFile P fs jsonlFile targetDate actualPath = Throw e ->
  forEachJsonlFile P fs (jsonlFile :: rest) targetDate actualPath sessions st
  = forEachJsonlFile P fs rest targetDate actualPath sessions
      {| errors := errors st ++ [sessionFileFailure jsonlFile e];
         warnings := warnings st |}.
Proof.
  intros H. simpl. unfold bind at 1. unfold catch, bind, lift. rewrite H.
  reflexivity.
Qed.

Lemma forEachJsonlFile_throw_alone (jsonlFile targetDate actualPath : string)
    (sessions : list SessionInfo.t) (st : ParserState) (e : exn) :
  parseSessionFile P fs jsonlFile targetDate actualPath = Throw e ->
  forEachJsonlFile P fs [jsonlFile] targetDate actualPath sessions st
  = (Ok sessions,
     {| errors := errors st ++ [sessionFileFailure jsonlFile e];
        warnings := warnings st |}).
Proof.
  intros H. rewrite (forEachJsonlFile_throw jsonlFile [] targetDate actualPath sessions st e H). reflexivity.
Qed.

Lemma forEachJsonlFile_none (jsonlFile : string) (rest : list string)
    (targetDate actualPath : string) (sessions : list SessionInfo.t)
    (st : ParserState) :
  parseSessionFile P fs jsonlFile targetDate actualPath = Ok None ->
  forEachJsonlFile P fs (jsonlFile :: rest) targetDate actualPath sessions st
  = forEachJsonlFile P fs rest targetDate actualPath sessions st.
Proof.
  intros H. simpl. unfold bind at 1. unfold catch, bind, lift. rewrite H.
  reflexivity.
Qed.

Lemma forEachJsonlFile_some (jsonlFile : string) (rest : list string)
    (targetDate actualPath : string) (sessions : list SessionInfo.t)
    (st : ParserState) (info : SessionInfo.t) :
  parseSessionFile P fs jsonlFile targetDate actualPath = Ok (Some info) ->
  forEachJsonlFile P fs (jsonlFile :: rest) targetDate actualPath sessions st
  = forEachJsonlFile P fs rest targetDate actualPath (sessions ++ [info]) st.
Proof.
  intros H. simpl. unfold bind at 1. unfold catch, bind, lift. rewrite H.
  reflexivity.
Qed.

End ReadFacts.

(** C1, as the code has it.  In a log file that can be opened, the first
    line that fails to parse ends the reading of the file: [readJsonlFile]
    throws an error whose message names the 1-based number of that line,
    [parseProjectForDate] records exactly one ParseError for the file,
    with line 0 and that message, adds no session for it, and goes on
    with the files that follow. *)
Theorem malformed_line_fails_the_file (P : Platform) (fs : FileSystem)
    (filePath content : string) (before after : list string) (bad : string)
    (error : exn) :
  Fs.readFileSync fs filePath = Ok content ->
  Js.split "010" (Js.trim content) = before ++ bad :: after ->
  (forall l, In l before -> exists v, JSON_parse P l = Ok v) ->
  JSON_parse P bad = Throw error ->
  let failure := fileError filePath (lineError filePath (length before + 1) error) in
  readJsonlFile P fs filePath = Throw failure
  /\ forall rest targetDate actualPath sessions st,
       forEachJsonlFile P fs (filePath :: rest) targetDate actualPath sessions st
       = forEachJsonlFile P fs rest targetDate actualPath sessions
           {| errors := errors st ++ [sessionFileFailure filePath failure];
              warnings := warnings st |}.
Proof.
  intros Hread Hsplit Hbefore Hbad failure.
  assert (Hfail : readJsonlFile P fs filePath = Throw failure)
    by (eapply readJsonlFile_first_bad; eauto).
  split; [exact Hfail|].
  intros rest targetDate actualPath sessions st.
  apply forEachJsonlFile_throw.
  now apply parseSessionFile_read_fails.
Qed.

Lemma malformed_line_fails_the_file_witness :
  let fs := Fixtures.oneLog (Reference.unlines Fixtures.tenLines) in
  readJsonlFile Reference.platform fs Fixtures.s1
  = Throw (fileError Fixtures.s1
             (lineError Fixtures.s1 4 (SyntaxError "Unexpected token in JSON"))).
Proof.
  intros fs.
  refine (proj1 (@malformed_line_fails_the_file Reference.platform fs Fixtures.s1
                   (Reference.unlines Fixtures.tenLines)
                   (firstn 3 Fixtures.tenLines) (skipn 4 Fixtures.tenLines)
                   (Reference.jsonText "{'type':'user','timestamp':")
                   (SyntaxError "Unexpected token in JSON") _ _ _ _)).
  - reflexivity.
  - vm_compute. reflexivity.
  - intros l [<-|[<-|[<-|[]]]]; eexists; vm_compute; reflexivity.
  - vm_compute. reflexivity.
Defined.

(** C1 as stated fails on a log of ten lines whose fourth is malformed:
    the nine other lines parse, yet the report holds no session of the
    file, and the one ParseError recorded carries line 0, not 4. *)
Lemma one_malformed_line_among_ten :
  let fs := Fixtures.oneLog (Reference.unlines Fixtures.tenLines) in
  let r := parseForDate Reference.platform fs "/logs" "2025-07-03" in
  map (fun l => match Reference.JSON_parse l with Ok _ => true | Throw _ => false end)
    Fixtures.tenLines
  = [true; true; true; false; true; true; true; true; true; true]
  /\ ProcessResult.success r = true
  /\ option_map DailyReport.projects (ProcessResult.data r) = Some []
  /\ map (fun e => (ParseError.file e, ParseError.line e)) (ProcessResult.errors r)
     = [(Fixtures.s1, 0%Z)].
Proof.
  vm_compute. repeat split.
Qed.

Lemma trim_blank (content : string) :
  forallb Js.isWhiteSpace (list_ascii_of_string content) = true ->
  Js.trim content = EmptyString.
Proof.
  intros H. unfold Js.trim. now rewrite dropLeading_all.
Qed.

Lemma trim_trailing_newline (body : string) :
  Js.trim (body ++ String "010" EmptyString) = Js.trim body.
Proof. unfold Js.trim. now apply dropBoth_snoc. Qed.

(** C10.  A log file whose content is empty or only whitespace fails as a
    whole: trimming and splitting leave the single line [""], which
    JSON.parse rejects, so [readJsonlFile] throws, one ParseError with
    line 0 is recorded for the file and no session is added: the loop over
    the files goes on with the sessions it had, and run on that file alone
    it returns them unchanged with exactly that one error appended.  A file
    that ends in one line feed reads exactly like the file without it: one
    record per line of the trimmed text, no failure. *)
Theorem blank_file_fails_trailing_newline_is_dropped (P : Platform) (fs : FileSystem)
    (filePath content : string) :
  Fs.readFileSync fs filePath = Ok content ->
  (forall error,
     forallb Js.isWhiteSpace (list_ascii_of_string content) = true ->
     JSON_parse P EmptyString = Throw error ->
     let failure := fileError filePath (lineError filePath 1 error) in
     readJsonlFile P fs filePath = Throw failure
     /\ (forall rest targetDate actualPath sessions st,
           forEachJsonlFile P fs (filePath :: rest) targetDate actualPath sessions st
           = forEachJsonlFile P fs rest targetDate actualPath sessions
               {| errors := errors st ++ [sessionFileFailure filePath failure];
                  warnings := warnings st |})
     /\ (forall targetDate actualPath sessions st,
           forEachJsonlFile P fs [filePath] targetDate actualPath sessions st
           = (Ok sessions,
              {| errors := errors st ++ [sessionFileFailure filePath failure];
                 warnings := warnings st |})))
  /\ (forall body records,
        content = (body ++ String "010" EmptyString)%string ->
        map (JSON_parse P) (Js.split "010" (Js.trim body)) = map Ok records ->
        readJsonlFile P fs filePath = Ok records
        /\ length records = length (Js.split "010" (Js.trim body))).
Proof.
  intros Hread. split.
  - intros error Hblank Hempty failure.
    assert (Hfail : readJsonlFile P fs filePath = Throw failure).
    { apply (@readJsonlFile_first_bad P fs filePath content [] [] EmptyString error);
        auto.
      - now rewrite trim_blank.
      - intros l []. }
    split; [exact Hfail|]. split.
    + intros rest targetDate actualPath sessions st.
      apply forEachJsonlFile_throw. now apply parseSessionFile_read_fails.
    + intros targetDate actualPath sessions st.
      apply forEachJsonlFile_throw_alone. now apply parseSessionFile_read_fails.
  - intros body records -> Hall. split.
    + apply readJsonlFile_all_ok with (content := (body ++ String "010" EmptyString)%string);
        auto.
      now rewrite trim_trailing_newline.
    + apply (f_equal (@length _)) in Hall. rewrite !length_map in Hall. auto.
Qed.

Lemma blank_file_fails_trailing_newline_is_dropped_witness :
  let blank := Fixtures.oneLog (Reference.unlines [" "; "   "]) in
  let failure :=
    fileError Fixtures.s1
      (lineError Fixtures.s1 1 (SyntaxError "Unexpected end of JSON input")) in
  (readJsonlFile Reference.platform blank Fixtures.s1 = Throw failure
   /\ forEachJsonlFile Reference.platform blank [Fixtures.s1] "2025-07-03"
        "Users/dev/app" [] {| errors := []; warnings := [] |}
      = (Ok [],
         {| errors :=
              [{| ParseError.file := Fixtures.s1; ParseError.line := 0;
                  ParseError.message :=
                    "Failed to parse session file: Error: Failed to read JSONL file /logs/-Users-dev-app/s1.jsonl: Error: Failed to parse line 1 in /logs/-Users-dev-app/s1.jsonl: SyntaxError: Unexpected end of JSON input";
                  ParseError.originalError := failure |}];
            warnings := [] |}))
  /\ exists records,
       readJsonlFile Reference.platform
         (Fixtures.oneLog (Reference.unlines Fixtures.threeLines)) Fixtures.s1
       = Ok records
       /\ length records = 3%nat.
Proof.
  intros blank failure. split.
  - assert (H := proj1 (@blank_file_fails_trailing_newline_is_dropped
                          Reference.platform blank
                          Fixtures.s1 (Reference.unlines [" "; "   "]) eq_refl)
                   (SyntaxError "Unexpected end of JSON input") eq_refl eq_refl).
    split.
    + exact (proj1 H).
    + exact (proj2 (proj2 H) "2025-07-03" "Users/dev/app" []
               {| errors := []; warnings := [] |}).
  - exists Fixtures.threeRecords.
    refine (proj2 (@blank_file_fails_trailing_newline_is_dropped
                     Reference.platform
                     (Fixtures.oneLog (Reference.unlines Fixtures.threeLines))
                     Fixtures.s1 (Reference.unlines Fixtures.threeLines) _)
                  (String.concat (String "010" EmptyString) Fixtures.threeLines) _ _ _).
    + reflexivity.
    + vm_compute. reflexivity.
    + vm_compute. reflexivity.
Defined.

(* ------------------------------------------------------------------ *)
(** * Callbacks that may throw *)

Section CallbackFacts.

Context {A B : Type}.

Lemma filterM_In (f : A -> result bool) (l kept : list A) :
  Js.filterM f l = Ok kept ->
  forall x, In x kept -> In x l /\ f x = Ok true.
Proof.
  revert kept. induction l as [|a l IH]; simpl; intros kept H x Hx.
  - injection H as <-. destruct Hx.
  - destruct (f a) as [keep|] eqn:Ea; simpl in H; [|discriminate].
    destruct (Js.filterM f l) as [kept'|] eqn:El; simpl in H; [|discriminate].
    injection H as <-.
    destruct keep.
    + destruct Hx as [<-|Hx]; [now split; [left|]|].
      destruct (IH kept' eq_refl x Hx). split; [now right|assumption].
    + destruct (IH kept' eq_refl x Hx). split; [now right|assumption].
Qed.

Lemma filterM_all (f : A -> result bool) (l : list A) :
  (forall x, In x l -> f x = Ok true) ->
  Js.filterM f l = Ok l.
Proof.
  induction l as [|a l IH]; simpl; intros H.
  - reflexivity.
  - rewrite (H a (or_introl eq_refl)). simpl.
    rewrite IH by (intros x Hx; apply H; now right). reflexivity.
Qed.

Lemma filterM_none (f : A -> result bool) (l : list A) :
  (forall x, In x l -> f x = Ok false) ->
  Js.filterM f l = Ok [].
Proof.
  induction l as [|a l IH]; simpl; intros H.
  - reflexivity.
  - rewrite (H a (or_introl eq_refl)). simpl.
    rewrite IH by (intros x Hx; apply H; now right). reflexivity.
Qed.

Lemma mapM_Forall2 (f : A -> result B) (l : list A) (l' : list B) :
  Js.mapM f l = Ok l' -> Forall2 (fun x y => f x = Ok y) l l'.
Proof.
  revert l'. induction l as [|a l IH]; simpl; intros l' H.
  - injection H as <-. constructor.
  - destruct (f a) as [b|] eqn:Ea; simpl in H; [|discriminate].
    destruct (Js.mapM f l) as [bs|] eqn:El; simpl in H; [|discriminate].
    injection H as <-. constructor; auto.
Qed.

Lemma mapM_total (f : A -> result B) (l : list A) :
  (forall x, In x l -> exists y, f x = Ok y) ->
  exists l', Js.mapM f l = Ok l'.
Proof.
  induction l as [|a l IH]; simpl; intros H.
  - now exists [].
  - destruct (H a (or_introl eq_refl)) as [b Eb]. rewrite Eb. simpl.
    destruct IH as [bs Ebs]; [intros x Hx; apply H; now right|].
    rewrite Ebs. simpl. now exists (b :: bs).
Qed.

Lemma mapM_length (f : A -> result B) (l : list A) (l' : list B) :
  Js.mapM f l = Ok l' -> length l' = length l.
Proof.
  intros H. apply mapM_Forall2 in H. symmetry. eapply Forall2_length; eauto.
Qed.

Lemma Forall2_In_r (R : A -> B -> Prop) (l : list A) (l' : list B) (y : B) :
  Forall2 R l l' -> In y l' -> exists x, In x l /\ R x y.
Proof.
  induction 1 as [|a b l l' Hab HF IH]; intros Hy; [destruct Hy|].
  destruct Hy as [<-|Hy].
  - exists a. split; [now left|assumption].
  - destruct (IH Hy) as (x & Hx & Hr). exists x. split; [now right|assumption].
Qed.

Lemma Forall2_In_l (R : A -> B -> Prop) (l : list A) (l' : list B) (x : A) :
  Forall2 R l l' -> In x l -> exists y, In y l' /\ R x y.
Proof.
  induction 1 as [|a b l l' Hab HF IH]; intros Hx; [destruct Hx|].
  destruct Hx as [<-|Hx].
  - exists b. split; [now left|assumption].
  - destruct (IH Hx) as (y & Hy & Hr). exists y. split; [now right|assumption].
Qed.

End CallbackFacts.

(* ------------------------------------------------------------------ *)
(** * One session file *)

Section SessionFacts.

Variable P : Platform.
Variable fs : FileSystem.

(** An entry that passes the date filter is an object whose [timestamp]
    is a string that parses to a valid date on the target day. *)
Lemma onTargetDate_true (targetDate : string) (entry : json) :
  onTargetDate P targetDate entry = Ok true ->
  exists members s t target,
    entry = JObj members
    /\ Json.lookup "timestamp" members = Some (JStr s)
    /\ Json.truthy (Some (JStr s)) = true
    /\ parseISO P s = Some t
    /\ parseISO P targetDate = Some target
    /\ startOfDay P t = startOfDay P target.
Proof.
  unfold onTargetDate. intros H.
  destruct entry as [| | | | |members]; simpl in H; try discriminate.
  destruct (Json.lookup "timestamp" members) as [ts|] eqn:Ets; simpl in H;
    [|discriminate].
  destruct ts as [|b|m e|s|items|ms]; cbn [Json.truthy] in H.
  1, 2, 3, 5, 6:
    match type of H with
    | context [negb ?c] => destruct c; simpl in H; discriminate
    | _ => simpl in H; discriminate
    end.
  destruct (negb (s =? EmptyString)%string) eqn:Etruthy; simpl in H; [|discriminate].
  injection H as H. unfold DateFns.isSameDay in H.
  destruct (parseISO P s) as [t|] eqn:Et; [|discriminate].
  destruct (parseISO P targetDate) as [target|] eqn:Etarget; [|discriminate].
  apply Z.eqb_eq in H.
  exists members, s, t, target. repeat split; auto.
Qed.

Lemma target_hasTimestamp (targetDate : string) (entry : json) :
  onTargetDate P targetDate entry = Ok true -> hasTimestamp entry = Ok true.
Proof.
  intros H. destruct (onTargetDate_true _ _ H)
    as (members & s & t & target & -> & Ets & Etr & _).
  unfold hasTimestamp. simpl. rewrite Ets. simpl. now rewrite <- Etr.
Qed.

Lemma target_timestampOf (targetDate : string) (entry : json) :
  onTargetDate P targetDate entry = Ok true ->
  exists t, timestampOf P entry = Ok (Some t).
Proof.
  intros H. destruct (onTargetDate_true _ _ H)
    as (members & s & t & target & -> & Ets & _ & Et & _).
  exists t. unfold timestampOf. simpl. rewrite Ets. simpl. now rewrite Et.
Qed.

(** On such an entry the user filter does not throw. *)
Lemma target_isUserMessage (targetDate : string) (entry : json) :
  onTargetDate P targetDate entry = Ok true ->
  exists b, isUserMessage entry = Ok b.
Proof.
  intros H. destruct (onTargetDate_true _ _ H) as (members & s & t & target & -> & _).
  unfold isUserMessage. simpl.
  destruct (Json.isString (Json.lookup "type" members) "user"); [|now eexists].
  simpl. destruct (Json.lookup "message" members) as [[| | | | |ms]|]; simpl;
    now eexists.
Qed.

End SessionFacts.

Section SessionInversion.

Variable P : Platform.
Variable fs : FileSystem.

Lemma targetEntries_stamped (targetDate : string) (entries targetEntries : list json) :
  Js.filterM (onTargetDate P targetDate) entries = Ok targetEntries ->
  Js.filterM hasTimestamp targetEntries = Ok targetEntries
  /\ exists dates,
       Js.mapM (timestampOf P) targetEntries = Ok dates
       /\ Forall (fun d => d <> None) dates.
Proof.
  intros Hfilter. split.
  - apply filterM_all. intros x Hx.
    destruct (filterM_In _ _ _ Hfilter x Hx) as [_ Hx'].
    now apply target_hasTimestamp with (P := P) (targetDate := targetDate).
  - destruct (mapM_total (timestampOf P) targetEntries) as [dates Hdates].
    + intros x Hx. destruct (filterM_In _ _ _ Hfilter x Hx) as [_ Hx'].
      destruct (target_timestampOf _ _ _ Hx') as [t Ht]. now exists (Some t).
    + exists dates. split; [exact Hdates|].
      apply Forall_forall. intros d Hd.
      destruct (Forall2_In_r _ _ _ d (mapM_Forall2 _ _ _ Hdates) Hd) as (x & Hx & Hxd).
      destruct (filterM_In _ _ _ Hfilter x Hx) as [_ Hx'].
      destruct (target_timestampOf _ _ _ Hx') as [t Ht].
      rewrite Ht in Hxd. injection Hxd as <-. discriminate.
Qed.

(** What a returned session is made of. *)
Lemma parseSessionFile_some (filePath targetDate projectPath : string)
    (entries targetEntries : list json) (s : SessionInfo.t) :
  readJsonlFile P fs filePath = Ok entries ->
  Js.filterM (onTargetDate P targetDate) entries = Ok targetEntries ->
  parseSessionFile P fs filePath targetDate projectPath = Ok (Some s) ->
  exists userEntries dates t0 t1,
    Js.filterM isUserMessage targetEntries = Ok userEntries
    /\ Js.mapM userMessageOf userEntries = Ok (SessionInfo.userMessages s)
    /\ SessionInfo.userMessages s <> []
    /\ SessionInfo.messageCount s = Z.of_nat (length (SessionInfo.userMessages s))
    /\ Js.mapM (timestampOf P) targetEntries = Ok dates
    /\ nth_error (Js.sort DateFns.compareTime dates) 0 = Some (Some t0)
    /\ nth_error (Js.sort DateFns.compareTime dates) (length dates - 1) = Some (Some t1)
    /\ SessionInfo.startTime s = Some t0
    /\ SessionInfo.endTime s = Some t1
    /\ SessionInfo.duration s = DateFns.differenceInMinutes t1 t0.
Proof.
  intros Hread Hfilter H.
  destruct (targetEntries_stamped _ _ _ Hfilter) as [Hstamped (dates & Hdates & _)].
  unfold parseSessionFile in H. rewrite Hread in H.
  cbv beta iota zeta delta [rbind] in H. rewrite Hfilter in H.
  destruct (length targetEntries =? 0)%nat; [discriminate|].
  destruct (Js.filterM isUserMessage targetEntries) as [userEntries|] eqn:Euser;
    [|discriminate].
  destruct (Js.mapM userMessageOf userEntries) as [userMessages|] eqn:Emsgs;
    [|discriminate].
  destruct (length userMessages =? 0)%nat eqn:Elen; [discriminate|].
  rewrite Hstamped, Hdates in H.
  rewrite (sort_length DateFns.compareTime dates) in H.
  destruct (length dates =? 0)%nat; [discriminate|].
  destruct (nth_error (Js.sort DateFns.compareTime dates) 0) as [startTime|] eqn:E0;
    [|discriminate].
  destruct (nth_error (Js.sort DateFns.compareTime dates) (length dates - 1))
    as [endTime|] eqn:E1; [|discriminate].
  unfold calculateDuration in H. simpl in H.
  destruct startTime as [t0|]; [|discriminate].
  destruct endTime as [t1|]; [|discriminate].
  injection H as <-. simpl.
  exists userEntries, dates, t0, t1. repeat split; auto.
  intros ->. discriminate.
Qed.

End SessionInversion.

Section SortedEnds.

Context {A : Type} (key : A -> Z).

Lemma sorted_first_le (l : list A) (x : A) :
  StronglySorted (fun a b => (key a <= key b)%Z) l ->
  nth_error l 0 = Some x ->
  forall y, In y l -> (key x <= key y)%Z.
Proof.
  intros Hs Hx y Hy. destruct l as [|a l]; [discriminate|].
  injection Hx as ->. inversion Hs as [|? ? _ Hall]; subst.
  destruct Hy as [<-|Hy]; [lia|].
  rewrite Forall_forall in Hall. now apply Hall.
Qed.

Lemma sorted_last_ge (l : list A) (z : A) :
  StronglySorted (fun a b => (key a <= key b)%Z) l ->
  nth_error l (length l - 1) = Some z ->
  forall y, In y l -> (key y <= key z)%Z.
Proof.
  induction 1 as [|a l Hs IH Hall]; intros Hz y Hy; [destruct Hy|].
  destruct l as [|b l'].
  - simpl in Hz. injection Hz as <-. destruct Hy as [<-|[]]. lia.
  - assert (Hz' : nth_error (b :: l') (length (b :: l') - 1) = Some z).
    { simpl in *. now rewrite Nat.sub_0_r in *. }
    destruct Hy as [<-|Hy].
    + rewrite Forall_forall in Hall. apply Hall.
      eapply nth_error_In; eauto.
    + now apply IH.
Qed.

End SortedEnds.

Section SessionClaims.

Variable P : Platform.
Variable fs : FileSystem.

(** C4.  When no event of the target day passes the user filter (type
    [user] and message role [user]), [parseSessionFile] returns null,
    whatever other events, assistant ones included, that day has; the
    loop of [parseProjectForDate] then adds no session for the file. *)
Theorem no_user_instruction_no_session (filePath targetDate projectPath : string)
    (entries targetEntries : list json) :
  readJsonlFile P fs filePath = Ok entries ->
  Js.filterM (onTargetDate P targetDate) entries = Ok targetEntries ->
  (forall e, In e targetEntries -> isUserMessage e <> Ok true) ->
  parseSessionFile P fs filePath targetDate projectPath = Ok None
  /\ forall rest sessions st,
       forEachJsonlFile P fs (filePath :: rest) targetDate projectPath sessions st
       = forEachJsonlFile P fs rest targetDate projectPath sessions st.
Proof.
  intros Hread Hfilter Hnone.
  assert (H : parseSessionFile P fs filePath targetDate projectPath = Ok None).
  { unfold parseSessionFile. rewrite Hread.
    cbv beta iota zeta delta [rbind]. rewrite Hfilter.
    destruct (length targetEntries =? 0)%nat; [reflexivity|].
    rewrite (filterM_none isUserMessage targetEntries); [reflexivity|].
    intros x Hx. destruct (filterM_In _ _ _ Hfilter x Hx) as [_ Hx'].
    destruct (target_isUserMessage P _ _ Hx') as [[|] Hb]; [|exact Hb].
    now destruct (Hnone x Hx). }
  split; [exact H|].
  intros rest sessions st. now apply forEachJsonlFile_none.
Qed.

(** C6.  The start and end of a reconstructed session are the least and
    the greatest timestamp among all events of the target day, whatever
    their type; its duration is their difference in whole minutes, never
    negative, and 0 when the day has a single event. *)
Theorem session_bounds (filePath targetDate projectPath : string)
    (entries targetEntries : list json) (s : SessionInfo.t) :
  readJsonlFile P fs filePath = Ok entries ->
  Js.filterM (onTargetDate P targetDate) entries = Ok targetEntries ->
  parseSessionFile P fs filePath targetDate projectPath = Ok (Some s) ->
  exists t0 t1,
    SessionInfo.startTime s = Some t0
    /\ SessionInfo.endTime s = Some t1
    /\ (exists e, In e targetEntries /\ timestampOf P e = Ok (Some t0))
    /\ (exists e, In e targetEntries /\ timestampOf P e = Ok (Some t1))
    /\ (forall e, In e targetEntries ->
          exists t, timestampOf P e = Ok (Some t) /\ (t0 <= t <= t1)%Z)
    /\ SessionInfo.duration s = Z.quot (t1 - t0) 60000
    /\ (0 <= SessionInfo.duration s)%Z
    /\ (length targetEntries = 1%nat -> SessionInfo.duration s = 0%Z).
Proof.
  intros Hread Hfilter Hsome.
  destruct (parseSessionFile_some P fs _ _ _ _ _ _ Hread Hfilter Hsome)
    as (userEntries & dates & t0 & t1 & _ & _ & _ & _ & Hdates & H0 & H1
        & Hstart & Hend & Hdur).
  destruct (targetEntries_stamped P _ _ _ Hfilter) as [_ (dates' & Hdates' & Hvalid)].
  rewrite Hdates in Hdates'. injection Hdates' as <-.
  rewrite Forall_forall in Hvalid.
  pose proof (mapM_Forall2 _ _ _ Hdates) as HF.
  set (sorted := Js.sort DateFns.compareTime dates) in *.
  assert (Hkeyed : forall a b, In a dates -> In b dates ->
                     DateFns.compareTime a b = (millis a - millis b)%Z).
  { intros [a|] [b|] Ha Hb; try reflexivity; exfalso;
      (now apply (Hvalid None Ha)) || (now apply (Hvalid None Hb)). }
  pose proof (sort_sorted DateFns.compareTime millis dates Hkeyed) as Hsorted.
  fold sorted in Hsorted.
  assert (Hin : forall d, In d sorted <-> In d dates)
    by (intros d; apply sort_In).
  assert (Hmin : forall d, In d dates -> (t0 <= millis d)%Z).
  { intros d Hd. apply Hin in Hd.
    exact (sorted_first_le millis sorted (Some t0) Hsorted H0 d Hd). }
  assert (Hmax : forall d, In d dates -> (millis d <= t1)%Z).
  { intros d Hd. apply Hin in Hd.
    rewrite <- (sort_length DateFns.compareTime dates) in H1. fold sorted in H1.
    exact (sorted_last_ge millis sorted (Some t1) Hsorted H1 d Hd). }
  assert (Hin0 : In (Some t0) dates) by (apply Hin; eapply nth_error_In; eauto).
  assert (Hin1 : In (Some t1) dates) by (apply Hin; eapply nth_error_In; eauto).
  exists t0, t1. repeat split; auto.
  - destruct (Forall2_In_r _ _ _ _ HF Hin0) as (e & He & Hte). now exists e.
  - destruct (Forall2_In_r _ _ _ _ HF Hin1) as (e & He & Hte). now exists e.
  - intros e He. destruct (Forall2_In_l _ _ _ _ HF He) as (d & Hd & Hed).
    destruct d as [t|]; [|now destruct (Hvalid None Hd)].
    exists t. split; [exact Hed|].
    specialize (Hmin _ Hd). specialize (Hmax _ Hd). simpl in *. lia.
  - rewrite Hdur. unfold DateFns.differenceInMinutes.
    apply Z.quot_pos; [|lia]. specialize (Hmin _ Hin1). simpl in Hmin. lia.
  - intros Hone. rewrite Hdur. unfold DateFns.differenceInMinutes.
    assert (Hlen : length dates = 1%nat)
      by (rewrite (mapM_length _ _ _ Hdates); exact Hone).
    rewrite Hlen in H1. change (1 - 1)%nat with 0%nat in H1.
    rewrite H0 in H1. injection H1 as <-.
    now rewrite Z.sub_diag.
Qed.

End SessionClaims.

Lemma no_user_instruction_no_session_witness :
  parseSessionFile Reference.platform
    (Fixtures.oneLog (Reference.unlines Fixtures.assistantOnly))
    Fixtures.s1 "2025-07-03" "Users/dev/app"
  = Ok None.
Proof.
  refine (proj1 (no_user_instruction_no_session Reference.platform
                   (Fixtures.oneLog (Reference.unlines Fixtures.assistantOnly))
                   Fixtures.s1 "2025-07-03" "Users/dev/app"
                   Fixtures.assistantOnlyRecords
                   [Fixtures.assistantRecord "2025-07-03T09:15:00.000Z" "done"]
                   _ _ _)).
  - vm_compute. reflexivity.
  - vm_compute. reflexivity.
  - intros e [<-|[]]. vm_compute. discriminate.
Defined.

Lemma session_bounds_witness :
  exists t0 t1,
    SessionInfo.startTime Fixtures.threeLinesSession = Some t0
    /\ SessionInfo.endTime Fixtures.threeLinesSession = Some t1
    /\ SessionInfo.duration Fixtures.threeLinesSession = Z.quot (t1 - t0) 60000
    /\ (0 <= SessionInfo.duration Fixtures.threeLinesSession)%Z.
Proof.
  destruct (session_bounds Reference.platform
              (Fixtures.oneLog (Reference.unlines Fixtures.threeLines))
              Fixtures.s1 "2025-07-03" "Users/dev/app"
              Fixtures.threeRecords (firstn 2 Fixtures.threeRecords)
              Fixtures.threeLinesSession)
    as (t0 & t1 & H0 & H1 & _ & _ & _ & Hd & Hpos & _).
  - vm_compute. reflexivity.
  - vm_compute. reflexivity.
  - vm_compute. reflexivity.
  - exists t0, t1. repeat split; assumption.
Defined.

(* ------------------------------------------------------------------ *)
(** * The text of an instruction *)

Lemma findTextItem_cons (item : json) (rest : list json) :
  findTextItem (item :: rest)
  = (type <- Json.get (Some item) "type" ;;
     if Json.isString type "text" then Ok (Some item) else findTextItem rest)%result.
Proof. reflexivity. Qed.

Lemma findTextItem_none (items : list json) :
  Forall notTextPart items -> findTextItem items = Ok undefined.
Proof.
  induction 1 as [|item items (type & Hget & Hno) _ IH].
  - reflexivity.
  - rewrite findTextItem_cons, Hget. cbv beta iota delta [rbind]. now rewrite Hno.
Qed.

Lemma findTextItem_first (before after : list json) (part : json) :
  Forall notTextPart before -> isTextPart part ->
  findTextItem (before ++ part :: after) = Ok (Some part).
Proof.
  intros Hbefore (type & Hget & Hyes).
  induction Hbefore as [|item items (type' & Hget' & Hno) _ IH].
  - change ([] ++ part :: after) with (part :: after).
    rewrite findTextItem_cons, Hget. cbv beta iota delta [rbind]. now rewrite Hyes.
  - change ((item :: items) ++ part :: after) with (item :: (items ++ part :: after)).
    rewrite findTextItem_cons, Hget'. cbv beta iota delta [rbind]. now rewrite Hno.
Qed.

(** A part is not a text part, and its [type] can be read, exactly when it
    is not [null] and is not a text part; a text part is never [null]. *)
Lemma isTextPart_not_null (item : json) : isTextPart item -> item <> JNull.
Proof. intros (type & Hget & _) ->. discriminate. Qed.

Lemma notTextPart_iff (item : json) :
  notTextPart item <-> item <> JNull /\ ~ isTextPart item.
Proof.
  split.
  - intros (type & Hget & Hno). split.
    + intros ->. discriminate.
    + intros (type' & Hget' & Hyes). rewrite Hget in Hget'.
      injection Hget' as <-. congruence.
  - intros [Hnull Hno].
    destruct (Json.get (Some item) "type") as [type|e] eqn:Hget.
    + exists type. split; [exact Hget|].
      destruct (Json.isString type "text") eqn:Hyes; [|reflexivity].
      destruct Hno. now exists type.
    + destruct item; try discriminate. now destruct Hnull.
Qed.

Lemma Forall_notTextPart (items : list json) :
  ~ In JNull items -> Forall (fun item => ~ isTextPart item) items ->
  Forall notTextPart items.
Proof.
  intros Hnull Hno. apply Forall_forall. intros item Hin.
  apply notTextPart_iff. split.
  - intros ->. now apply Hnull.
  - exact (proj1 (Forall_forall _ items) Hno item Hin).
Qed.

(** C5, as the code has it.  For a user event that passes the filter, the
    instruction is the content itself when the content is a string.  When
    the content is an array in which no part before the first text part is
    [null] (no part at all, if the array has no text part), it is the
    [text] of the first part whose [type] is ['text'] if that text is
    truthy (a non-empty string, in the logs), and the marker
    ['[Tool use]'] if no part is a text part or if the first text part has
    no text or an empty one.  Any content that is neither a string nor an
    array gives the marker ['[Unknown content]'].  None of these cases
    throws.  An array with a [null] part at or before that point is not
    covered by this statement. *)
Theorem userMessageOf_by_content_shape (entry : json) :
  isUserMessage entry = Ok true ->
  exists content,
    (message <- Json.get (Some entry) "message" ;;
     Json.getOpt message "content")%result = Ok content
    /\ (forall s, content = Some (JStr s) -> userMessageOf entry = Ok (JStr s))
    /\ (forall before part after,
          content = Some (JArr (before ++ part :: after)) ->
          ~ In JNull before ->
          Forall (fun item => ~ isTextPart item) before ->
          isTextPart part ->
          exists text,
            Json.get (Some part) "text" = Ok text
            /\ (forall t, text = Some t -> Json.truthy text = true ->
                          userMessageOf entry = Ok t)
            /\ (Json.truthy text = false ->
                userMessageOf entry = Ok (JStr "[Tool use]")))
    /\ (forall items,
          content = Some (JArr items) ->
          ~ In JNull items ->
          Forall (fun item => ~ isTextPart item) items ->
          userMessageOf entry = Ok (JStr "[Tool use]"))
    /\ ((forall s, content <> Some (JStr s)) ->
        (forall items, content <> Some (JArr items)) ->
        userMessageOf entry = Ok (JStr "[Unknown content]")).
Proof.
  intros Huser. unfold isUserMessage in Huser.
  destruct entry as [| | | | |members]; simpl in Huser; try discriminate.
  destruct (Json.isString (Json.lookup "type" members) "user"); [|discriminate].
  simpl in Huser.
  destruct (Json.lookup "message" members) as [message|] eqn:Emsg;
    [|simpl in Huser; discriminate].
  destruct message as [| | | | |mm]; simpl in Huser; try discriminate.
  exists (Json.lookup "content" mm).
  unfold userMessageOf. simpl. rewrite Emsg. simpl.
  split; [reflexivity|].
  split; [|split; [|split]].
  - intros s ->. reflexivity.
  - intros before part after -> Hnull Hbefore Hpart.
    rewrite (findTextItem_first before after part
               (Forall_notTextPart before Hnull Hbefore) Hpart).
    cbv beta iota zeta delta [rbind].
    assert (Htext : exists text, Json.get (Some part) "text" = Ok text
                                 /\ Json.getOpt (Some part) "text" = Ok text).
    { pose proof (isTextPart_not_null part Hpart) as Hpn.
      destruct part; try (eexists; split; reflexivity). now destruct Hpn. }
    destruct Htext as (text & Hget & Hopt).
    exists text. rewrite Hopt. split; [exact Hget|]. split.
    + intros t -> Htruthy. now rewrite Htruthy.
    + intros Hfalsy. destruct text as [t|]; [now rewrite Hfalsy|reflexivity].
  - intros items -> Hnull Hnone.
    rewrite (findTextItem_none items (Forall_notTextPart items Hnull Hnone)).
    reflexivity.
  - intros Hs Ha.
    destruct (Json.lookup "content" mm) as [[| | |s|items|]|]; try reflexivity.
    + now destruct (Hs s).
    + now destruct (Ha items).
Qed.

Lemma userMessageOf_by_content_shape_witness :
  userMessageOf (Fixtures.userRecord "2025-07-03T09:00:00.000Z" "fix bug")
  = Ok (JStr "fix bug")
  /\ userMessageOf
       (Fixtures.userPartsRecord "2025-07-03T09:00:00.000Z"
          [JObj [("type", JStr "image")]; Fixtures.textPart "see this"])
     = Ok (JStr "see this").
Proof.
  split.
  - destruct (userMessageOf_by_content_shape
                (Fixtures.userRecord "2025-07-03T09:00:00.000Z" "fix bug") eq_refl)
      as (content & Hc & Hstr & _).
    apply Hstr. vm_compute in Hc. injection Hc as <-. reflexivity.
  - destruct (userMessageOf_by_content_shape
                (Fixtures.userPartsRecord "2025-07-03T09:00:00.000Z"
                   [JObj [("type", JStr "image")]; Fixtures.textPart "see this"])
                eq_refl)
      as (content & Hc & _ & Hparts & _).
    vm_compute in Hc. injection Hc as <-.
    destruct (Hparts [JObj [("type", JStr "image")]] (Fixtures.textPart "see this")
                [] eq_refl) as (text & Htext & Htruthy & _).
    + intros [H|[]]. discriminate.
    + constructor; [|constructor].
      intros (type & Hget & Hyes). injection Hget as <-. discriminate.
    + eexists. split; reflexivity.
    + injection Htext as <-. exact (Htruthy (JStr "see this") eq_refl eq_refl).
Defined.

(** C5 as stated fails on a user event whose first text part has an empty
    text: a text part exists, yet the instruction is the marker and not
    that part's text. *)
Lemma empty_text_part_gets_placeholder :
  let part := Fixtures.textPart EmptyString in
  let entry :=
    Fixtures.userPartsRecord "2025-07-03T09:00:00.000Z"
      [part; Fixtures.textPart "second"] in
  isUserMessage entry = Ok true
  /\ findTextItem [part; Fixtures.textPart "second"] = Ok (Some part)
  /\ Json.get (Some part) "text" = Ok (Some (JStr EmptyString))
  /\ userMessageOf entry = Ok (JStr "[Tool use]")
  /\ userMessageOf entry <> Ok (JStr EmptyString).
Proof.
  repeat split. discriminate.
Qed.

(** A [null] part met before any text part is outside the statement above:
    reading its [type] throws, and so does the extraction. *)
Lemma userMessageOf_null_part_throws :
  let entry :=
    Fixtures.userPartsRecord "2025-07-03T09:00:00.000Z"
      [JNull; Fixtures.textPart "see this"] in
  isUserMessage entry = Ok true
  /\ userMessageOf entry
     = Throw (TypeError "Cannot read properties of null (reading 'type')").
Proof.
  split; reflexivity.
Qed.

(* ------------------------------------------------------------------ *)
(** * Projects and the daily report *)

Section AggregatorFacts.

Variable P : Platform.
Variable fs : FileSystem.
Variable claudeProjectsPath : string.

Lemma parseSessionFile_some_read (filePath targetDate projectPath : string)
    (s : SessionInfo.t) :
  parseSessionFile P fs filePath targetDate projectPath = Ok (Some s) ->
  exists entries targetEntries,
    readJsonlFile P fs filePath = Ok entries
    /\ Js.filterM (onTargetDate P targetDate) entries = Ok targetEntries.
Proof.
  unfold parseSessionFile. intros H.
  destruct (readJsonlFile P fs filePath) as [entries|]; [|discriminate].
  cbv beta iota zeta delta [rbind] in H.
  destruct (Js.filterM (onTargetDate P targetDate) entries) as [targetEntries|] eqn:E;
    [|discriminate].
  now exists entries, targetEntries.
Qed.

Lemma parseSessionFile_valid_start (filePath targetDate projectPath : string)
    (s : SessionInfo.t) :
  parseSessionFile P fs filePath targetDate projectPath = Ok (Some s) ->
  SessionInfo.startTime s <> None.
Proof.
  intros H.
  destruct (parseSessionFile_some_read _ _ _ _ H) as (entries & targetEntries & Hr & Hf).
  destruct (parseSessionFile_some P fs _ _ _ _ _ _ Hr Hf H)
    as (_ & _ & t0 & _ & _ & _ & _ & _ & _ & _ & _ & Hstart & _).
  rewrite Hstart. discriminate.
Qed.

Lemma forEachJsonlFile_step (jsonlFile : string) (rest : list string)
    (targetDate actualPath : string) (sessions : list SessionInfo.t)
    (st : ParserState) :
  forEachJsonlFile P fs (jsonlFile :: rest) targetDate actualPath sessions st
  = match parseSessionFile P fs jsonlFile targetDate actualPath with
    | Ok (Some info) =>
        forEachJsonlFile P fs rest targetDate actualPath (sessions ++ [info]) st
    | Ok None => forEachJsonlFile P fs rest targetDate actualPath sessions st
    | Throw e =>
        forEachJsonlFile P fs rest targetDate actualPath sessions
          {| errors := errors st ++ [sessionFileFailure jsonlFile e];
             warnings := warnings st |}
    end.
Proof.
  destruct (parseSessionFile P fs jsonlFile targetDate actualPath) as [[info|]|e] eqn:E.
  - now apply forEachJsonlFile_some.
  - now apply forEachJsonlFile_none.
  - now apply forEachJsonlFile_throw.
Qed.

(** The loop over the log files never throws, and keeps any property that
    holds of the sessions [parseSessionFile] returns. *)
Lemma forEachJsonlFile_Forall (Q : SessionInfo.t -> Prop) (targetDate actualPath : string) :
  (forall f s, parseSessionFile P fs f targetDate actualPath = Ok (Some s) -> Q s) ->
  forall jsonlFiles sessions st,
    Forall Q sessions ->
    exists scanned st',
      forEachJsonlFile P fs jsonlFiles targetDate actualPath sessions st
      = (Ok scanned, st')
      /\ Forall Q scanned.
Proof.
  intros HQ. induction jsonlFiles as [|f rest IH]; intros sessions st Hacc.
  - exists sessions, st. now split.
  - rewrite forEachJsonlFile_step.
    destruct (parseSessionFile P fs f targetDate actualPath) as [[info|]|e] eqn:E.
    + apply IH. apply Forall_app. split; [exact Hacc|].
      constructor; [|constructor]. eapply HQ; eauto.
    + now apply IH.
    + now apply IH.
Qed.

Lemma parseProjectForDate_some (projectDir targetDate : string)
    (st st' : ParserState) (project : ProjectInfo.t) :
  parseProjectForDate P fs claudeProjectsPath projectDir targetDate st
  = (Ok (Some project), st') ->
  exists scanned,
    BuiltFrom P fs claudeProjectsPath targetDate scanned project
    /\ Forall (fun s => SessionInfo.startTime s <> None) scanned.
Proof.
  unfold parseProjectForDate, bind, lift. intros H.
  destruct (getJsonlFiles P fs (path_join P claudeProjectsPath projectDir))
    as [jsonlFiles|] eqn:Efiles; [|discriminate].
  destruct (length jsonlFiles =? 0)%nat; [discriminate|].
  destruct (forEachJsonlFile_Forall (fun s => SessionInfo.startTime s <> None)
              targetDate (extractProjectPath projectDir)
              (fun f s => parseSessionFile_valid_start f _ _ s)
              jsonlFiles [] st (Forall_nil _))
    as (scanned & st1 & Escan & Hvalid).
  rewrite Escan in H.
  destruct (length scanned =? 0)%nat eqn:Elen; [discriminate|].
  injection H as <- <-.
  exists scanned. split; [|exact Hvalid].
  exists projectDir, jsonlFiles, st, st1. repeat split; auto.
  intros ->. discriminate.
Qed.

Lemma forEachProjectDir_step (projectDir : string) (rest : list string)
    (targetDate : string) (projects : list ProjectInfo.t) (st : ParserState) :
  forEachProjectDir P fs claudeProjectsPath (projectDir :: rest) targetDate projects st
  = match parseProjectForDate P fs claudeProjectsPath projectDir targetDate st with
    | (Ok (Some info), st1) =>
        forEachProjectDir P fs claudeProjectsPath rest targetDate
          (if (0 <? length (ProjectInfo.sessions info))%nat
           then projects ++ [info] else projects) st1
    | (Ok None, st1) =>
        forEachProjectDir P fs claudeProjectsPath rest targetDate projects st1
    | (Throw e, st1) =>
        forEachProjectDir P fs claudeProjectsPath rest targetDate projects
          {| errors := errors st1 ++ [projectFailure projectDir e];
             warnings := warnings st1 |}
    end.
Proof.
  simpl. unfold bind at 1. unfold catch, bind.
  destruct (parseProjectForDate P fs claudeProjectsPath projectDir targetDate st)
    as [[[info|]|e] st1]; try reflexivity.
  destruct (0 <? length (ProjectInfo.sessions info))%nat; reflexivity.
Qed.

(** The loop over the project directories never throws, and keeps any
    property that holds of the projects [parseProjectForDate] returns. *)
Lemma forEachProjectDir_Forall (Q : ProjectInfo.t -> Prop) (targetDate : string) :
  (forall dir st st' p,
     parseProjectForDate P fs claudeProjectsPath dir targetDate st = (Ok (Some p), st') ->
     Q p) ->
  forall projectDirs projects st,
    Forall Q projects ->
    exists scanned st',
      forEachProjectDir P fs claudeProjectsPath projectDirs targetDate projects st
      = (Ok scanned, st')
      /\ Forall Q scanned.
Proof.
  intros HQ. induction projectDirs as [|dir rest IH]; intros projects st Hacc.
  - exists projects, st. now split.
  - rewrite forEachProjectDir_step.
    destruct (parseProjectForDate P fs claudeProjectsPath dir targetDate st)
      as [[[info|]|e] st1] eqn:E.
    + apply IH. destruct (0 <? length (ProjectInfo.sessions info))%nat; [|exact Hacc].
      apply Forall_app. split; [exact Hacc|].
      constructor; [|constructor]. eapply HQ; eauto.
    + now apply IH.
    + now apply IH.
Qed.

Lemma finish_data (body : M DailyReport.t) (report : DailyReport.t) :
  ProcessResult.data (finish body) = Some report ->
  exists st, body {| errors := []; warnings := [] |} = (Ok report, st).
Proof.
  unfold finish. destruct (body _) as [[r|e] st]; simpl; intros H.
  - injection H as <-. now exists st.
  - discriminate.
Qed.

(** A report of [parseForDate]: the projects scanned, sorted, and their
    summary. *)
Lemma parseForDate_data (targetDate : string) (report : DailyReport.t) :
  ProcessResult.data (parseForDate P fs claudeProjectsPath targetDate) = Some report ->
  exists projectDirs scanned st st',
    getProjectDirectories P fs claudeProjectsPath = Ok projectDirs
    /\ forEachProjectDir P fs claudeProjectsPath projectDirs targetDate [] st
       = (Ok scanned, st')
    /\ Forall (fun p => exists sessions,
                 BuiltFrom P fs claudeProjectsPath targetDate sessions p
                 /\ Forall (fun s => SessionInfo.startTime s <> None) sessions)
         scanned
    /\ report = {| DailyReport.date := targetDate;
                   DailyReport.projects := Js.sort byTotalDurationDesc scanned;
                   DailyReport.summary := calculateSummary scanned |}.
Proof.
  intros H. apply finish_data in H as [stf H].
  unfold bind, lift, throw, ret in H.
  destruct (negb (isValidDateString P targetDate)); [discriminate|].
  destruct (negb (directoryExists fs claudeProjectsPath)); [discriminate|].
  destruct (getProjectDirectories P fs claudeProjectsPath) as [projectDirs|] eqn:Edirs;
    [|discriminate].
  destruct (forEachProjectDir_Forall
              (fun p => exists sessions,
                 BuiltFrom P fs claudeProjectsPath targetDate sessions p
                 /\ Forall (fun s => SessionInfo.startTime s <> None) sessions)
              targetDate
              (fun dir st st' p => parseProjectForDate_some dir targetDate st st' p)
              projectDirs [] {| errors := []; warnings := [] |} (Forall_nil _))
    as (scanned & st1 & Escan & Hbuilt).
  destruct (length projectDirs =? 0)%nat eqn:Elen.
  - destruct projectDirs; [|discriminate].
    unfold pushWarning in H. injection H as <- _.
    exists [], [], {| errors := []; warnings := [] |}, {| errors := []; warnings := [] |}.
    repeat split; auto.
  - rewrite Escan in H. injection H as <- _.
    exists projectDirs, scanned, {| errors := []; warnings := [] |}, st1.
    repeat split; auto.
Qed.

(** A report of [parseProjectOnly]: at most one project. *)
Lemma parseProjectOnly_data (projectName targetDate : string) (report : DailyReport.t) :
  ProcessResult.data (parseProjectOnly P fs claudeProjectsPath projectName targetDate)
  = Some report ->
  exists projects,
    report = {| DailyReport.date := targetDate;
                DailyReport.projects := projects;
                DailyReport.summary := calculateSummary projects |}
    /\ (projects = []
        \/ exists p sessions,
             projects = [p]
             /\ BuiltFrom P fs claudeProjectsPath targetDate sessions p
             /\ Forall (fun s => SessionInfo.startTime s <> None) sessions).
Proof.
  intros H. apply finish_data in H as [stf H].
  unfold bind, lift, throw, ret in H.
  destruct (getProjectDirectories P fs claudeProjectsPath) as [projectDirs|];
    [|discriminate].
  destruct (find _ projectDirs) as [[|c dir]|]; try discriminate.
  destruct (parseProjectForDate P fs claudeProjectsPath (String c dir) targetDate _)
    as [[[info|]|e] st1] eqn:E; try discriminate.
  - injection H as <- _. exists [info]. split; [reflexivity|]. right.
    destruct (parseProjectForDate_some _ _ _ _ _ E) as (sessions & Hb & Hv).
    now exists info, sessions.
  - injection H as <- _. exists []. split; [reflexivity|now left].
Qed.

End AggregatorFacts.

Section BuiltFacts.

Variable P : Platform.
Variable fs : FileSystem.
Variable claudeProjectsPath : string.

Lemma BuiltFrom_sessions_perm (targetDate : string) (scanned : list SessionInfo.t)
    (p : ProjectInfo.t) :
  BuiltFrom P fs claudeProjectsPath targetDate scanned p ->
  Permutation scanned (ProjectInfo.sessions p).
Proof.
  intros (dir & files & st & st' & _ & _ & _ & ->). simpl. apply sort_perm.
Qed.

Lemma BuiltFrom_nonempty (targetDate : string) (scanned : list SessionInfo.t)
    (p : ProjectInfo.t) :
  BuiltFrom P fs claudeProjectsPath targetDate scanned p ->
  ProjectInfo.sessions p <> [].
Proof.
  intros H. pose proof (BuiltFrom_sessions_perm _ _ _ H) as Hperm.
  destruct H as (dir & files & st & st' & _ & _ & Hne & _).
  intros E. rewrite E in Hperm. apply Permutation_sym, Permutation_nil in Hperm.
  contradiction.
Qed.

Lemma BuiltFrom_totalDuration (targetDate : string) (scanned : list SessionInfo.t)
    (p : ProjectInfo.t) :
  BuiltFrom P fs claudeProjectsPath targetDate scanned p ->
  ProjectInfo.totalDuration p = total (map SessionInfo.duration (ProjectInfo.sessions p)).
Proof.
  intros (dir & files & st & st' & _ & _ & _ & ->). simpl.
  rewrite sumOf_total. apply total_perm, Permutation_map, sort_perm.
Qed.

Lemma BuiltFrom_sessions_sorted (targetDate : string) (scanned : list SessionInfo.t)
    (p : ProjectInfo.t) :
  BuiltFrom P fs claudeProjectsPath targetDate scanned p ->
  Forall (fun s => SessionInfo.startTime s <> None) scanned ->
  StableSortedBy (fun s => millis (SessionInfo.startTime s)) scanned
    (ProjectInfo.sessions p).
Proof.
  intros (dir & files & st & st' & _ & _ & _ & ->) Hvalid. simpl.
  apply sort_StableSortedBy. rewrite Forall_forall in Hvalid.
  intros a b Ha Hb. unfold byStartTime.
  specialize (Hvalid a Ha) as Hva. specialize (Hvalid b Hb) as Hvb.
  destruct (SessionInfo.startTime a), (SessionInfo.startTime b);
    try reflexivity; contradiction.
Qed.

Lemma projects_sorted (scanned : list ProjectInfo.t) :
  StableSortedBy (fun p => (- ProjectInfo.totalDuration p)%Z) scanned
    (Js.sort byTotalDurationDesc scanned).
Proof.
  apply sort_StableSortedBy. intros a b _ _. unfold byTotalDurationDesc. lia.
Qed.

(** The summary of a list of projects, read on any rearrangement of it. *)
Lemma calculateSummary_perm (scanned projects : list ProjectInfo.t) :
  Permutation scanned projects ->
  Summary.projectCount (calculateSummary scanned) = Z.of_nat (length projects)
  /\ Summary.sessionCount (calculateSummary scanned)
     = total (map (fun p => Z.of_nat (length (ProjectInfo.sessions p))) projects)
  /\ Summary.totalDuration (calculateSummary scanned)
     = total (map ProjectInfo.totalDuration projects)
  /\ Summary.totalMessages (calculateSummary scanned)
     = total (map ProjectInfo.totalMessages projects).
Proof.
  intros Hperm. unfold calculateSummary. simpl. rewrite !sumOf_total.
  repeat split.
  - now rewrite (Permutation_length Hperm).
  - apply total_perm. now apply Permutation_map.
  - apply total_perm. now apply Permutation_map.
  - apply total_perm. now apply Permutation_map.
Qed.

(** What both public methods guarantee of a report they return. *)
Lemma report_shape (projectName targetDate : string) (r : ProcessResult.t)
    (report : DailyReport.t) :
  r = parseForDate P fs claudeProjectsPath targetDate
  \/ r = parseProjectOnly P fs claudeProjectsPath projectName targetDate ->
  ProcessResult.data r = Some report ->
  exists scanned,
    Permutation scanned (DailyReport.projects report)
    /\ DailyReport.summary report = calculateSummary scanned
    /\ Forall (fun p => exists sessions,
                 BuiltFrom P fs claudeProjectsPath targetDate sessions p
                 /\ Forall (fun s => SessionInfo.startTime s <> None) sessions)
         (DailyReport.projects report).
Proof.
  intros [-> | ->] Hdata.
  - destruct (parseForDate_data _ _ _ _ _ Hdata)
      as (dirs & scanned & st & st' & _ & _ & Hbuilt & ->). simpl.
    exists scanned. repeat split; [apply sort_perm|].
    rewrite Forall_forall in *. intros p Hp. apply Hbuilt.
    now apply (sort_In byTotalDurationDesc scanned p).
  - destruct (parseProjectOnly_data _ _ _ _ _ _ Hdata)
      as (projects & -> & [-> | (p & sessions & -> & Hb & Hv)]); simpl.
    + exists []. repeat split; constructor.
    + exists [p]. repeat split; [apply Permutation_refl|].
      constructor; [|constructor]. now exists sessions.
Qed.

End BuiltFacts.

(** C7.  In every report returned by [parseForDate] or [parseProjectOnly]
    the summary's projectCount is the number of projects, its
    sessionCount the sum of the projects' numbers of sessions, and its
    totalDuration the sum of the projects' totalDuration, each of which
    is the sum of the durations of the project's sessions. *)
Theorem summary_consistent (P : Platform) (fs : FileSystem)
    (claudeProjectsPath projectName targetDate : string) (r : ProcessResult.t)
    (report : DailyReport.t) :
  r = parseForDate P fs claudeProjectsPath targetDate
  \/ r = parseProjectOnly P fs claudeProjectsPath projectName targetDate ->
  ProcessResult.data r = Some report ->
  let projects := DailyReport.projects report in
  let summary := DailyReport.summary report in
  Summary.projectCount summary = Z.of_nat (length projects)
  /\ Summary.sessionCount summary
     = total (map (fun p => Z.of_nat (length (ProjectInfo.sessions p))) projects)
  /\ Summary.totalDuration summary = total (map ProjectInfo.totalDuration projects)
  /\ Forall (fun p => ProjectInfo.totalDuration p
                      = total (map SessionInfo.duration (ProjectInfo.sessions p)))
       projects.
Proof.
  intros Hr Hdata projects summary. subst projects summary.
  destruct (report_shape P fs claudeProjectsPath projectName targetDate r report Hr Hdata)
    as (scanned & Hperm & -> & Hbuilt).
  destruct (calculateSummary_perm scanned _ Hperm) as (Hc & Hs & Hd & _).
  repeat split; auto.
  rewrite Forall_forall in *. intros p Hp.
  destruct (Hbuilt p Hp) as (sessions & Hb & _).
  eapply BuiltFrom_totalDuration; eauto.
Qed.

Lemma summary_consistent_witness :
  let summary := DailyReport.summary Fixtures.fourProjectsReport in
  let projects := DailyReport.projects Fixtures.fourProjectsReport in
  Summary.projectCount summary = Z.of_nat (length projects)
  /\ Summary.sessionCount summary
     = total (map (fun p => Z.of_nat (length (ProjectInfo.sessions p))) projects)
  /\ Summary.totalDuration summary = total (map ProjectInfo.totalDuration projects)
  /\ Forall (fun p => ProjectInfo.totalDuration p
                      = total (map SessionInfo.duration (ProjectInfo.sessions p)))
       projects.
Proof.
  refine (summary_consistent Reference.platform Fixtures.fourProjects "/logs"
            EmptyString "2025-07-03" _ Fixtures.fourProjectsReport (or_introl eq_refl) _).
  vm_compute. reflexivity.
Defined.

(** C9.  Every project of a report returned by [parseForDate] or
    [parseProjectOnly] has at least one session; a directory whose files
    give no session makes [parseProjectForDate] return null, and the loop
    of [parseForDate] then adds nothing for it. *)
Theorem projects_have_sessions (P : Platform) (fs : FileSystem)
    (claudeProjectsPath projectName targetDate : string) (r : ProcessResult.t)
    (report : DailyReport.t) :
  r = parseForDate P fs claudeProjectsPath targetDate
  \/ r = parseProjectOnly P fs claudeProjectsPath projectName targetDate ->
  ProcessResult.data r = Some report ->
  Forall (fun p => ProjectInfo.sessions p <> []) (DailyReport.projects report)
  /\ (forall projectDir jsonlFiles st st',
        getJsonlFiles P fs (path_join P claudeProjectsPath projectDir) = Ok jsonlFiles ->
        forEachJsonlFile P fs jsonlFiles targetDate (extractProjectPath projectDir) [] st
        = (Ok [], st') ->
        exists st'',
          parseProjectForDate P fs claudeProjectsPath projectDir targetDate st
          = (Ok None, st'')
          /\ forall rest projects,
               forEachProjectDir P fs claudeProjectsPath (projectDir :: rest)
                 targetDate projects st
               = forEachProjectDir P fs claudeProjectsPath rest targetDate projects st'').
Proof.
  intros Hr Hdata. split.
  - destruct (report_shape P fs claudeProjectsPath projectName targetDate r report Hr Hdata)
      as (scanned & _ & _ & Hbuilt).
    rewrite Forall_forall in *. intros p Hp.
    destruct (Hbuilt p Hp) as (sessions & Hb & _).
    eapply BuiltFrom_nonempty; eauto.
  - intros projectDir jsonlFiles st st' Hfiles Hscan.
    assert (Hnone : exists st'',
               parseProjectForDate P fs claudeProjectsPath projectDir targetDate st
               = (Ok None, st'')).
    { unfold parseProjectForDate, bind, lift. rewrite Hfiles.
      destruct (length jsonlFiles =? 0)%nat; [eexists; reflexivity|].
      rewrite Hscan. simpl. eexists; reflexivity. }
    destruct Hnone as [st'' Hnone]. exists st''. split; [exact Hnone|].
    intros rest projects. rewrite forEachProjectDir_step, Hnone. reflexivity.
Qed.

Lemma projects_have_sessions_witness :
  Forall (fun p => ProjectInfo.sessions p <> [])
    (DailyReport.projects Fixtures.fourProjectsReport)
  /\ Forall (fun p => ProjectInfo.sessions p <> [])
       (DailyReport.projects Fixtures.appReport).
Proof.
  split.
  - refine (proj1 (projects_have_sessions Reference.platform Fixtures.fourProjects
                     "/logs" EmptyString "2025-07-03" _ Fixtures.fourProjectsReport
                     (or_introl eq_refl) _)).
    vm_compute. reflexivity.
  - refine (proj1 (projects_have_sessions Reference.platform Fixtures.fourProjects
                     "/logs" "app" "2025-07-03" _ Fixtures.appReport
                     (or_intror eq_refl) _)).
    vm_compute. reflexivity.
Defined.

Lemma StronglySorted_weaken {A} (R R' : A -> A -> Prop) (l : list A) :
  (forall a b, R a b -> R' a b) ->
  StronglySorted R l -> StronglySorted R' l.
Proof.
  intros HR. induction 1 as [|a l Hs IH Hall]; constructor; auto.
  eapply Forall_impl; [|exact Hall]. intros b. apply HR.
Qed.

(** C8.  In every report returned, the sessions of each project are the
    sessions collected from its log files, in the order the files were
    listed, stably sorted by ascending start time; the projects are in
    descending order of totalDuration, and for [parseForDate] they are the
    projects collected in the order the directories were listed, stably
    sorted (for [parseProjectOnly] there is at most one). *)
Theorem report_order (P : Platform) (fs : FileSystem)
    (claudeProjectsPath projectName targetDate : string) (r : ProcessResult.t)
    (report : DailyReport.t) :
  r = parseForDate P fs claudeProjectsPath targetDate
  \/ r = parseProjectOnly P fs claudeProjectsPath projectName targetDate ->
  ProcessResult.data r = Some report ->
  Forall (fun p => exists scanned,
            BuiltFrom P fs claudeProjectsPath targetDate scanned p
            /\ Forall (fun s => SessionInfo.startTime s <> None) scanned
            /\ StableSortedBy (fun s => millis (SessionInfo.startTime s)) scanned
                 (ProjectInfo.sessions p))
    (DailyReport.projects report)
  /\ StronglySorted
       (fun a b => (ProjectInfo.totalDuration b <= ProjectInfo.totalDuration a)%Z)
       (DailyReport.projects report)
  /\ (r = parseForDate P fs claudeProjectsPath targetDate ->
      exists projectDirs scanned st st',
        getProjectDirectories P fs claudeProjectsPath = Ok projectDirs
        /\ forEachProjectDir P fs claudeProjectsPath projectDirs targetDate [] st
           = (Ok scanned, st')
        /\ StableSortedBy (fun p => (- ProjectInfo.totalDuration p)%Z) scanned
             (DailyReport.projects report))
  /\ (r = parseProjectOnly P fs claudeProjectsPath projectName targetDate ->
      (length (DailyReport.projects report) <= 1)%nat).
Proof.
  intros Hr Hdata. split; [|split; [|split]].
  - destruct (report_shape P fs claudeProjectsPath projectName targetDate r report Hr Hdata)
      as (scanned & _ & _ & Hbuilt).
    eapply Forall_impl; [|exact Hbuilt].
    intros p (sessions & Hb & Hv). exists sessions. repeat split; auto;
      now apply (BuiltFrom_sessions_sorted P fs claudeProjectsPath targetDate sessions p).
  - destruct Hr as [-> | ->].
    + destruct (parseForDate_data _ _ _ _ _ Hdata)
        as (dirs & scanned & st & st' & _ & _ & _ & ->). simpl.
      destruct (projects_sorted scanned) as (_ & Hs & _).
      eapply StronglySorted_weaken; [|exact Hs]. simpl. intros a b. lia.
    + destruct (parseProjectOnly_data _ _ _ _ _ _ Hdata)
        as (projects & -> & [-> | (p & sessions & -> & _)]); simpl;
        repeat constructor.
  - intros ->.
    destruct (parseForDate_data _ _ _ _ _ Hdata)
      as (dirs & scanned & st & st' & Hd & Hscan & _ & ->). simpl.
    exists dirs, scanned, st, st'. repeat split; auto; apply projects_sorted.
  - intros ->.
    destruct (parseProjectOnly_data _ _ _ _ _ _ Hdata)
      as (projects & -> & [-> | (p & sessions & -> & _)]); simpl; lia.
Qed.

Lemma report_order_witness :
  let projects := DailyReport.projects Fixtures.fourProjectsReport in
  Forall (fun p => exists scanned,
            BuiltFrom Reference.platform Fixtures.fourProjects "/logs" "2025-07-03"
              scanned p
            /\ Forall (fun s => SessionInfo.startTime s <> None) scanned
            /\ StableSortedBy (fun s => millis (SessionInfo.startTime s)) scanned
                 (ProjectInfo.sessions p))
    projects
  /\ StronglySorted
       (fun a b => (ProjectInfo.totalDuration b <= ProjectInfo.totalDuration a)%Z)
       projects.
Proof.
  destruct (report_order Reference.platform Fixtures.fourProjects "/logs"
              EmptyString "2025-07-03" _ Fixtures.fourProjectsReport
              (or_introl eq_refl))
    as (Hsessions & Hprojects & _).
  - vm_compute. reflexivity.
  - split; assumption.
Defined.

(* ------------------------------------------------------------------ *)
(** * Configuration failures *)

Section ConfigurationFacts.

Variable P : Platform.
Variable fs : FileSystem.
Variable claudeProjectsPath : string.

Lemma parseForDate_invalid_date (targetDate : string) :
  isValidDateString P targetDate = false ->
  parseForDate P fs claudeProjectsPath targetDate
  = failedWith (Error ("Invalid date format: " ++ targetDate)).
Proof.
  intros H. unfold parseForDate, finish, bind. rewrite H. reflexivity.
Qed.

Lemma parseForDate_missing_root (targetDate : string) :
  isValidDateString P targetDate = true ->
  directoryExists fs claudeProjectsPath = false ->
  parseForDate P fs claudeProjectsPath targetDate
  = failedWith (Error ("Claude projects directory not found: " ++ claudeProjectsPath)).
Proof.
  intros Hd Hr. unfold parseForDate, finish, bind. rewrite Hd, Hr. reflexivity.
Qed.

Lemma getProjectDirectories_missing_root :
  directoryExists fs claudeProjectsPath = false ->
  exists e, getProjectDirectories P fs claudeProjectsPath
            = Throw (Error ("Failed to read projects directory: " ++ exn_toString e)).
Proof.
  unfold directoryExists, getProjectDirectories, Fs.statIsDirectory, Fs.readdirSync.
  destruct (fs claudeProjectsPath) as [[content|entries]|]; intros H;
    try discriminate; eexists; reflexivity.
Qed.

Lemma parseProjectOnly_missing_root (projectName targetDate : string) :
  directoryExists fs claudeProjectsPath = false ->
  exists e, parseProjectOnly P fs claudeProjectsPath projectName targetDate
            = failedWith (Error ("Failed to read projects directory: "
                                 ++ exn_toString e)).
Proof.
  intros H. destruct (getProjectDirectories_missing_root H) as [e He].
  exists e. unfold parseProjectOnly, finish, bind, lift. rewrite He. reflexivity.
Qed.

Lemma parseProjectOnly_not_found (projectName targetDate : string)
    (projectDirs : list string) :
  getProjectDirectories P fs claudeProjectsPath = Ok projectDirs ->
  (forall dir, In dir projectDirs -> extractProjectName dir <> projectName) ->
  parseProjectOnly P fs claudeProjectsPath projectName targetDate
  = failedWith (Error ("Project not found: " ++ projectName)).
Proof.
  intros Hdirs Hnone. unfold parseProjectOnly, finish, bind, lift. rewrite Hdirs.
  destruct (find (fun dir => (extractProjectName dir =? projectName)%string) projectDirs)
    as [dir|] eqn:E; [|reflexivity].
  apply find_some in E as [Hin Heq]. apply String.eqb_eq in Heq.
  now destruct (Hnone dir Hin).
Qed.

(** [parseProjectForDate] throws only when the directory cannot be
    listed, whatever the date. *)
Lemma parseProjectForDate_throws (projectDir targetDate : string) (st : ParserState) :
  match getJsonlFiles P fs (path_join P claudeProjectsPath projectDir) with
  | Ok _ => exists r st',
      parseProjectForDate P fs claudeProjectsPath projectDir targetDate st = (Ok r, st')
  | Throw e =>
      parseProjectForDate P fs claudeProjectsPath projectDir targetDate st = (Throw e, st)
  end.
Proof.
  unfold parseProjectForDate, bind, lift.
  destruct (getJsonlFiles P fs (path_join P claudeProjectsPath projectDir))
    as [jsonlFiles|e]; [|reflexivity].
  destruct (length jsonlFiles =? 0)%nat; [do 2 eexists; reflexivity|].
  destruct (forEachJsonlFile_Forall P fs (fun _ => True) targetDate
              (extractProjectPath projectDir) (fun _ _ _ => I) jsonlFiles [] st
              (Forall_nil _))
    as (scanned & st1 & -> & _).
  destruct (length scanned =? 0)%nat; do 2 eexists; reflexivity.
Qed.

(** Whether [parseProjectOnly] succeeds does not depend on the date it is
    given: the date is never validated on this path. *)
Lemma parseProjectOnly_success_any_date (projectName date1 date2 : string) :
  ProcessResult.success (parseProjectOnly P fs claudeProjectsPath projectName date1)
  = ProcessResult.success (parseProjectOnly P fs claudeProjectsPath projectName date2).
Proof.
  unfold parseProjectOnly, finish, bind, lift, throw.
  destruct (getProjectDirectories P fs claudeProjectsPath) as [projectDirs|];
    [|reflexivity].
  destruct (find _ projectDirs) as [[|c dir]|]; try reflexivity.
  pose proof (parseProjectForDate_throws (String c dir) date1
                {| errors := []; warnings := [] |}) as H1.
  pose proof (parseProjectForDate_throws (String c dir) date2
                {| errors := []; warnings := [] |}) as H2.
  destruct (getJsonlFiles P fs (path_join P claudeProjectsPath (String c dir))).
  - destruct H1 as (r1 & s1 & ->). destruct H2 as (r2 & s2 & ->). reflexivity.
  - rewrite H1, H2. reflexivity.
Qed.

End ConfigurationFacts.

(** C2 at its failing input.  With the date [07/03/2025], which date-fns
    rejects, [parseForDate] fails as the claim says, but
    [parseProjectOnly] on an existing project succeeds with an empty
    report and records nothing: the date is not validated on that path. *)
Theorem parseProjectOnly_accepts_invalid_date :
  isValidDateString Reference.platform "07/03/2025" = false
  /\ parseForDate Reference.platform Fixtures.fourProjects "/logs" "07/03/2025"
     = failedWith (Error "Invalid date format: 07/03/2025")
  /\ parseProjectOnly Reference.platform Fixtures.fourProjects "/logs" "app" "07/03/2025"
     = {| ProcessResult.success := true;
          ProcessResult.data :=
            Some {| DailyReport.date := "07/03/2025";
                    DailyReport.projects := [];
                    DailyReport.summary :=
                      {| Summary.totalDuration := 0;
                         Summary.totalMessages := 0;
                         Summary.projectCount := 0;
                         Summary.sessionCount := 0 |} |};
          ProcessResult.errors := [];
          ProcessResult.warnings := [] |}.
Proof.
  repeat split; vm_compute; reflexivity.
Qed.

(* ------------------------------------------------------------------ *)
(** * The scenario of the specification *)

(** One project folder [-Users-dev-app] with one log of three lines: for
    2025-07-03 the report has the project [app] with one session from
    09:00 to 09:15, 15 minutes, one message. *)
Example end_to_end_scenario :
  parseForDate Reference.platform
    (Fixtures.oneLog (Reference.unlines Fixtures.threeLines)) "/logs" "2025-07-03"
  = {| ProcessResult.success := true;
       ProcessResult.data :=
         Some {| DailyReport.date := "2025-07-03";
                 DailyReport.projects :=
                   [{| ProjectInfo.name := "app";
                       ProjectInfo.path := "Users/dev/app";
                       ProjectInfo.sessions := [Fixtures.threeLinesSession];
                       ProjectInfo.totalDuration := 15;
                       ProjectInfo.totalMessages := 1;
                       ProjectInfo.date := "2025-07-03" |}];
                 DailyReport.summary :=
                   {| Summary.totalDuration := 15;
                      Summary.totalMessages := 1;
                      Summary.projectCount := 1;
                      Summary.sessionCount := 1 |} |};
       ProcessResult.errors := [];
       ProcessResult.warnings := [] |}.
Proof. vm_compute. reflexivity. Qed.

(* ------------------------------------------------------------------ *)
(** * More on directory names *)

Lemma append_cons_not_empty (a b : string) (c : ascii) :
  (a ++ String c b)%string <> EmptyString.
Proof. destruct a; discriminate. Qed.

Lemma strOr_default_nonempty (a b : string) :
  b <> EmptyString -> Js.strOr a b <> EmptyString.
Proof. destruct a; [auto|discriminate]. Qed.

Lemma nthOr_default_nonempty (arr : list string) (i : nat) (dflt : string) :
  dflt <> EmptyString -> Js.nthOr arr i dflt <> EmptyString.
Proof.
  intros H. unfold Js.nthOr. destruct (nth_error arr i); [|exact H].
  now apply strOr_default_nonempty.
Qed.

Lemma slice_last_two (init : list string) (y z : string) :
  Js.slice (-2) (init ++ [y; z]) = [y; z].
Proof.
  unfold Js.slice. rewrite length_app. simpl length.
  change (-2 <? 0)%Z with true. cbv iota.
  replace (Z.to_nat (Z.max (Z.of_nat (length init + 2) + -2) 0)) with (length init) by lia.
  rewrite skipn_app, skipn_all, Nat.sub_diag. reflexivity.
Qed.

Lemma last_two (l : list string) :
  (2 <= length l)%nat -> exists init y z, l = init ++ [y; z].
Proof.
  intros H. destruct (exists_last (l := l)) as (l1 & z & ->).
  { intros ->. simpl in H. lia. }
  rewrite length_app in H. simpl in H.
  destruct (exists_last (l := l1)) as (init & y & ->).
  { intros ->. simpl in H. lia. }
  exists init, y, z. now rewrite <- app_assoc.
Qed.

Lemma nthOr_last (parts : list string) (dflt : string) :
  last parts EmptyString <> EmptyString ->
  Js.nthOr parts (length parts - 1) dflt = last parts EmptyString.
Proof.
  intros H. destruct (exists_last (l := parts)) as (init & z & ->).
  { intros ->. now apply H. }
  rewrite last_last in *. unfold Js.nthOr.
  rewrite length_app. simpl length.
  replace (length init + 1 - 1)%nat with (length init) by lia.
  rewrite nth_error_app2, Nat.sub_diag by lia. simpl.
  now apply strOr_nonempty.
Qed.

Lemma split_single_empty (sep : ascii) (s : string) :
  Js.split sep s = [EmptyString] -> s = EmptyString.
Proof.
  destruct s as [|c s]; [reflexivity|]. simpl.
  destruct (Ascii.eqb c sep).
  - intros H. injection H as H. now destruct (split_not_nil sep s).
  - destruct (Js.split sep s); discriminate.
Qed.

(** With 4 or 5 segments, or 7 and more, [extractProjectName] joins the last
    two segments: only a name of exactly 6 segments is looked at more closely. *)
Theorem extractProjectName_last_two (dirName : string) (init : list string)
    (y z : string) :
  Js.split "-" (Js.dropTrailing isDash (Js.dropLeading isDash dirName))
  = init ++ [y; z] ->
  (2 <= length init)%nat ->
  length init <> 4%nat ->
  extractProjectName dirName = (y ++ "-" ++ z)%string.
Proof.
  intros Hparts Hlen Hnot6. unfold extractProjectName. rewrite Hparts.
  rewrite slice_last_two, length_app. simpl length.
  destruct (length init + 2 =? 0)%nat eqn:E0; [apply Nat.eqb_eq in E0; lia|].
  destruct (length init + 2 =? 6)%nat eqn:E6; [apply Nat.eqb_eq in E6; lia|].
  destruct (4 <=? length init + 2)%nat eqn:E4; [reflexivity|].
  apply Nat.leb_gt in E4. lia.
Qed.

Lemma extractProjectName_last_two_witness :
  extractProjectName "-home-dev-work-clients-acme-web-shop" = "web-shop".
Proof.
  apply (extractProjectName_last_two "-home-dev-work-clients-acme-web-shop"
           ["home"; "dev"; "work"; "clients"; "acme"] "web" "shop").
  - reflexivity.
  - simpl. lia.
  - simpl. lia.
Defined.

(** [extractProjectName] never returns the empty text for a directory name
    that is not empty. *)
Theorem extractProjectName_not_empty (dirName : string) :
  dirName <> EmptyString -> extractProjectName dirName <> EmptyString.
Proof.
  intros Hne. unfold extractProjectName.
  set (parts := Js.split "-" (Js.dropTrailing isDash (Js.dropLeading isDash dirName))).
  destruct (length parts =? 0)%nat; [exact Hne|].
  destruct (length parts =? 6)%nat eqn:E6.
  - apply Nat.eqb_eq in E6.
    destruct parts as [|a [|b [|c [|d [|e [|f [|g parts]]]]]]]; try discriminate.
    simpl. destruct (String.length c =? 1)%nat; apply append_cons_not_empty.
  - destruct (4 <=? length parts)%nat eqn:E4.
    + apply Nat.leb_le in E4.
      destruct (last_two parts) as (init & y & z & ->); [lia|].
      rewrite slice_last_two. apply append_cons_not_empty.
    + destruct (2 <=? length parts)%nat; now apply nthOr_default_nonempty.
Qed.

Lemma extractProjectName_not_empty_witness :
  extractProjectName "---" <> EmptyString.
Proof. apply extractProjectName_not_empty. discriminate. Defined.

(** Leading and trailing dashes do not matter: two directory names with
    the same text between them, not empty, decode to the same project
    name. *)
Theorem extractProjectName_ignores_outer_dashes (dirName1 dirName2 : string) :
  Js.dropTrailing isDash (Js.dropLeading isDash dirName1)
  = Js.dropTrailing isDash (Js.dropLeading isDash dirName2) ->
  Js.dropTrailing isDash (Js.dropLeading isDash dirName1) <> EmptyString ->
  extractProjectName dirName1 = extractProjectName dirName2.
Proof.
  intros Hsame Hne.
  pose proof (cleaned_segments dirName1) as Hlast. cbv zeta in Hlast.
  unfold extractProjectName. rewrite <- Hsame.
  set (parts := Js.split "-" (Js.dropTrailing isDash (Js.dropLeading isDash dirName1)))
    in *.
  assert (Hl : last parts EmptyString <> EmptyString).
  { destruct Hlast as [E|Hl]; [|exact Hl].
    apply split_single_empty in E. contradiction. }
  assert (Hlen : length parts <> 0%nat).
  { destruct parts; [now destruct (split_not_nil "-"
       (Js.dropTrailing isDash (Js.dropLeading isDash dirName1)))|discriminate]. }
  destruct (length parts =? 0)%nat eqn:E0; [apply Nat.eqb_eq in E0; contradiction|].
  destruct (length parts =? 6)%nat; [reflexivity|].
  destruct (4 <=? length parts)%nat; [reflexivity|].
  destruct (2 <=? length parts)%nat eqn:E2.
  - now rewrite !nthOr_last.
  - apply Nat.leb_gt in E2.
    replace 0%nat with (length parts - 1)%nat by lia.
    now rewrite !nthOr_last.
Qed.

Lemma extractProjectName_ignores_outer_dashes_witness :
  extractProjectName "--Users-dev-app-" = extractProjectName "Users-dev-app".
Proof.
  apply extractProjectName_ignores_outer_dashes.
  - reflexivity.
  - discriminate.
Defined.

(* ------------------------------------------------------------------ *)
(** * Decoded paths *)

Lemma replaceAll_absent (a b : ascii) (s : string) :
  ~ In a (chars s) -> Js.replaceAll a b s = s.
Proof.
  induction s as [|c s IH]; simpl; intros H.
  - reflexivity.
  - destruct (Ascii.eqb c a) eqn:E.
    + apply Ascii.eqb_eq in E. destruct H. now left.
    + rewrite IH; [reflexivity|]. intros Hin. apply H. now right.
Qed.

Lemma replaceAll_removes (a b : ascii) (s : string) :
  a <> b -> ~ In a (chars (Js.replaceAll a b s)).
Proof.
  intros Hab. induction s as [|c s IH]; simpl.
  - intros [].
  - intros [H|H]; [|now apply IH].
    destruct (Ascii.eqb c a) eqn:E.
    + now apply Hab.
    + apply Ascii.eqb_neq in E. now apply E.
Qed.

Lemma replaceAll_back (a b : ascii) (s : string) :
  ~ In b (chars s) -> Js.replaceAll b a (Js.replaceAll a b s) = s.
Proof.
  induction s as [|c s IH]; simpl; intros H.
  - reflexivity.
  - rewrite IH by (intros Hin; apply H; now right).
    destruct (Ascii.eqb c a) eqn:E.
    + apply Ascii.eqb_eq in E. subst c. now rewrite Ascii.eqb_refl.
    + destruct (Ascii.eqb c b) eqn:E'; [|reflexivity].
      apply Ascii.eqb_eq in E'. destruct H. now left.
Qed.

Lemma dropOneLeading_absent (c : ascii) (s : string) :
  ~ In c (chars s) -> Js.dropOneLeading c s = s.
Proof.
  destruct s as [|c' s]; simpl; intros H; [reflexivity|].
  destruct (Ascii.eqb c' c) eqn:E; [|reflexivity].
  apply Ascii.eqb_eq in E. destruct H. now left.
Qed.

(** The path [extractProjectPath] returns holds no dash, and decoding it
    again changes nothing. *)
Theorem extractProjectPath_no_dash_idempotent (dirName : string) :
  ~ In "-"%char (chars (extractProjectPath dirName))
  /\ extractProjectPath (extractProjectPath dirName) = extractProjectPath dirName.
Proof.
  assert (H : ~ In "-"%char (chars (extractProjectPath dirName)))
    by (apply replaceAll_removes; discriminate).
  split; [exact H|].
  unfold extractProjectPath at 1.
  rewrite (dropOneLeading_absent _ _ H). now apply replaceAll_absent.
Qed.

(** Decoding undoes the flattening of an absolute path, up to the leading
    slash: if the components of [/p] hold no dash, the name obtained by
    writing a dash for every slash decodes to [p]. *)
Theorem extractProjectPath_round_trip (p : string) :
  ~ In "-"%char (chars p) ->
  extractProjectPath (Js.replaceAll "/" "-" (String "/" p)) = p.
Proof.
  intros H. unfold extractProjectPath. simpl. now apply replaceAll_back.
Qed.

Lemma extractProjectPath_round_trip_witness :
  extractProjectPath (Js.replaceAll "/" "-" "/Users/dev/app") = "Users/dev/app".
Proof.
  apply (extractProjectPath_round_trip "Users/dev/app").
  vm_compute. intuition discriminate.
Defined.

(* ------------------------------------------------------------------ *)
(** * Durations *)

(** [calculateDuration] throws exactly when one of its two dates is
    invalid.  On valid dates it returns the whole minutes between them:
    swapping the arguments negates the result, and from an earlier to a
    later instant the result [d] is the number of full minutes elapsed. *)
Theorem calculateDuration_whole_minutes (P : Platform) (startTime endTime : DateOrString) :
  match toDate P startTime, toDate P endTime with
  | Some s, Some e =>
      exists d,
        calculateDuration P startTime endTime = Ok d
        /\ calculateDuration P endTime startTime = Ok (- d)%Z
        /\ ((s <= e)%Z -> (0 <= d /\ 60000 * d <= e - s < 60000 * (d + 1))%Z)
  | _, _ => exists error, calculateDuration P startTime endTime = Throw error
  end.
Proof.
  unfold calculateDuration.
  destruct (toDate P startTime) as [s|], (toDate P endTime) as [e|];
    try (eexists; reflexivity).
  exists (DateFns.differenceInMinutes e s). unfold DateFns.differenceInMinutes.
  repeat split.
  - f_equal. replace (s - e)%Z with (- (e - s))%Z by lia.
    apply Z.quot_opp_l. lia.
  - apply Z.quot_pos; lia.
  - rewrite Z.quot_div_nonneg by lia. apply Z.mul_div_le. lia.
  - rewrite Z.quot_div_nonneg by lia.
    pose proof (Z.mul_succ_div_gt (e - s) 60000). lia.
Qed.

(* ------------------------------------------------------------------ *)
(** * Safe file names and distinct values *)

Lemma replaceUnsafe_length (filename : string) :
  String.length (replaceUnsafe filename) = String.length filename.
Proof. induction filename; simpl; congruence. Qed.

Lemma replaceUnsafe_safe (filename : string) (c : ascii) :
  In c (chars (replaceUnsafe filename)) -> isUnsafeChar c = false.
Proof.
  induction filename as [|a rest IH]; simpl; [intros []|].
  intros [<-|H]; [|now apply IH].
  destruct (isUnsafeChar a) eqn:E; [reflexivity|exact E].
Qed.

Lemma replaceUnsafe_fixed (filename : string) :
  (forall c, In c (chars filename) -> isUnsafeChar c = false) ->
  replaceUnsafe filename = filename.
Proof.
  induction filename as [|a rest IH]; simpl; intros H; [reflexivity|].
  rewrite (H a (or_introl eq_refl)), IH; [reflexivity|].
  intros c Hc. apply H. now right.
Qed.

(** [createSafeFilePath] joins the directory with a file name of the same
    length in which none of the characters of the class is left (so no
    slash or backslash can lead out of the directory); a name without such
    characters is kept as it is, and cleaning a cleaned name changes
    nothing. *)
Theorem createSafeFilePath_safe (P : Platform) (dir filename : string) :
  exists safeFilename,
    createSafeFilePath P dir filename = path_join P dir safeFilename
    /\ String.length safeFilename = String.length filename
    /\ (forall c, In c (chars safeFilename) -> isUnsafeChar c = false)
    /\ ((forall c, In c (chars filename) -> isUnsafeChar c = false) ->
        safeFilename = filename)
    /\ createSafeFilePath P dir safeFilename = createSafeFilePath P dir filename.
Proof.
  exists (replaceUnsafe filename). unfold createSafeFilePath.
  split; [reflexivity|]. split; [apply replaceUnsafe_length|].
  split; [apply replaceUnsafe_safe|]. split; [apply replaceUnsafe_fixed|].
  f_equal. apply replaceUnsafe_fixed, replaceUnsafe_safe.
Qed.

Lemma existsb_eqb_In (x : string) (l : list string) :
  existsb (String.eqb x) l = true <-> In x l.
Proof.
  rewrite existsb_exists. split.
  - intros (y & Hy & E). apply String.eqb_eq in E. now subst.
  - intros H. exists x. split; [exact H|apply String.eqb_refl].
Qed.

Lemma fold_setAdd (array elements : list string) :
  NoDup elements ->
  NoDup (fold_left setAdd array elements)
  /\ (forall x, In x (fold_left setAdd array elements) <-> In x elements \/ In x array)
  /\ (NoDup (elements ++ array) -> fold_left setAdd array elements = elements ++ array).
Proof.
  revert elements. induction array as [|a array IH]; intros elements Hnd; simpl.
  - repeat split; auto.
    + intros [H|[]]. exact H.
    + intros _. now rewrite app_nil_r.
  - unfold setAdd at 2 4 6.
    destruct (existsb (String.eqb a) elements) eqn:E.
    + apply existsb_eqb_In in E.
      destruct (IH elements Hnd) as (H1 & H2 & H3). repeat split; auto.
      * intros H. apply H2 in H. tauto.
      * intros [H|[<-|H]]; apply H2; auto.
      * intros H. apply NoDup_remove_2 in H. destruct H.
        apply in_or_app. now left.
    + assert (Hnot : ~ In a elements).
      { intros H. apply existsb_eqb_In in H. congruence. }
      assert (Hnd' : NoDup (elements ++ [a])).
      { apply NoDup_app; auto.
        - repeat constructor. intros [].
        - intros x Hx [<-|[]]. contradiction. }
      destruct (IH (elements ++ [a]) Hnd') as (H1 & H2 & H3). repeat split; auto.
      * intros H. apply H2 in H. rewrite in_app_iff in H. simpl in H. tauto.
      * intros H. apply H2. rewrite in_app_iff. simpl. tauto.
      * intros H. rewrite <- app_assoc in H3. simpl in H3. now apply H3.
Qed.

(** [uniqueArray] returns every value of the array exactly once; an array
    without repetition comes back unchanged, so applying it twice is the
    same as applying it once. *)
Theorem uniqueArray_distinct (array : list string) :
  NoDup (uniqueArray array)
  /\ (forall x, In x (uniqueArray array) <-> In x array)
  /\ (NoDup array -> uniqueArray array = array)
  /\ uniqueArray (uniqueArray array) = uniqueArray array.
Proof.
  destruct (fold_setAdd array [] (NoDup_nil _)) as (H1 & H2 & H3).
  split; [exact H1|]. split; [|split].
  - intros x. rewrite (H2 x). simpl. tauto.
  - exact H3.
  - destruct (fold_setAdd (uniqueArray array) [] (NoDup_nil _)) as (_ & _ & H3').
    now apply H3'.
Qed.

(* ------------------------------------------------------------------ *)
(** * Durations as text *)

Lemma string_of_uint_digits (d : Decimal.uint) :
  digitsOnly (NilEmpty.string_of_uint d).
Proof. induction d; simpl; auto. Qed.

Lemma string_of_uint_inj (d d' : Decimal.uint) :
  NilEmpty.string_of_uint d = NilEmpty.string_of_uint d' -> d = d'.
Proof.
  intros H. apply (f_equal NilEmpty.uint_of_string) in H.
  rewrite !NilEmpty.usu in H. now injection H.
Qed.

Lemma showNat_digits (n : nat) : digitsOnly (Js.showNat n).
Proof. apply string_of_uint_digits. Qed.

Lemma showNat_inj (n m : nat) : Js.showNat n = Js.showNat m -> n = m.
Proof.
  intros H. apply string_of_uint_inj in H. now apply Unsigned.to_uint_inj.
Qed.

(** A run of digits followed by something that does not start with a
    digit can be read back in one way only. *)
Lemma digits_tail_unique (d1 d2 t1 t2 : string) :
  digitsOnly d1 -> digitsOnly d2 -> noLeadingDigit t1 -> noLeadingDigit t2 ->
  (d1 ++ t1)%string = (d2 ++ t2)%string -> d1 = d2 /\ t1 = t2.
Proof.
  revert d2. induction d1 as [|c d1 IH]; intros [|c' d2] H1 H2 Ht1 Ht2 E; simpl in *.
  - now split.
  - subst t1. simpl in Ht1. destruct H2 as [H2 _]. congruence.
  - subst t2. simpl in Ht2. destruct H1 as [H1 _]. congruence.
  - injection E as -> E. destruct H1 as [_ H1], H2 as [_ H2].
    destruct (IH d2 H1 H2 Ht1 Ht2 E) as [-> ->]. now split.
Qed.

Lemma showInt_nonneg (n : Z) : (0 <= n)%Z -> showInt n = Js.showNat (Z.to_nat n).
Proof.
  intros H. unfold showInt. destruct (n <? 0)%Z eqn:E; [|reflexivity].
  apply Z.ltb_lt in E. lia.
Qed.

Lemma minutes_split (m : Z) :
  (0 <= m)%Z ->
  (0 <= m / 60)%Z /\ (0 <= Z.rem m 60)%Z /\ m = (60 * (m / 60) + Z.rem m 60)%Z.
Proof.
  intros H. rewrite Z.rem_mod_nonneg by lia.
  pose proof (Z.div_mod m 60). pose proof (Z.mod_pos_bound m 60).
  pose proof (Z.div_pos m 60). lia.
Qed.

Lemma formatMinutes_nonneg (m : Z) :
  (0 <= m)%Z ->
  formatMinutes m
  = (if (m / 60 =? 0)%Z then Js.showNat (Z.to_nat (Z.rem m 60)) ++ "min"
     else if (Z.rem m 60 =? 0)%Z then Js.showNat (Z.to_nat (m / 60)) ++ "h"
     else Js.showNat (Z.to_nat (m / 60)) ++ "h "
          ++ Js.showNat (Z.to_nat (Z.rem m 60)) ++ "min")%string.
Proof.
  intros H. destruct (minutes_split m H) as (Hh & Hr & _).
  unfold formatMinutes. destruct (m =? 0)%Z eqn:E.
  - apply Z.eqb_eq in E. subst m. reflexivity.
  - now rewrite !showInt_nonneg.
Qed.

Lemma formatDuration_nonneg (m : Z) :
  (0 <= m)%Z ->
  formatDuration m
  = (if (m / 60 =? 0)%Z then Js.showNat (Z.to_nat (Z.rem m 60)) ++ "分"
     else if (Z.rem m 60 =? 0)%Z then Js.showNat (Z.to_nat (m / 60)) ++ "時間"
     else Js.showNat (Z.to_nat (m / 60)) ++ "時間"
          ++ Js.showNat (Z.to_nat (Z.rem m 60)) ++ "分")%string.
Proof.
  intros H. destruct (minutes_split m H) as (Hh & Hr & _).
  unfold formatDuration. destruct (m =? 0)%Z eqn:E.
  - apply Z.eqb_eq in E. subst m. reflexivity.
  - now rewrite !showInt_nonneg.
Qed.

(** Closes a comparison of two formatted durations: the leading numbers
    are read back, then the unit texts are compared. *)
Ltac read_back E :=
  apply digits_tail_unique in E;
  [ destruct E as [? E]
  | apply showNat_digits | apply showNat_digits
  | simpl; reflexivity | simpl; reflexivity ].

Ltac same_minutes H1 H2 :=
  repeat match goal with
         | E : Js.showNat _ = Js.showNat _ |- _ => apply showNat_inj in E
         | E : (_ =? _)%Z = true |- _ => apply Z.eqb_eq in E
         end;
  lia.

Lemma formatMinutes_inj (m1 m2 : Z) :
  (0 <= m1)%Z -> (0 <= m2)%Z ->
  formatMinutes m1 = formatMinutes m2 -> m1 = m2.
Proof.
  intros H1 H2 E.
  rewrite (formatMinutes_nonneg m1 H1), (formatMinutes_nonneg m2 H2) in E.
  destruct (minutes_split m1 H1) as (Hh1 & Hr1 & Hm1).
  destruct (minutes_split m2 H2) as (Hh2 & Hr2 & Hm2).
  destruct (m1 / 60 =? 0)%Z eqn:A1, (m2 / 60 =? 0)%Z eqn:A2;
    try destruct (Z.rem m1 60 =? 0)%Z eqn:B1;
    try destruct (Z.rem m2 60 =? 0)%Z eqn:B2;
    read_back E; try discriminate E; try same_minutes H1 H2.
  injection E as E. read_back E. same_minutes H1 H2.
Qed.

Lemma formatDuration_inj (m1 m2 : Z) :
  (0 <= m1)%Z -> (0 <= m2)%Z ->
  formatDuration m1 = formatDuration m2 -> m1 = m2.
Proof.
  intros H1 H2 E.
  rewrite (formatDuration_nonneg m1 H1), (formatDuration_nonneg m2 H2) in E.
  destruct (minutes_split m1 H1) as (Hh1 & Hr1 & Hm1).
  destruct (minutes_split m2 H2) as (Hh2 & Hr2 & Hm2).
  destruct (m1 / 60 =? 0)%Z eqn:A1, (m2 / 60 =? 0)%Z eqn:A2;
    try destruct (Z.rem m1 60 =? 0)%Z eqn:B1;
    try destruct (Z.rem m2 60 =? 0)%Z eqn:B2;
    read_back E; try discriminate E; try same_minutes H1 H2.
  - injection E as E. symmetry in E. now apply append_cons_not_empty in E.
  - injection E as E. now apply append_cons_not_empty in E.
  - injection E as E. read_back E. same_minutes H1 H2.
Qed.

(** [formatMinutes], the duration text of [showSummary], shows two
    different non-negative numbers of minutes as two different texts. *)
Theorem formatMinutes_distinct (m1 m2 : Z) :
  (0 <= m1)%Z -> (0 <= m2)%Z -> m1 <> m2 ->
  formatMinutes m1 <> formatMinutes m2.
Proof.
  intros H1 H2 Hne E. apply Hne. now apply formatMinutes_inj.
Qed.

Lemma formatMinutes_distinct_witness : formatMinutes 60 <> formatMinutes 61.
Proof. apply formatMinutes_distinct; lia. Defined.

(** [formatDuration], the duration text of the reports, shows two
    different non-negative numbers of minutes as two different texts. *)
Theorem formatDuration_distinct (m1 m2 : Z) :
  (0 <= m1)%Z -> (0 <= m2)%Z -> m1 <> m2 ->
  formatDuration m1 <> formatDuration m2.
Proof.
  intros H1 H2 Hne E. apply Hne. now apply formatDuration_inj.
Qed.

Lemma formatDuration_distinct_witness : formatDuration 60 <> formatDuration 61.
Proof. apply formatDuration_distinct; lia. Defined.

(* ------------------------------------------------------------------ *)
(** * More on reading a log file *)

Section MoreReadFacts.

Variable P : Platform.
Variable fs : FileSystem.

Lemma mapiM_ok_inv (g : nat -> exn -> exn) (lines : list string)
    (records : list json) (index : nat) :
  Js.mapiM (fun line i => tryCatch (JSON_parse P line) (fun e => Throw (g i e)))
    index lines
  = Ok records ->
  map (JSON_parse P) lines = map Ok records.
Proof.
  revert records index. induction lines as [|l lines IH]; intros records index H.
  - simpl in H. injection H as <-. reflexivity.
  - simpl in H. destruct (JSON_parse P l) as [v|e] eqn:El; simpl in H; [|discriminate].
    destruct (Js.mapiM _ (S index) lines) as [vs|] eqn:Erest; simpl in H;
      [|discriminate].
    injection H as <-. simpl. rewrite El. f_equal. eapply IH; eauto.
Qed.

Lemma readJsonlFile_ok_inv (filePath content : string) (records : list json) :
  Fs.readFileSync fs filePath = Ok content ->
  readJsonlFile P fs filePath = Ok records ->
  map (JSON_parse P) (Js.split "010" (Js.trim content)) = map Ok records.
Proof.
  intros Hread H. unfold readJsonlFile in H. rewrite Hread in H.
  cbv beta iota zeta delta [rbind] in H. unfold tryCatch at 1 in H.
  destruct (Js.mapiM _ 0 (Js.split "010" (Js.trim content))) as [vs|] eqn:E;
    [|discriminate].
  injection H as <-. exact (mapiM_ok_inv _ _ _ _ E).
Qed.

(** A log file that cannot be opened makes [readJsonlFile] throw the file
    system's error, wrapped; [parseProjectForDate] records one ParseError
    with line 0 for the file, adds no session, and goes on with the files
    that follow; run on that file alone, the loop returns the sessions it
    had with exactly that one error appended. *)
Theorem unreadable_file_is_skipped (filePath : string) (error : exn) :
  Fs.readFileSync fs filePath = Throw error ->
  readJsonlFile P fs filePath = Throw (fileError filePath error)
  /\ (forall rest targetDate actualPath sessions st,
        forEachJsonlFile P fs (filePath :: rest) targetDate actualPath sessions st
        = forEachJsonlFile P fs rest targetDate actualPath sessions
            {| errors := errors st
                         ++ [sessionFileFailure filePath (fileError filePath error)];
               warnings := warnings st |})
  /\ (forall targetDate actualPath sessions st,
        forEachJsonlFile P fs [filePath] targetDate actualPath sessions st
        = (Ok sessions,
           {| errors := errors st
                        ++ [sessionFileFailure filePath (fileError filePath error)];
              warnings := warnings st |})).
Proof.
  intros Hread.
  assert (H : readJsonlFile P fs filePath = Throw (fileError filePath error)).
  { unfold readJsonlFile. rewrite Hread. reflexivity. }
  split; [exact H|]. split.
  - intros rest targetDate actualPath sessions st.
    apply forEachJsonlFile_throw. now apply parseSessionFile_read_fails.
  - intros targetDate actualPath sessions st.
    apply forEachJsonlFile_throw_alone. now apply parseSessionFile_read_fails.
Qed.

(** A log file that can be opened is read successfully exactly when every
    line of its trimmed content parses; the records are then the parsed
    lines, in order, one per line, and there is at least one. *)
Theorem readJsonlFile_ok_iff (filePath content : string) (records : list json) :
  Fs.readFileSync fs filePath = Ok content ->
  (readJsonlFile P fs filePath = Ok records
   <-> map (JSON_parse P) (Js.split "010" (Js.trim content)) = map Ok records)
  /\ (readJsonlFile P fs filePath = Ok records ->
      length records = length (Js.split "010" (Js.trim content))
      /\ records <> []).
Proof.
  intros Hread.
  assert (Hinv : readJsonlFile P fs filePath = Ok records ->
                 map (JSON_parse P) (Js.split "010" (Js.trim content)) = map Ok records)
    by (now apply readJsonlFile_ok_inv).
  split.
  - split; [exact Hinv|]. intros H. eapply readJsonlFile_all_ok; eauto.
  - intros H. apply Hinv in H.
    assert (Hlen : length records = length (Js.split "010" (Js.trim content))).
    { apply (f_equal (@length _)) in H. rewrite !length_map in H. auto. }
    split; [exact Hlen|]. intros ->. simpl in Hlen.
    destruct (Js.split "010" (Js.trim content)) eqn:E; [|discriminate].
    now apply split_not_nil in E.
Qed.

End MoreReadFacts.

Lemma unreadable_file_is_skipped_witness :
  let locked :=
    Reference.fileSystem
      [(Fixtures.s1, File (Throw (Error "EACCES: permission denied")))] in
  let failure := fileError Fixtures.s1 (Error "EACCES: permission denied") in
  readJsonlFile Reference.platform locked Fixtures.s1 = Throw failure
  /\ forEachJsonlFile Reference.platform locked [Fixtures.s1] "2025-07-03"
       "Users/dev/app" [] {| errors := []; warnings := [] |}
     = (Ok [],
        {| errors :=
             [{| ParseError.file := Fixtures.s1; ParseError.line := 0;
                 ParseError.message :=
                   "Failed to parse session file: Error: Failed to read JSONL file /logs/-Users-dev-app/s1.jsonl: Error: EACCES: permission denied";
                 ParseError.originalError := failure |}];
           warnings := [] |}).
Proof.
  intros locked failure.
  assert (H := unreadable_file_is_skipped Reference.platform locked Fixtures.s1
                 (Error "EACCES: permission denied") eq_refl).
  split.
  - exact (proj1 H).
  - exact (proj2 (proj2 H) "2025-07-03" "Users/dev/app" []
             {| errors := []; warnings := [] |}).
Defined.

Lemma readJsonlFile_ok_iff_witness :
  length Fixtures.threeRecords = 3%nat /\ Fixtures.threeRecords <> [].
Proof.
  refine (proj2 (readJsonlFile_ok_iff Reference.platform
                   (Fixtures.oneLog (Reference.unlines Fixtures.threeLines))
                   Fixtures.s1 (Reference.unlines Fixtures.threeLines)
                   Fixtures.threeRecords _) _).
  - reflexivity.
  - vm_compute. reflexivity.
Defined.

(* ------------------------------------------------------------------ *)
(** * More on sessions *)

Section MoreSessionFacts.

Variable P : Platform.
Variable fs : FileSystem.

Lemma parseSessionFile_fields (filePath targetDate projectPath : string)
    (s : SessionInfo.t) :
  parseSessionFile P fs filePath targetDate projectPath = Ok (Some s) ->
  SessionInfo.sessionId s = path_basename P filePath ".jsonl"
  /\ SessionInfo.projectPath s = projectPath.
Proof.
  unfold parseSessionFile, calculateDuration. intros H.
  cbv beta iota zeta delta [rbind toDate] in H.
  repeat match type of H with
         | context [match ?x with _ => _ end] =>
             destruct x eqn:?; cbv beta iota in H; try discriminate H
         end.
  injection H as <-. split; reflexivity.
Qed.

Lemma target_entry_day (targetDate : string) (entry : json) (t : Z) :
  onTargetDate P targetDate entry = Ok true ->
  timestampOf P entry = Ok (Some t) ->
  exists target,
    parseISO P targetDate = Some target
    /\ startOfDay P t = startOfDay P target.
Proof.
  intros H Ht.
  destruct (onTargetDate_true P _ _ H)
    as (members & str & t' & target & -> & Ets & _ & Et & Etarget & Eday).
  unfold timestampOf in Ht. simpl in Ht. rewrite Ets in Ht. simpl in Ht.
  rewrite Et in Ht. injection Ht as <-.
  now exists target.
Qed.

(** What every session returned by [parseSessionFile] satisfies. *)
Lemma session_facts (filePath targetDate projectPath : string) (s : SessionInfo.t) :
  parseSessionFile P fs filePath targetDate projectPath = Ok (Some s) ->
  SessionInfo.sessionId s = path_basename P filePath ".jsonl"
  /\ SessionInfo.projectPath s = projectPath
  /\ SessionInfo.messageCount s = Z.of_nat (length (SessionInfo.userMessages s))
  /\ (1 <= SessionInfo.messageCount s)%Z
  /\ exists t0 t1 target,
       parseISO P targetDate = Some target
       /\ SessionInfo.startTime s = Some t0
       /\ SessionInfo.endTime s = Some t1
       /\ startOfDay P t0 = startOfDay P target
       /\ startOfDay P t1 = startOfDay P target
       /\ (t0 <= t1)%Z
       /\ SessionInfo.duration s = Z.quot (t1 - t0) 60000.
Proof.
  intros H.
  destruct (parseSessionFile_fields _ _ _ _ H) as [Hid Hpath].
  destruct (parseSessionFile_some_read P fs _ _ _ _ H)
    as (entries & targetEntries & Hread & Hfilter).
  destruct (parseSessionFile_some P fs _ _ _ _ _ _ Hread Hfilter H)
    as (userEntries & dates & t0 & t1 & _ & _ & Hne & Hcount & Hdates & H0 & H1
        & Hstart & Hend & Hdur).
  destruct (targetEntries_stamped P _ _ _ Hfilter) as [_ (dates' & Hdates' & Hvalid)].
  rewrite Hdates in Hdates'. injection Hdates' as <-.
  rewrite Forall_forall in Hvalid.
  pose proof (mapM_Forall2 _ _ _ Hdates) as HF.
  assert (Hkeyed : forall a b, In a dates -> In b dates ->
                     DateFns.compareTime a b = (millis a - millis b)%Z).
  { intros [a|] [b|] Ha Hb; try reflexivity; exfalso;
      (now apply (Hvalid None Ha)) || (now apply (Hvalid None Hb)). }
  pose proof (sort_sorted DateFns.compareTime millis dates Hkeyed) as Hsorted.
  assert (Hin0 : In (Some t0) dates)
    by (apply (sort_In DateFns.compareTime dates); eapply nth_error_In; eauto).
  assert (Hin1 : In (Some t1) dates)
    by (apply (sort_In DateFns.compareTime dates); eapply nth_error_In; eauto).
  assert (Hle : (t0 <= t1)%Z).
  { apply (sorted_first_le millis _ (Some t0) Hsorted H0 (Some t1)).
    now apply (sort_In DateFns.compareTime dates). }
  destruct (Forall2_In_r _ _ _ _ HF Hin0) as (e0 & He0 & Ht0).
  destruct (Forall2_In_r _ _ _ _ HF Hin1) as (e1 & He1 & Ht1).
  destruct (filterM_In _ _ _ Hfilter e0 He0) as [_ Hon0].
  destruct (filterM_In _ _ _ Hfilter e1 He1) as [_ Hon1].
  destruct (target_entry_day _ _ _ Hon0 Ht0) as (target & Htarget & Hday0).
  destruct (target_entry_day _ _ _ Hon1 Ht1) as (target' & Htarget' & Hday1).
  rewrite Htarget in Htarget'. injection Htarget' as <-.
  repeat split; auto.
  - rewrite Hcount. destruct (SessionInfo.userMessages s); [contradiction|].
    simpl length. lia.
  - exists t0, t1, target. repeat split; auto.
Qed.

(** What the loop over the log files does, in one statement: it never
    throws, appends to the sessions and to the errors, leaves the
    warnings alone, and each file gives at most one session or one error. *)
Lemma forEachJsonlFile_run (targetDate actualPath : string) (jsonlFiles : list string) :
  forall sessions st,
  exists added newErrors,
    forEachJsonlFile P fs jsonlFiles targetDate actualPath sessions st
    = (Ok (sessions ++ added),
       {| errors := errors st ++ newErrors; warnings := warnings st |})
    /\ (length added + length newErrors <= length jsonlFiles)%nat
    /\ Forall (fun e => In (ParseError.file e) jsonlFiles /\ ParseError.line e = 0%Z)
         newErrors
    /\ Forall (fun s => exists f,
                 In f jsonlFiles
                 /\ parseSessionFile P fs f targetDate actualPath = Ok (Some s))
         added.
Proof.
  induction jsonlFiles as [|f rest IH]; intros sessions st.
  - exists [], []. simpl. rewrite !app_nil_r. destruct st. repeat split; auto.
  - rewrite forEachJsonlFile_step.
    destruct (parseSessionFile P fs f targetDate actualPath) as [[info|]|e] eqn:E.
    + destruct (IH (sessions ++ [info]) st) as (added & newErrors & -> & Hlen & He & Hs).
      exists (info :: added), newErrors. rewrite <- app_assoc. simpl.
      repeat split; auto; try lia.
      * eapply Forall_impl; [|exact He]. intros x [Hx1 Hx2]. split; [now right|auto].
      * constructor; [exists f; split; [now left|exact E]|].
        eapply Forall_impl; [|exact Hs]. intros x (g & Hg & Hx).
        exists g. split; [now right|exact Hx].
    + destruct (IH sessions st) as (added & newErrors & -> & Hlen & He & Hs).
      exists added, newErrors. simpl. repeat split; auto; try lia.
      * eapply Forall_impl; [|exact He]. intros x [Hx1 Hx2]. split; [now right|auto].
      * eapply Forall_impl; [|exact Hs]. intros x (g & Hg & Hx).
        exists g. split; [now right|exact Hx].
    + destruct (IH sessions {| errors := errors st ++ [sessionFileFailure f e];
                               warnings := warnings st |})
        as (added & newErrors & -> & Hlen & He & Hs).
      exists added, (sessionFileFailure f e :: newErrors). simpl.
      rewrite <- app_assoc. simpl. repeat split; auto; try lia.
      * constructor; [split; [now left|reflexivity]|].
        eapply Forall_impl; [|exact He]. intros x [Hx1 Hx2]. split; [now right|auto].
      * eapply Forall_impl; [|exact Hs]. intros x (g & Hg & Hx).
        exists g. split; [now right|exact Hx].
Qed.

End MoreSessionFacts.

(* ------------------------------------------------------------------ *)
(** * More on projects and reports *)

Section MoreAggregatorFacts.

Variable P : Platform.
Variable fs : FileSystem.
Variable claudeProjectsPath : string.

Lemma getProjectDirectories_In (projectDirs : list string) (projectDir : string) :
  getProjectDirectories P fs claudeProjectsPath = Ok projectDirs ->
  In projectDir projectDirs ->
  exists entries,
    Fs.readdirSync fs claudeProjectsPath = Ok entries
    /\ In projectDir entries
    /\ Js.startsWith projectDir "-" = true
    /\ directoryExists fs (path_join P claudeProjectsPath projectDir) = true.
Proof.
  unfold getProjectDirectories. intros H Hin.
  destruct (Fs.readdirSync fs claudeProjectsPath) as [entries|]; [|discriminate].
  simpl in H. injection H as <-. apply filter_In in Hin as [Hin Htest].
  apply andb_true_iff in Htest as [Hdir Hdash].
  exists entries. repeat split; auto.
Qed.

Lemma getProjectDirectories_ok_root (projectDirs : list string) :
  getProjectDirectories P fs claudeProjectsPath = Ok projectDirs ->
  directoryExists fs claudeProjectsPath = true.
Proof.
  intros H. destruct (directoryExists fs claudeProjectsPath) eqn:E; [reflexivity|].
  destruct (getProjectDirectories_missing_root P fs claudeProjectsPath E) as [e He].
  congruence.
Qed.

(** What [parseProjectForDate] returns for a directory, when it returns a
    project. *)
Lemma project_facts (projectDir targetDate : string) (st st' : ParserState)
    (p : ProjectInfo.t) :
  parseProjectForDate P fs claudeProjectsPath projectDir targetDate st
  = (Ok (Some p), st') ->
  ProjectInfo.name p = extractProjectName projectDir
  /\ ProjectInfo.path p = extractProjectPath projectDir
  /\ ProjectInfo.date p = targetDate
  /\ ProjectInfo.totalMessages p
     = total (map SessionInfo.messageCount (ProjectInfo.sessions p))
  /\ exists jsonlFiles,
       getJsonlFiles P fs (path_join P claudeProjectsPath projectDir) = Ok jsonlFiles
       /\ (length (ProjectInfo.sessions p) <= length jsonlFiles)%nat
       /\ Forall (fun s => exists f,
                    In f jsonlFiles
                    /\ parseSessionFile P fs f targetDate (extractProjectPath projectDir)
                       = Ok (Some s))
            (ProjectInfo.sessions p).
Proof.
  unfold parseProjectForDate, bind, lift. intros H.
  destruct (getJsonlFiles P fs (path_join P claudeProjectsPath projectDir))
    as [jsonlFiles|] eqn:Efiles; [|discriminate].
  destruct (length jsonlFiles =? 0)%nat; [discriminate|].
  destruct (forEachJsonlFile_run P fs targetDate (extractProjectPath projectDir)
              jsonlFiles [] st)
    as (added & newErrors & Erun & Hlen & _ & Hs).
  rewrite Erun in H. change ([] ++ added) with added in H. unfold ret in H.
  destruct (length added =? 0)%nat; [discriminate|].
  injection H as <- _. simpl.
  repeat split; auto.
  - rewrite sumOf_total. apply total_perm, Permutation_map, sort_perm.
  - exists jsonlFiles. repeat split; auto.
    + rewrite sort_length. lia.
    + rewrite Forall_forall in *. intros s Hin. apply Hs.
      now apply (sort_In byStartTime added s).
Qed.

Lemma forEachProjectDir_Forall_In (Q : ProjectInfo.t -> Prop) (targetDate : string)
    (listed : list string) :
  (forall dir st st' p,
     In dir listed ->
     parseProjectForDate P fs claudeProjectsPath dir targetDate st = (Ok (Some p), st') ->
     Q p) ->
  forall projectDirs projects st,
    incl projectDirs listed ->
    Forall Q projects ->
    exists scanned st',
      forEachProjectDir P fs claudeProjectsPath projectDirs targetDate projects st
      = (Ok scanned, st')
      /\ Forall Q scanned.
Proof.
  intros HQ. induction projectDirs as [|dir rest IH]; intros projects st Hincl Hacc.
  - exists projects, st. now split.
  - assert (Hrest : incl rest listed) by (intros x Hx; apply Hincl; now right).
    rewrite forEachProjectDir_step.
    destruct (parseProjectForDate P fs claudeProjectsPath dir targetDate st)
      as [[[info|]|e] st1] eqn:E.
    + apply IH; [exact Hrest|].
      destruct (0 <? length (ProjectInfo.sessions info))%nat; [|exact Hacc].
      apply Forall_app. split; [exact Hacc|].
      constructor; [|constructor]. eapply HQ; eauto. apply Hincl. now left.
    + now apply IH.
    + now apply IH.
Qed.

(** A property of every project built from a listed directory holds of
    every project of every report, and the report carries the date asked
    for. *)
Lemma report_projects_Forall (Q : ProjectInfo.t -> Prop)
    (projectName targetDate : string) (r : ProcessResult.t) (report : DailyReport.t) :
  (forall projectDirs dir st st' p,
     getProjectDirectories P fs claudeProjectsPath = Ok projectDirs ->
     In dir projectDirs ->
     parseProjectForDate P fs claudeProjectsPath dir targetDate st = (Ok (Some p), st') ->
     Q p) ->
  r = parseForDate P fs claudeProjectsPath targetDate
  \/ r = parseProjectOnly P fs claudeProjectsPath projectName targetDate ->
  ProcessResult.data r = Some report ->
  DailyReport.date report = targetDate
  /\ Forall Q (DailyReport.projects report).
Proof.
  intros HQ [-> | ->] Hdata; apply finish_data in Hdata as [stf H];
    unfold bind, lift, throw, ret in H.
  - destruct (negb (isValidDateString P targetDate)); [discriminate|].
    destruct (negb (directoryExists fs claudeProjectsPath)); [discriminate|].
    destruct (getProjectDirectories P fs claudeProjectsPath) as [projectDirs|] eqn:Edirs;
      [|discriminate].
    destruct (length projectDirs =? 0)%nat.
    + unfold pushWarning in H. injection H as <- _. split; [reflexivity|constructor].
    + destruct (forEachProjectDir_Forall_In Q targetDate projectDirs
                  (fun dir st st' p Hin => HQ projectDirs dir st st' p eq_refl Hin)
                  projectDirs [] {| errors := []; warnings := [] |}
                  (incl_refl _) (Forall_nil _))
        as (scanned & st1 & Escan & HF).
      rewrite Escan in H. injection H as <- _. split; [reflexivity|]. simpl.
      rewrite Forall_forall in *. intros p Hp. apply HF.
      now apply (sort_In byTotalDurationDesc scanned p).
  - destruct (getProjectDirectories P fs claudeProjectsPath) as [projectDirs|] eqn:Edirs;
      [|discriminate].
    destruct (find _ projectDirs) as [[|c dir]|] eqn:Efind; try discriminate.
    apply find_some in Efind as [Hin _].
    destruct (parseProjectForDate P fs claudeProjectsPath (String c dir) targetDate _)
      as [[[info|]|e] st1] eqn:E; try discriminate.
    + injection H as <- _. split; [reflexivity|]. simpl.
      constructor; [|constructor]. eapply HQ; eauto.
    + injection H as <- _. split; [reflexivity|constructor].
Qed.

Lemma total_ge_length (f : SessionInfo.t -> Z) (l : list SessionInfo.t) :
  Forall (fun s => (1 <= f s)%Z) l -> (Z.of_nat (length l) <= total (map f l))%Z.
Proof.
  induction 1 as [|s l Hs _ IH]; simpl total; simpl length; lia.
Qed.

Lemma total_le_pointwise (f g : ProjectInfo.t -> Z) (l : list ProjectInfo.t) :
  Forall (fun p => (f p <= g p)%Z) l -> (total (map f l) <= total (map g l))%Z.
Proof.
  induction 1 as [|p l Hp _ IH]; simpl; lia.
Qed.

End MoreAggregatorFacts.

(** In every report returned, the summary's totalMessages is the sum of
    the projects' totalMessages, each of which is the sum of the
    messageCount of the project's sessions; a session's messageCount is
    the number of its user messages and is at least 1, so a report never
    shows fewer messages than sessions. *)
Theorem message_counts_consistent (P : Platform) (fs : FileSystem)
    (claudeProjectsPath projectName targetDate : string) (r : ProcessResult.t)
    (report : DailyReport.t) :
  r = parseForDate P fs claudeProjectsPath targetDate
  \/ r = parseProjectOnly P fs claudeProjectsPath projectName targetDate ->
  ProcessResult.data r = Some report ->
  let projects := DailyReport.projects report in
  let summary := DailyReport.summary report in
  Summary.totalMessages summary = total (map ProjectInfo.totalMessages projects)
  /\ Forall (fun p =>
               ProjectInfo.totalMessages p
               = total (map SessionInfo.messageCount (ProjectInfo.sessions p))
               /\ Forall (fun s =>
                            SessionInfo.messageCount s
                            = Z.of_nat (length (SessionInfo.userMessages s))
                            /\ (1 <= SessionInfo.messageCount s)%Z)
                    (ProjectInfo.sessions p))
       projects
  /\ (Summary.sessionCount summary <= Summary.totalMessages summary)%Z.
Proof.
  intros Hr Hdata projects summary. subst projects summary.
  destruct (report_shape P fs claudeProjectsPath projectName targetDate r report Hr Hdata)
    as (scanned & Hperm & Hsum & _).
  destruct (calculateSummary_perm scanned _ Hperm) as (_ & Hsessions & _ & Hmessages).
  assert (HF : Forall (fun p =>
               ProjectInfo.totalMessages p
               = total (map SessionInfo.messageCount (ProjectInfo.sessions p))
               /\ Forall (fun s =>
                            SessionInfo.messageCount s
                            = Z.of_nat (length (SessionInfo.userMessages s))
                            /\ (1 <= SessionInfo.messageCount s)%Z)
                    (ProjectInfo.sessions p))
             (DailyReport.projects report)).
  { apply (report_projects_Forall P fs claudeProjectsPath _ projectName targetDate r
             report); auto.
    intros dirs dir st st' p _ _ Hp.
    destruct (project_facts P fs claudeProjectsPath _ _ _ _ _ Hp)
      as (_ & _ & _ & Htotal & files & _ & _ & Hs).
    split; [exact Htotal|].
    eapply Forall_impl; [|exact Hs]. intros s (f & _ & Hf).
    destruct (session_facts P fs _ _ _ _ Hf) as (_ & _ & Hc & Hone & _). now split. }
  rewrite Hsum. split; [exact Hmessages|]. split; [exact HF|].
  rewrite Hsessions, Hmessages. apply total_le_pointwise.
  eapply Forall_impl; [|exact HF]. intros p [-> Hs].
  apply total_ge_length. eapply Forall_impl; [|exact Hs]. now intros s [_ H].
Qed.

Lemma message_counts_consistent_witness :
  let summary := DailyReport.summary Fixtures.fourProjectsReport in
  (Summary.sessionCount summary <= Summary.totalMessages summary)%Z.
Proof.
  refine (proj2 (proj2 (message_counts_consistent Reference.platform
                          Fixtures.fourProjects "/logs" EmptyString "2025-07-03" _
                          Fixtures.fourProjectsReport (or_introl eq_refl) _))).
  vm_compute. reflexivity.
Defined.

(** In every report returned, each session starts and ends on the day
    asked for (the same [startOfDay] as the target date, which therefore
    parsed), and does not end before it starts. *)
Theorem sessions_on_target_day (P : Platform) (fs : FileSystem)
    (claudeProjectsPath projectName targetDate : string) (r : ProcessResult.t)
    (report : DailyReport.t) :
  r = parseForDate P fs claudeProjectsPath targetDate
  \/ r = parseProjectOnly P fs claudeProjectsPath projectName targetDate ->
  ProcessResult.data r = Some report ->
  Forall (fun p =>
            Forall (fun s =>
                      exists t0 t1 target,
                        parseISO P targetDate = Some target
                        /\ SessionInfo.startTime s = Some t0
                        /\ SessionInfo.endTime s = Some t1
                        /\ startOfDay P t0 = startOfDay P target
                        /\ startOfDay P t1 = startOfDay P target
                        /\ (t0 <= t1)%Z)
              (ProjectInfo.sessions p))
    (DailyReport.projects report).
Proof.
  intros Hr Hdata.
  apply (report_projects_Forall P fs claudeProjectsPath _ projectName targetDate r
           report); auto.
  intros dirs dir st st' p _ _ Hp.
  destruct (project_facts P fs claudeProjectsPath _ _ _ _ _ Hp)
    as (_ & _ & _ & _ & files & _ & _ & Hs).
  eapply Forall_impl; [|exact Hs]. intros s (f & _ & Hf).
  destruct (session_facts P fs _ _ _ _ Hf)
    as (_ & _ & _ & _ & t0 & t1 & target & H1 & H2 & H3 & H4 & H5 & H6 & _).
  exists t0, t1, target. repeat split; auto.
Qed.

Lemma sessions_on_target_day_witness :
  Forall (fun p =>
            Forall (fun s =>
                      exists t0 t1 target,
                        parseISO Reference.platform "2025-07-03" = Some target
                        /\ SessionInfo.startTime s = Some t0
                        /\ SessionInfo.endTime s = Some t1
                        /\ startOfDay Reference.platform t0
                           = startOfDay Reference.platform target
                        /\ startOfDay Reference.platform t1
                           = startOfDay Reference.platform target
                        /\ (t0 <= t1)%Z)
              (ProjectInfo.sessions p))
    (DailyReport.projects Fixtures.fourProjectsReport).
Proof.
  refine (sessions_on_target_day Reference.platform Fixtures.fourProjects "/logs"
            EmptyString "2025-07-03" _ Fixtures.fourProjectsReport
            (or_introl eq_refl) _).
  vm_compute. reflexivity.
Defined.

(** In every report returned, the report and its projects carry the date
    asked for; each project comes from a directory entry of the root that
    starts with a dash, whose decoded name and path it bears; it has no
    more sessions than the directory has log files, and each session
    carries the project's path and the base name of one of those files. *)
Theorem report_identity (P : Platform) (fs : FileSystem)
    (claudeProjectsPath projectName targetDate : string) (r : ProcessResult.t)
    (report : DailyReport.t) :
  r = parseForDate P fs claudeProjectsPath targetDate
  \/ r = parseProjectOnly P fs claudeProjectsPath projectName targetDate ->
  ProcessResult.data r = Some report ->
  DailyReport.date report = targetDate
  /\ Forall (fun p =>
               exists entries projectDir jsonlFiles,
                 Fs.readdirSync fs claudeProjectsPath = Ok entries
                 /\ In projectDir entries
                 /\ Js.startsWith projectDir "-" = true
                 /\ getJsonlFiles P fs (path_join P claudeProjectsPath projectDir)
                    = Ok jsonlFiles
                 /\ ProjectInfo.name p = extractProjectName projectDir
                 /\ ProjectInfo.path p = extractProjectPath projectDir
                 /\ ProjectInfo.date p = targetDate
                 /\ (length (ProjectInfo.sessions p) <= length jsonlFiles)%nat
                 /\ Forall (fun s =>
                              SessionInfo.projectPath s = ProjectInfo.path p
                              /\ exists f,
                                   In f jsonlFiles
                                   /\ SessionInfo.sessionId s
                                      = path_basename P f ".jsonl")
                      (ProjectInfo.sessions p))
       (DailyReport.projects report).
Proof.
  intros Hr Hdata.
  apply (report_projects_Forall P fs claudeProjectsPath _ projectName targetDate r
           report); auto.
  intros dirs dir st st' p Hdirs Hin Hp.
  destruct (getProjectDirectories_In P fs claudeProjectsPath dirs dir Hdirs Hin)
    as (entries & Hread & Hentry & Hdash & _).
  destruct (project_facts P fs claudeProjectsPath _ _ _ _ _ Hp)
    as (Hname & Hpath & Hdate & _ & files & Hfiles & Hlen & Hs).
  exists entries, dir, files. repeat split; auto.
  eapply Forall_impl; [|exact Hs]. intros s (f & Hf & Hsome).
  destruct (session_facts P fs _ _ _ _ Hsome) as (Hid & Hpp & _).
  split; [congruence|]. now exists f.
Qed.

Lemma report_identity_witness :
  DailyReport.date Fixtures.fourProjectsReport = "2025-07-03".
Proof.
  refine (proj1 (report_identity Reference.platform Fixtures.fourProjects "/logs"
                   EmptyString "2025-07-03" _ Fixtures.fourProjectsReport
                   (or_introl eq_refl) _)).
  vm_compute. reflexivity.
Defined.

(** The loop of [parseProjectForDate] over the log files never throws.
    It only appends: sessions to the sessions, errors to the errors; it
    pushes no warning; each file gives at most one session or one error,
    and every error names one of the files and has line 0. *)
Theorem one_result_per_log_file (P : Platform) (fs : FileSystem)
    (jsonlFiles : list string) (targetDate actualPath : string)
    (sessions : list SessionInfo.t) (st : ParserState) :
  exists added newErrors,
    forEachJsonlFile P fs jsonlFiles targetDate actualPath sessions st
    = (Ok (sessions ++ added),
       {| errors := errors st ++ newErrors; warnings := warnings st |})
    /\ (length added + length newErrors <= length jsonlFiles)%nat
    /\ Forall (fun e => In (ParseError.file e) jsonlFiles /\ ParseError.line e = 0%Z)
         newErrors.
Proof.
  destruct (forEachJsonlFile_run P fs targetDate actualPath jsonlFiles sessions st)
    as (added & newErrors & H1 & H2 & H3 & _).
  now exists added, newErrors.
Qed.

(* ------------------------------------------------------------------ *)
(** * What is recorded, and when a call succeeds *)

Section RecordingFacts.

Variable P : Platform.
Variable fs : FileSystem.
Variable claudeProjectsPath : string.

Lemma getJsonlFiles_throw (projectPath : string) (e : exn) :
  getJsonlFiles P fs projectPath = Throw e ->
  exists e0, Fs.readdirSync fs projectPath = Throw e0
             /\ e = Error ("Failed to read project directory: " ++ exn_toString e0).
Proof.
  unfold getJsonlFiles. destruct (Fs.readdirSync fs projectPath) as [entries|e0];
    simpl; intros H; [discriminate|].
  injection H as <-. now exists e0.
Qed.

Lemma parseProjectForDate_errors (projectDir targetDate : string) (st : ParserState) :
  Forall (fun e => ParseError.line e = 0%Z) (errors st) ->
  Forall (fun e => ParseError.line e = 0%Z)
    (errors (snd (parseProjectForDate P fs claudeProjectsPath projectDir targetDate st))).
Proof.
  intros H. unfold parseProjectForDate, bind, lift.
  destruct (getJsonlFiles P fs (path_join P claudeProjectsPath projectDir))
    as [jsonlFiles|]; [|exact H].
  destruct (length jsonlFiles =? 0)%nat; [exact H|].
  destruct (forEachJsonlFile_run P fs targetDate (extractProjectPath projectDir)
              jsonlFiles [] st)
    as (added & newErrors & -> & _ & He & _).
  assert (H' : Forall (fun e => ParseError.line e = 0%Z) (errors st ++ newErrors)).
  { apply Forall_app. split; [exact H|].
    eapply Forall_impl; [|exact He]. now intros e [_ He']. }
  destruct (length ([] ++ added) =? 0)%nat; exact H'.
Qed.

Lemma forEachProjectDir_errors (projectDirs : list string) (targetDate : string) :
  forall projects st,
    Forall (fun e => ParseError.line e = 0%Z) (errors st) ->
    Forall (fun e => ParseError.line e = 0%Z)
      (errors (snd (forEachProjectDir P fs claudeProjectsPath projectDirs targetDate
                      projects st))).
Proof.
  induction projectDirs as [|dir rest IH]; intros projects st H; [exact H|].
  rewrite forEachProjectDir_step.
  pose proof (parseProjectForDate_errors dir targetDate st H) as H1.
  destruct (parseProjectForDate P fs claudeProjectsPath dir targetDate st)
    as [[[info|]|e] st1]; simpl in H1; apply IH; auto.
  simpl. apply Forall_app. split; [exact H1|]. now repeat constructor.
Qed.

Lemma finish_errors (body : M DailyReport.t) :
  Forall (fun e => ParseError.line e = 0%Z)
    (errors (snd (body {| errors := []; warnings := [] |}))) ->
  Forall (fun e => ParseError.line e = 0%Z) (ProcessResult.errors (finish body)).
Proof.
  unfold finish. destruct (body _) as [[r|e] st]; simpl; intros H; [exact H|].
  apply Forall_app. split; [exact H|]. now repeat constructor.
Qed.

End RecordingFacts.

(** No ParseError of a result ever carries a line number: whatever the
    log directory holds, every entry of [errors] returned by
    [parseForDate] or [parseProjectOnly] has line 0. *)
Theorem errors_have_line_zero (P : Platform) (fs : FileSystem)
    (claudeProjectsPath projectName targetDate : string) :
  Forall (fun e => ParseError.line e = 0%Z)
    (ProcessResult.errors (parseForDate P fs claudeProjectsPath targetDate))
  /\ Forall (fun e => ParseError.line e = 0%Z)
       (ProcessResult.errors
          (parseProjectOnly P fs claudeProjectsPath projectName targetDate)).
Proof.
  split; apply finish_errors; unfold bind, lift, throw, ret.
  - destruct (negb (isValidDateString P targetDate)); [constructor|].
    destruct (negb (directoryExists fs claudeProjectsPath)); [constructor|].
    destruct (getProjectDirectories P fs claudeProjectsPath) as [projectDirs|];
      [|constructor].
    destruct (length projectDirs =? 0)%nat; [constructor|].
    pose proof (forEachProjectDir_errors P fs claudeProjectsPath projectDirs targetDate
                  [] {| errors := []; warnings := [] |} (Forall_nil _)) as H.
    destruct (forEachProjectDir P fs claudeProjectsPath projectDirs targetDate [] _)
      as [[scanned|e] st]; exact H.
  - destruct (getProjectDirectories P fs claudeProjectsPath) as [projectDirs|];
      [|constructor].
    destruct (find _ projectDirs) as [[|c dir]|]; try constructor.
    pose proof (parseProjectForDate_errors P fs claudeProjectsPath (String c dir)
                  targetDate {| errors := []; warnings := [] |} (Forall_nil _)) as H.
    destruct (parseProjectForDate P fs claudeProjectsPath (String c dir) targetDate _)
      as [[info|e] st]; exact H.
Qed.

(** [parseForDate] succeeds whenever the date is valid and the root
    directory can be listed: nothing that goes wrong inside a project or
    a log file makes the call fail. *)
Theorem parseForDate_succeeds (P : Platform) (fs : FileSystem)
    (claudeProjectsPath targetDate : string) (entries : list string) :
  isValidDateString P targetDate = true ->
  Fs.readdirSync fs claudeProjectsPath = Ok entries ->
  ProcessResult.success (parseForDate P fs claudeProjectsPath targetDate) = true
  /\ exists report,
       ProcessResult.data (parseForDate P fs claudeProjectsPath targetDate) = Some report.
Proof.
  intros Hdate Hread.
  assert (Hdir : directoryExists fs claudeProjectsPath = true).
  { unfold directoryExists, Fs.statIsDirectory. unfold Fs.readdirSync in Hread.
    destruct (fs claudeProjectsPath) as [[c|l]|]; try discriminate. reflexivity. }
  assert (Hdirs : exists projectDirs,
             getProjectDirectories P fs claudeProjectsPath = Ok projectDirs).
  { unfold getProjectDirectories. rewrite Hread. eexists. reflexivity. }
  destruct Hdirs as [projectDirs Hdirs].
  unfold parseForDate, finish, bind, lift, throw, ret.
  rewrite Hdate, Hdir, Hdirs. cbn [negb].
  destruct (length projectDirs =? 0)%nat; [simpl; split; eauto|].
  destruct (forEachProjectDir_Forall P fs claudeProjectsPath (fun _ => True) targetDate
              (fun _ _ _ _ _ => I) projectDirs
              [] {| errors := []; warnings := [] |} (Forall_nil _))
    as (scanned & st' & -> & _).
  simpl. split; eauto.
Qed.

Lemma parseForDate_succeeds_witness :
  ProcessResult.success
    (parseForDate Reference.platform Fixtures.mixedProjects "/logs" "2025-07-03") = true
  /\ exists report,
       ProcessResult.data
         (parseForDate Reference.platform Fixtures.mixedProjects "/logs" "2025-07-03")
       = Some report.
Proof.
  apply (parseForDate_succeeds Reference.platform Fixtures.mixedProjects "/logs"
           "2025-07-03" ["-Users-dev-locked"; "-Users-dev-docs"; "-Users-dev-app"]).
  - reflexivity.
  - reflexivity.
Defined.

Lemma filter_all_false {A} (f : A -> bool) (l : list A) :
  (forall x, In x l -> f x = false) -> filter f l = [].
Proof.
  induction l as [|a l IH]; intros H; [reflexivity|]. simpl.
  rewrite (H a (or_introl eq_refl)). apply IH. intros x Hx. apply H. now right.
Qed.

Section IsolationFacts.

Variable P : Platform.
Variable fs : FileSystem.
Variable claudeProjectsPath : string.

(** A root directory that can be listed but holds no project directory
    (no entry that is a directory and starts with a dash) gives, for a
    valid date, a successful empty report with the warning
    ['No Claude projects found'] and no error. *)
Theorem empty_root_is_a_success (targetDate : string) (entries : list string) :
  isValidDateString P targetDate = true ->
  Fs.readdirSync fs claudeProjectsPath = Ok entries ->
  (forall entry, In entry entries ->
     directoryExists fs (path_join P claudeProjectsPath entry) = false
     \/ Js.startsWith entry "-" = false) ->
  parseForDate P fs claudeProjectsPath targetDate
  = {| ProcessResult.success := true;
       ProcessResult.data :=
         Some {| DailyReport.date := targetDate;
                 DailyReport.projects := [];
                 DailyReport.summary :=
                   {| Summary.totalDuration := 0;
                      Summary.totalMessages := 0;
                      Summary.projectCount := 0;
                      Summary.sessionCount := 0 |} |};
       ProcessResult.errors := [];
       ProcessResult.warnings := ["No Claude projects found"] |}.
Proof.
  intros Hdate Hread Hnone.
  assert (Hdir : directoryExists fs claudeProjectsPath = true).
  { unfold directoryExists, Fs.statIsDirectory. unfold Fs.readdirSync in Hread.
    destruct (fs claudeProjectsPath) as [[c|l]|]; try discriminate. reflexivity. }
  assert (Hdirs : getProjectDirectories P fs claudeProjectsPath = Ok []).
  { unfold getProjectDirectories. rewrite Hread. simpl. f_equal.
    apply filter_all_false. intros entry Hentry.
    destruct (Hnone entry Hentry) as [-> | ->];
      [reflexivity|now rewrite andb_false_r]. }
  unfold parseForDate, finish, bind, lift, throw, ret.
  rewrite Hdate, Hdir, Hdirs. reflexivity.
Qed.

(** A project directory without any [.jsonl] entry is not an error:
    [parseProjectForDate] pushes the warning ['No JSONL files found in
    project: <name>'] and returns null, and [parseForDate] goes on with
    the next directory without adding a project. *)
Theorem project_without_logs_warns (projectDir targetDate : string)
    (entries : list string) (st : ParserState) :
  Fs.readdirSync fs (path_join P claudeProjectsPath projectDir) = Ok entries ->
  (forall entry, In entry entries -> Js.endsWith entry ".jsonl" = false) ->
  let st' := {| errors := errors st;
                warnings := warnings st
                            ++ [("No JSONL files found in project: "
                                 ++ extractProjectName projectDir)%string] |} in
  parseProjectForDate P fs claudeProjectsPath projectDir targetDate st = (Ok None, st')
  /\ forall rest projects,
       forEachProjectDir P fs claudeProjectsPath (projectDir :: rest) targetDate
         projects st
       = forEachProjectDir P fs claudeProjectsPath rest targetDate projects st'.
Proof.
  intros Hread Hnone st'.
  assert (Hfiles : getJsonlFiles P fs (path_join P claudeProjectsPath projectDir) = Ok []).
  { unfold getJsonlFiles. rewrite Hread. simpl.
    now rewrite (filter_all_false _ entries Hnone). }
  assert (H : parseProjectForDate P fs claudeProjectsPath projectDir targetDate st
              = (Ok None, st')).
  { unfold parseProjectForDate, bind, lift. rewrite Hfiles. reflexivity. }
  split; [exact H|].
  intros rest projects. now rewrite forEachProjectDir_step, H.
Qed.

(** A project directory that cannot be listed costs one ParseError, with
    the directory name as file and line 0; [parseForDate] adds no project
    for it and goes on with the next directory. *)
Theorem unreadable_project_is_skipped (projectDir targetDate : string) (error : exn)
    (rest : list string) (projects : list ProjectInfo.t) (st : ParserState) :
  Fs.readdirSync fs (path_join P claudeProjectsPath projectDir) = Throw error ->
  forEachProjectDir P fs claudeProjectsPath (projectDir :: rest) targetDate projects st
  = forEachProjectDir P fs claudeProjectsPath rest targetDate projects
      {| errors := errors st
                   ++ [projectFailure projectDir
                         (Error ("Failed to read project directory: "
                                 ++ exn_toString error))];
         warnings := warnings st |}.
Proof.
  intros Hread. rewrite forEachProjectDir_step.
  assert (Hfiles : getJsonlFiles P fs (path_join P claudeProjectsPath projectDir)
                   = Throw (Error ("Failed to read project directory: "
                                   ++ exn_toString error))).
  { unfold getJsonlFiles. now rewrite Hread. }
  pose proof (parseProjectForDate_throws P fs claudeProjectsPath projectDir targetDate st)
    as H.
  rewrite Hfiles in H. now rewrite H.
Qed.

(** When the root directory is missing (or is not a directory), both
    public methods fail: success false, no data, one error with file
    ['parser'] and no warning. *)
Theorem missing_root_fails (projectName targetDate : string) :
  directoryExists fs claudeProjectsPath = false ->
  (exists error, parseForDate P fs claudeProjectsPath targetDate = failedWith error)
  /\ (exists error,
        parseProjectOnly P fs claudeProjectsPath projectName targetDate
        = failedWith error).
Proof.
  intros H. split.
  - destruct (isValidDateString P targetDate) eqn:E.
    + eexists. now apply parseForDate_missing_root.
    + eexists. now apply parseForDate_invalid_date.
  - destruct (parseProjectOnly_missing_root P fs claudeProjectsPath projectName
                targetDate H) as [e He].
    eexists. exact He.
Qed.

(** [parseForDate] rejects a date that does not parse before it touches
    the file system: the result is the failure ['Invalid date format:
    <date>'] whatever the log directory holds. *)
Theorem invalid_date_fails_parseForDate (targetDate : string) :
  isValidDateString P targetDate = false ->
  parseForDate P fs claudeProjectsPath targetDate
  = failedWith (Error ("Invalid date format: " ++ targetDate)).
Proof. apply parseForDate_invalid_date. Qed.

(** With a root that can be listed, [parseProjectOnly] fails with
    ['Project not found: <name>'] exactly when the name is not among those
    [getAvailableProjects] returns. *)
Theorem not_found_iff_not_available (projectName targetDate : string)
    (projectDirs : list string) :
  getProjectDirectories P fs claudeProjectsPath = Ok projectDirs ->
  (parseProjectOnly P fs claudeProjectsPath projectName targetDate
   = failedWith (Error ("Project not found: " ++ projectName))
   <-> ~ In projectName (getAvailableProjects P fs claudeProjectsPath)).
Proof.
  intros Hdirs. unfold getAvailableProjects. rewrite Hdirs. split.
  - intros Hfail Hin. apply in_map_iff in Hin as (dir & Hname & Hdir).
    destruct (find (fun d => (extractProjectName d =? projectName)%string) projectDirs)
      as [found|] eqn:Efind.
    + destruct (find_some _ _ Efind) as [Hfound _].
      destruct (getProjectDirectories_In P fs claudeProjectsPath _ _ Hdirs Hfound)
        as (_ & _ & _ & Hdash & _).
      destruct found as [|c found]; [discriminate|].
      unfold parseProjectOnly, finish, bind, lift in Hfail.
      rewrite Hdirs, Efind in Hfail.
      pose proof (parseProjectForDate_throws P fs claudeProjectsPath (String c found)
                    targetDate {| errors := []; warnings := [] |}) as Hthrows.
      destruct (getJsonlFiles P fs (path_join P claudeProjectsPath (String c found)))
        as [files|e] eqn:Efiles.
      * destruct Hthrows as (r & st' & Hr). rewrite Hr in Hfail. discriminate.
      * rewrite Hthrows in Hfail.
        destruct (getJsonlFiles_throw P fs _ _ Efiles) as (e0 & _ & ->).
        discriminate.
    + apply (find_none _ _ Efind) in Hdir. apply String.eqb_neq in Hdir. contradiction.
  - intros Hnot. apply (parseProjectOnly_not_found P fs claudeProjectsPath _ _ _ Hdirs).
    intros dir Hdir Hname. apply Hnot. apply in_map_iff. now exists dir.
Qed.

End IsolationFacts.

Lemma empty_root_is_a_success_witness :
  ProcessResult.warnings
    (parseForDate Reference.platform Fixtures.noProjects "/logs" "2025-07-03")
  = ["No Claude projects found"].
Proof.
  rewrite (empty_root_is_a_success Reference.platform Fixtures.noProjects "/logs"
             "2025-07-03" ["notes.txt"; "archive"]).
  - reflexivity.
  - reflexivity.
  - reflexivity.
  - intros entry [<-|[<-|[]]]; [left|right]; reflexivity.
Defined.

Lemma project_without_logs_warns_witness :
  parseProjectForDate Reference.platform Fixtures.mixedProjects "/logs"
    "-Users-dev-docs" "2025-07-03" {| errors := []; warnings := [] |}
  = (Ok None,
     {| errors := []; warnings := ["No JSONL files found in project: docs"] |}).
Proof.
  refine (proj1 (project_without_logs_warns Reference.platform Fixtures.mixedProjects
                   "/logs" "-Users-dev-docs" "2025-07-03" ["README.md"]
                   {| errors := []; warnings := [] |} _ _)).
  - reflexivity.
  - intros entry [<-|[]]. reflexivity.
Defined.

Lemma unreadable_project_is_skipped_witness :
  forEachProjectDir Reference.platform Fixtures.mixedProjects "/logs"
    ["-Users-dev-locked"] "2025-07-03" [] {| errors := []; warnings := [] |}
  = (Ok [],
     {| errors := [projectFailure "-Users-dev-locked"
                     (Error ("Failed to read project directory: "
                             ++ "Error: EACCES: permission denied"))];
        warnings := [] |}).
Proof.
  rewrite (unreadable_project_is_skipped Reference.platform Fixtures.mixedProjects
             "/logs" "-Users-dev-locked" "2025-07-03"
             (Error "EACCES: permission denied")).
  - reflexivity.
  - reflexivity.
Defined.

Lemma missing_root_fails_witness :
  (exists error,
     parseForDate Reference.platform Fixtures.fourProjects "/nowhere" "2025-07-03"
     = failedWith error)
  /\ (exists error,
        parseProjectOnly Reference.platform Fixtures.fourProjects "/nowhere" "app"
          "2025-07-03"
        = failedWith error).
Proof.
  apply missing_root_fails. reflexivity.
Defined.

Lemma invalid_date_fails_parseForDate_witness :
  parseForDate Reference.platform Fixtures.fourProjects "/logs" "2025-02-30"
  = failedWith (Error "Invalid date format: 2025-02-30").
Proof.
  apply (invalid_date_fails_parseForDate Reference.platform Fixtures.fourProjects
           "/logs" "2025-02-30").
  reflexivity.
Defined.

Lemma not_found_iff_not_available_witness :
  parseProjectOnly Reference.platform Fixtures.fourProjects "/logs" "shop" "2025-07-03"
  = failedWith (Error "Project not found: shop").
Proof.
  apply (not_found_iff_not_available Reference.platform Fixtures.fourProjects "/logs"
           "shop" "2025-07-03"
           ["-Users-dev-app"; "-Users-dev-web"; "-Users-dev-api"; "-Users-dev-idle"]).
  - reflexivity.
  - vm_compute. intuition discriminate.
Defined.

(* ------------------------------------------------------------------ *)
(** * One project against the whole report *)

Section AgreementFacts.

Variable P : Platform.
Variable fs : FileSystem.
Variable claudeProjectsPath : string.

(** What was recorded before does not change which sessions are found. *)
Lemma forEachJsonlFile_value (targetDate actualPath : string) (jsonlFiles : list string) :
  forall sessions st st',
    fst (forEachJsonlFile P fs jsonlFiles targetDate actualPath sessions st)
    = fst (forEachJsonlFile P fs jsonlFiles targetDate actualPath sessions st').
Proof.
  induction jsonlFiles as [|f rest IH]; intros sessions st st'; [reflexivity|].
  rewrite !forEachJsonlFile_step.
  destruct (parseSessionFile P fs f targetDate actualPath) as [[info|]|e]; apply IH.
Qed.

Lemma parseProjectForDate_value (projectDir targetDate : string) (st st' : ParserState) :
  fst (parseProjectForDate P fs claudeProjectsPath projectDir targetDate st)
  = fst (parseProjectForDate P fs claudeProjectsPath projectDir targetDate st').
Proof.
  unfold parseProjectForDate, bind, lift.
  destruct (getJsonlFiles P fs (path_join P claudeProjectsPath projectDir))
    as [jsonlFiles|]; [|reflexivity].
  destruct (length jsonlFiles =? 0)%nat; [reflexivity|].
  pose proof (forEachJsonlFile_value targetDate (extractProjectPath projectDir)
                jsonlFiles [] st st') as H.
  destruct (forEachJsonlFile P fs jsonlFiles targetDate (extractProjectPath projectDir)
              [] st) as [[s1|e1] st1],
           (forEachJsonlFile P fs jsonlFiles targetDate (extractProjectPath projectDir)
              [] st') as [[s2|e2] st2];
    simpl in H; try discriminate.
  - injection H as <-. unfold ret. destruct (length s1 =? 0)%nat; reflexivity.
  - simpl. congruence.
Qed.

(** The loop over the project directories keeps what it had and adds the
    project of every directory that has one. *)
Lemma forEachProjectDir_collects (targetDate : string) (projectDirs : list string) :
  forall projects st scanned st',
    forEachProjectDir P fs claudeProjectsPath projectDirs targetDate projects st
    = (Ok scanned, st') ->
    (forall p, In p projects -> In p scanned)
    /\ (forall dir p st0 st0',
          In dir projectDirs ->
          parseProjectForDate P fs claudeProjectsPath dir targetDate st0
          = (Ok (Some p), st0') ->
          In p scanned).
Proof.
  induction projectDirs as [|dir rest IH]; intros projects st scanned st' H.
  - simpl in H. injection H as <- _. split; [auto|]. intros dir p st0 st0' [].
  - rewrite forEachProjectDir_step in H.
    destruct (parseProjectForDate P fs claudeProjectsPath dir targetDate st)
      as [[[info|]|e] st1] eqn:E.
    + destruct (parseProjectForDate_some P fs claudeProjectsPath _ _ _ _ _ E)
        as (sessions & Hb & _).
      pose proof (BuiltFrom_nonempty P fs claudeProjectsPath _ _ _ Hb) as Hne.
      destruct (0 <? length (ProjectInfo.sessions info))%nat eqn:Elen.
      * destruct (IH _ _ _ _ H) as [Hkeep Hadd]. split.
        -- intros p Hp. apply Hkeep. apply in_or_app. now left.
        -- intros d p st0 st0' [<-|Hd] Hp; [|eapply Hadd; eauto].
           pose proof (parseProjectForDate_value dir targetDate st st0) as Hv.
           rewrite E, Hp in Hv. simpl in Hv. injection Hv as <-.
           apply Hkeep. apply in_or_app. right. now left.
      * apply Nat.ltb_ge in Elen.
        destruct (ProjectInfo.sessions info); [contradiction|simpl in Elen; lia].
    + destruct (IH _ _ _ _ H) as [Hkeep Hadd]. split; [exact Hkeep|].
      intros d p st0 st0' [<-|Hd] Hp; [|eapply Hadd; eauto].
      pose proof (parseProjectForDate_value dir targetDate st st0) as Hv.
      rewrite E, Hp in Hv. discriminate.
    + destruct (IH _ _ _ _ H) as [Hkeep Hadd]. split; [exact Hkeep|].
      intros d p st0 st0' [<-|Hd] Hp; [|eapply Hadd; eauto].
      pose proof (parseProjectForDate_value dir targetDate st st0) as Hv.
      rewrite E, Hp in Hv. discriminate.
Qed.

(** Asking for one project gives nothing the whole report does not have:
    for a valid date, whenever [parseProjectOnly] returns a report,
    [parseForDate] returns one too, and every project of the first is a
    project of the second, the very same record. *)
Theorem project_report_agrees (projectName targetDate : string)
    (report : DailyReport.t) :
  isValidDateString P targetDate = true ->
  ProcessResult.data (parseProjectOnly P fs claudeProjectsPath projectName targetDate)
  = Some report ->
  exists whole,
    ProcessResult.data (parseForDate P fs claudeProjectsPath targetDate) = Some whole
    /\ incl (DailyReport.projects report) (DailyReport.projects whole).
Proof.
  intros Hdate Hdata. apply finish_data in Hdata as [stf H].
  unfold bind, lift, throw, ret in H.
  destruct (getProjectDirectories P fs claudeProjectsPath) as [projectDirs|] eqn:Edirs;
    [|discriminate].
  destruct (find _ projectDirs) as [[|c dir]|] eqn:Efind; try discriminate.
  destruct (find_some _ _ Efind) as [Hin _].
  pose proof (getProjectDirectories_ok_root P fs claudeProjectsPath _ Edirs) as Hroot.
  destruct (forEachProjectDir_Forall P fs claudeProjectsPath (fun _ => True) targetDate
              (fun _ _ _ _ _ => I) projectDirs
              [] {| errors := []; warnings := [] |} (Forall_nil _))
    as (scanned & st' & Escan & _).
  exists {| DailyReport.date := targetDate;
            DailyReport.projects := Js.sort byTotalDurationDesc scanned;
            DailyReport.summary := calculateSummary scanned |}.
  split.
  - unfold parseForDate, finish, bind, lift, throw, ret.
    rewrite Hdate, Hroot, Edirs. cbn [negb].
    destruct (length projectDirs =? 0)%nat eqn:Elen.
    + destruct projectDirs; [destruct Hin|discriminate].
    + now rewrite Escan.
  - destruct (parseProjectForDate P fs claudeProjectsPath (String c dir) targetDate _)
      as [[[info|]|e] st1] eqn:E; try discriminate; injection H as <- _; simpl.
    + intros p [<-|[]].
      apply (sort_In byTotalDurationDesc scanned).
      destruct (forEachProjectDir_collects _ _ _ _ _ _ Escan) as [_ Hadd].
      eapply Hadd; eauto.
    + intros p [].
Qed.

End AgreementFacts.

Lemma project_report_agrees_witness :
  exists whole,
    ProcessResult.data
      (parseForDate Reference.platform Fixtures.fourProjects "/logs" "2025-07-03")
    = Some whole
    /\ incl (DailyReport.projects Fixtures.appReport) (DailyReport.projects whole).
Proof.
  apply (project_report_agrees Reference.platform Fixtures.fourProjects "/logs" "app"
           "2025-07-03" Fixtures.appReport).
  - reflexivity.
  - vm_compute. reflexivity.
Defined.

(* ------------------------------------------------------------------ *)
(** * When a log file gives a session, and when it fails after parsing *)

Lemma filterM_throws {A} (f : A -> result bool) (l : list A) (x : A) (e : exn) :
  In x l -> f x = Throw e -> exists e', Js.filterM f l = Throw e'.
Proof.
  induction l as [|a l IH]; intros Hin Hx; [destruct Hin|]. simpl.
  destruct (f a) as [keep|e0] eqn:Ea; [|now exists e0]. simpl.
  destruct Hin as [->|Hin]; [congruence|].
  destruct (IH Hin Hx) as [e' ->]. now exists e'.
Qed.

Lemma filterM_throw_inv {A} (f : A -> result bool) (l : list A) (e : exn) :
  Js.filterM f l = Throw e -> exists x, In x l /\ f x = Throw e.
Proof.
  induction l as [|a l IH]; simpl; intros H; [discriminate|].
  destruct (f a) as [keep|e0] eqn:Ea; simpl in H.
  - destruct (Js.filterM f l) as [kept|e1]; simpl in H; [discriminate|].
    injection H as ->. destruct (IH eq_refl) as (x & Hx & Hfx).
    exists x. split; [now right|exact Hfx].
  - injection H as ->. exists a. split; [now left|exact Ea].
Qed.

Section SessionOutcomeFacts.

Variable P : Platform.
Variable fs : FileSystem.

Lemma onTargetDate_throw (targetDate : string) (entry : json) (e : exn) :
  onTargetDate P targetDate entry = Throw e -> exists message, e = TypeError message.
Proof.
  unfold onTargetDate. destruct entry as [| | | | |members]; simpl; intros H;
    try discriminate; try (injection H as <-; eexists; reflexivity).
  destruct (Json.lookup "timestamp" members) as [ts|]; [|discriminate].
  destruct (negb (Json.truthy (Some ts))); [discriminate|].
  destruct ts; simpl in H; try discriminate;
    injection H as <-; eexists; reflexivity.
Qed.

(** The converse of the rule for files without instruction: when the
    events of the target day include at least one that passes the user
    filter, and the text of each of them can be extracted, the file gives
    a session; it holds those texts in the order of the log, counts them,
    and is named after the file. *)
Theorem user_instruction_gives_session (filePath targetDate projectPath : string)
    (entries targetEntries userEntries : list json) (userMessages : list json) :
  readJsonlFile P fs filePath = Ok entries ->
  Js.filterM (onTargetDate P targetDate) entries = Ok targetEntries ->
  Js.filterM isUserMessage targetEntries = Ok userEntries ->
  Js.mapM userMessageOf userEntries = Ok userMessages ->
  userEntries <> [] ->
  exists s,
    parseSessionFile P fs filePath targetDate projectPath = Ok (Some s)
    /\ SessionInfo.userMessages s = userMessages
    /\ SessionInfo.messageCount s = Z.of_nat (length userEntries)
    /\ SessionInfo.sessionId s = path_basename P filePath ".jsonl"
    /\ SessionInfo.projectPath s = projectPath.
Proof.
  intros Hread Hfilter Huser Hmsgs Hne.
  destruct (targetEntries_stamped P _ _ _ Hfilter) as [Hstamped (dates & Hdates & Hvalid)].
  rewrite Forall_forall in Hvalid.
  assert (Hlen : length userMessages = length userEntries)
    by (now apply mapM_length in Hmsgs).
  assert (Htarget : targetEntries <> []).
  { destruct userEntries as [|u rest]; [contradiction|].
    destruct (filterM_In _ _ _ Huser u (or_introl eq_refl)) as [Hin _].
    intros ->. destruct Hin. }
  assert (Hdlen : length dates = length targetEntries)
    by (now apply mapM_length in Hdates).
  set (sorted := Js.sort DateFns.compareTime dates).
  assert (Hslen : length sorted = length targetEntries)
    by (unfold sorted; now rewrite sort_length).
  assert (Hpos : (0 < length sorted)%nat).
  { rewrite Hslen. destruct targetEntries; [contradiction|simpl; lia]. }
  assert (Hsome : forall i, (i < length sorted)%nat ->
                    exists t, nth_error sorted i = Some (Some t)).
  { intros i Hi. destruct (nth_error sorted i) as [d|] eqn:E.
    - assert (Hd : In d dates)
        by (apply (sort_In DateFns.compareTime dates); eapply nth_error_In; eauto).
      destruct d as [t|]; [now exists t|now destruct (Hvalid None Hd)].
    - apply nth_error_None in E. lia. }
  destruct (Hsome 0%nat Hpos) as [t0 H0].
  destruct (Hsome (length sorted - 1)%nat ltac:(lia)) as [t1 H1].
  unfold parseSessionFile. rewrite Hread.
  cbv beta iota zeta delta [rbind]. rewrite Hfilter.
  destruct (length targetEntries =? 0)%nat eqn:E1.
  { apply Nat.eqb_eq in E1. destruct targetEntries; [contradiction|discriminate]. }
  rewrite Huser, Hmsgs.
  destruct (length userMessages =? 0)%nat eqn:E2.
  { apply Nat.eqb_eq in E2. rewrite Hlen in E2.
    destruct userEntries; [contradiction|discriminate]. }
  rewrite Hstamped, Hdates. fold sorted.
  destruct (length sorted =? 0)%nat eqn:E3.
  { apply Nat.eqb_eq in E3. lia. }
  rewrite H0, H1. simpl.
  eexists. split; [reflexivity|]. simpl. repeat split; auto.
Qed.

(** A line that holds the JSON value [null] parses, but the file fails
    all the same: reading [entry.timestamp] throws a TypeError, so
    [parseSessionFile] throws, one ParseError with line 0 is recorded for
    the file and it gives no session: the loop over the files goes on with
    the sessions it had, and run on that file alone it returns them
    unchanged with exactly that one error appended. *)
Theorem null_record_fails_the_file (filePath targetDate projectPath : string)
    (entries : list json) :
  readJsonlFile P fs filePath = Ok entries ->
  In JNull entries ->
  exists message,
    parseSessionFile P fs filePath targetDate projectPath = Throw (TypeError message)
    /\ (forall rest sessions st,
          forEachJsonlFile P fs (filePath :: rest) targetDate projectPath sessions st
          = forEachJsonlFile P fs rest targetDate projectPath sessions
              {| errors := errors st
                           ++ [sessionFileFailure filePath (TypeError message)];
                 warnings := warnings st |})
    /\ (forall sessions st,
          forEachJsonlFile P fs [filePath] targetDate projectPath sessions st
          = (Ok sessions,
             {| errors := errors st
                          ++ [sessionFileFailure filePath (TypeError message)];
                warnings := warnings st |})).
Proof.
  intros Hread Hnull.
  destruct (filterM_throws (onTargetDate P targetDate) entries JNull _ Hnull eq_refl)
    as [e He].
  destruct (filterM_throw_inv _ _ _ He) as (x & _ & Hx).
  destruct (onTargetDate_throw _ _ _ Hx) as [message ->].
  exists message.
  assert (H : parseSessionFile P fs filePath targetDate projectPath
              = Throw (TypeError message)).
  { unfold parseSessionFile. rewrite Hread.
    cbv beta iota zeta delta [rbind]. now rewrite He. }
  split; [exact H|]. split.
  - intros rest sessions st. now apply forEachJsonlFile_throw.
  - intros sessions st. now apply forEachJsonlFile_throw_alone.
Qed.

End SessionOutcomeFacts.

Lemma user_instruction_gives_session_witness :
  exists s,
    parseSessionFile Reference.platform
      (Fixtures.oneLog (Reference.unlines Fixtures.threeLines))
      Fixtures.s1 "2025-07-03" "Users/dev/app"
    = Ok (Some s)
    /\ SessionInfo.userMessages s = [JStr "fix bug"]
    /\ SessionInfo.messageCount s = 1%Z
    /\ SessionInfo.sessionId s = "s1"
    /\ SessionInfo.projectPath s = "Users/dev/app".
Proof.
  apply (user_instruction_gives_session Reference.platform
           (Fixtures.oneLog (Reference.unlines Fixtures.threeLines))
           Fixtures.s1 "2025-07-03" "Users/dev/app"
           Fixtures.threeRecords (firstn 2 Fixtures.threeRecords)
           (firstn 1 Fixtures.threeRecords) [JStr "fix bug"]).
  - vm_compute. reflexivity.
  - vm_compute. reflexivity.
  - vm_compute. reflexivity.
  - vm_compute. reflexivity.
  - discriminate.
Defined.

Lemma null_record_fails_the_file_witness :
  let log :=
    Fixtures.oneLog
      (Reference.unlines [Fixtures.userLine "2025-07-03T09:00:00.000Z" "fix bug";
                          "null"]) in
  let failure := TypeError "Cannot read properties of null (reading 'timestamp')" in
  parseSessionFile Reference.platform log Fixtures.s1 "2025-07-03" "Users/dev/app"
  = Throw failure
  /\ forEachJsonlFile Reference.platform log [Fixtures.s1] "2025-07-03"
       "Users/dev/app" [] {| errors := []; warnings := [] |}
     = (Ok [],
        {| errors :=
             [{| ParseError.file := Fixtures.s1; ParseError.line := 0;
                 ParseError.message :=
                   "Failed to parse session file: TypeError: Cannot read properties of null (reading 'timestamp')";
                 ParseError.originalError := failure |}];
           warnings := [] |}).
Proof.
  intros log failure.
  destruct (null_record_fails_the_file Reference.platform log
              Fixtures.s1 "2025-07-03" "Users/dev/app"
              [Fixtures.userRecord "2025-07-03T09:00:00.000Z" "fix bug"; JNull])
    as (message & H & _ & Halone).
  - vm_compute. reflexivity.
  - right. now left.
  - assert (Hm : message = "Cannot read properties of null (reading 'timestamp')").
    { pose proof H as H'. vm_compute in H'. injection H' as H'. now symmetry. }
    subst message. split; [exact H|].
    exact (Halone [] {| errors := []; warnings := [] |}).
Defined.
